(** * Adaptive recommendation and scoring engine

    A shallow embedding of the engine of the two dashboards
    ([CODE-EDUCATIONAL-TRANSFORMATION-06.py] and [CODE-IDM-04-E.py]):
    the logistic scoring model, the per-domain ability estimate, the
    recommendation engine, the trajectory simulator, the weekly planning
    agent and the guarded call of the explanation service.

    Conventions of the embedding.
    - A Python/NumPy float is read as a real number ([R]): rounding,
      infinities and NaN are outside the model.  Where rounding decides,
      the arithmetic is given a second time over binary64 ([Binary64]); a
      decimal literal there is the nearest binary64 value, as in Python.
    - A pandas [DataFrame] is the list of its rows, in row order; a boolean
      mask is [filter]; [.iloc[0]] on an empty selection raises [IndexError].
    - Dates are day ordinals ([Z]); [datetime.now().date()] is an argument
      named [today].
    - The random generator is an explicit state threaded through the
      simulator. *)

From Stdlib Require Import Reals Lra Lia ZArith List String Ascii Bool.
From Stdlib Require Import Permutation Sorted OrderedTypeEx.
From Stdlib Require Import DecimalString FunctionalExtensionality.
From Stdlib Require Import PrimFloat.
Set Warnings "-inexact-float".
From ExtLib Require Import Structures.Monad Data.Monads.StateMonad.
Import ListNotations.
Import MonadNotation.

Open Scope string_scope.
Open Scope list_scope.
Open Scope monad_scope.
Open Scope R_scope.

(** ** Python results: a value or a raised exception *)

Inductive exn : Type :=
| IndexError
| ImportError.

Inductive result (A : Type) : Type :=
| Ok (a : A)
| Raise (e : exn).

Arguments Ok {A} a.
Arguments Raise {A} e.

#[export] Instance Monad_result : Monad result :=
  {| ret := fun A (a : A) => Ok a;
     bind := fun A B (m : result A) (k : A -> result B) =>
               match m with
               | Ok a => k a
               | Raise e => Raise e
               end |}.

(** [df.iloc[0]]: the first row, [IndexError] on an empty frame. *)
Definition iloc0 {A : Type} (df : list A) : result A :=
  match df with
  | [] => Raise IndexError
  | row :: _ => Ok row
  end.

(** ** NumPy helpers *)

(** [np.clip(x, lo, hi)] is [minimum(maximum(x, lo), hi)]. *)
Definition clip (x lo hi : R) : R := Rmin (Rmax x lo) hi.

Definition Rleb (x y : R) : bool := if Rle_dec x y then true else false.

Definition sum (l : list R) : R := fold_right Rplus 0 l.

(** [Series.mean()]: the sum over the number of rows. *)
Definition mean (l : list R) : R := sum l / INR (List.length l).

(** ** Scoring model *)

Definition p_success (a b theta : R) : R :=
  1 / (1 + exp (- a * (theta - b))).

(** ** The in-memory tables *)

Definition DOMAINS : list string :=
  ["Algebra"; "Probability"; "Calculus"; "Statistics"; "Programming"]%string.

(** A row of [DF_STUD].  The table has one [affinity_<d>] column per domain;
    [affinity row d] reads [row[f"affinity_{d}"]]. *)
Module Student.
Record t : Type := mk {
  student_id : Z;
  ability_g : R;
  engagement : R;
  pace_min_day : R;
  goal_hours_week : R;
  affinity : string -> R
}.
End Student.

(** A row of [DF_ITEMS]. *)
Module Item.
Record t : Type := mk {
  item_id : Z;
  domain : string;
  a : R;
  b : R;
  t_expected_min : R
}.
End Item.

(** A row of [DF_TRAJ]. *)
Module Traj.
Record t : Type := mk {
  student_id : Z;
  domain : string;
  date : Z;
  minutes : Z;
  micro_score : R
}.
End Traj.

(** A row of [candidates]: the item's columns with [gap] and [p_success]. *)
Module Candidate.
Record t : Type := mk {
  item : Item.t;
  gap : R;
  p_success : R
}.
Definition domain (c : t) : string := Item.domain (item c).
End Candidate.

(** A row of the recommendation frame: a candidate with [theta_d]. *)
Module Rec.
Record t : Type := mk {
  row : Candidate.t;
  theta_d : R
}.
Definition domain (r : t) : string := Candidate.domain (row r).
Definition gap (r : t) : R := Candidate.gap (row r).
Definition item_id (r : t) : Z := Item.item_id (Candidate.item (row r)).
End Rec.

(** ** Sorting frames *)

(** A stable insertion sort for a boolean "less or equal" on rows. *)
Section StableSort.
Context {A : Type} (leb : A -> A -> bool).

Fixpoint insert_row (x : A) (l : list A) : list A :=
  match l with
  | [] => [x]
  | y :: l' => if leb x y then x :: l else y :: insert_row x l'
  end.

(** Rows are inserted from the last to the first, each one in front of the
    rows it ties with: equal keys keep their original order. *)
Definition stable_sort (l : list A) : list A := fold_right insert_row [] l.
End StableSort.

Definition gap_leb (x y : Candidate.t) : bool :=
  Rleb (Candidate.gap x) (Candidate.gap y).

(** [sort_values(["domain", "gap"])]: first key the domain name, compared as
    a Python string (code point by code point), second key the gap. *)
Definition domain_gap_leb (x y : Rec.t) : bool :=
  match String.compare (Rec.domain x) (Rec.domain y) with
  | Lt => true
  | Eq => Rleb (Rec.gap x) (Rec.gap y)
  | Gt => false
  end.

(** A sort on several columns is pandas' lexsort, which is stable. *)
Definition sort_values_domain_gap : list Rec.t -> list Rec.t :=
  stable_sort domain_gap_leb.

(** ** Recommendation engine *)

Section RecommendationEngine.

(** [candidates.sort_values("gap")].  The call leaves [kind] at its
    default, ["quicksort"], for which pandas promises an ascending
    permutation of the rows and nothing on the order of equal keys; the
    algorithm itself lives in NumPy.  The engine is therefore embedded
    over the sort it is run with. *)
Variable sort_values_gap : list Candidate.t -> list Candidate.t.

(** The rows of [score_history] for one learner and one domain. *)
Definition hist_of (student_id : Z) (d : string)
           (score_history : list Traj.t) : list Traj.t :=
  filter (fun h => (Traj.student_id h =? student_id)%Z
                   && String.eqb (Traj.domain h) d) score_history.

(** The [theta_d] of one turn of the loop over [DOMAINS]. *)
Definition theta_d (student_id : Z) (df_students : list Student.t)
           (score_history : list Traj.t) (d : string) : result R :=
  let hist := hist_of student_id d score_history in
  if (0 <? List.length hist)%nat then
    ret (clip ((mean (map Traj.micro_score hist) - 0.5) / 0.2) (-2.5) 2.5)
  else
    row <- iloc0 (filter (fun s => (Student.student_id s =? student_id)%Z)
                         df_students) ;;
    ret (clip (Student.ability_g row * 0.7 + Student.affinity row d * 0.3)
              (-2.5) 2.5).

(** [df_items[df_items.domain == d]] with the columns [gap], [p_success]. *)
Definition candidates (df_items : list Item.t) (d : string) (theta : R)
  : list Candidate.t :=
  map (fun it => Candidate.mk it (Rabs (Item.b it - theta))
                              (p_success (Item.a it) (Item.b it) theta))
      (filter (fun it => String.eqb (Item.domain it) d) df_items).

(** [candidates.sort_values("gap").head(3)] with the column [theta_d]. *)
Definition top (df_items : list Item.t) (d : string) (theta : R)
  : list Rec.t :=
  map (fun c => Rec.mk c theta)
      (firstn 3 (sort_values_gap (candidates df_items d theta))).

(** One turn of the loop: the frame appended to [recs]. *)
Definition recommend_domain (student_id : Z) (df_students : list Student.t)
           (df_items : list Item.t) (score_history : list Traj.t)
           (d : string) : result (list Rec.t) :=
  theta <- theta_d student_id df_students score_history d ;;
  ret (top df_items d theta).

(** The loop [for d in DOMAINS], collecting [recs]. *)
Fixpoint recs_loop (student_id : Z) (df_students : list Student.t)
         (df_items : list Item.t) (score_history : list Traj.t)
         (domains : list string) : result (list (list Rec.t)) :=
  match domains with
  | [] => ret []
  | d :: domains' =>
      top_d <- recommend_domain student_id df_students df_items
                                score_history d ;;
      recs <- recs_loop student_id df_students df_items score_history
                        domains' ;;
      ret (top_d :: recs)
  end.

Definition recommend_items (student_id : Z) (df_students : list Student.t)
           (df_items : list Item.t) (score_history : list Traj.t)
  : result (list Rec.t) :=
  recs <- recs_loop student_id df_students df_items score_history DOMAINS ;;
  ret (sort_values_domain_gap (List.concat recs)).

End RecommendationEngine.

(** ** Trajectory simulator *)

Section Simulator.

(** NumPy's global generator: its state and the two samplers drawn from. *)
Variable rng : Type.
Variable poisson : R -> state rng Z.
Variable normal : R -> R -> state rng R.

(** A [for] loop whose body appends rows. *)
Fixpoint for_rows {A B : Type} (l : list A)
         (body : A -> state rng (list B)) : state rng (list B) :=
  match l with
  | [] => ret []
  | x :: l' =>
      rows <- body x ;;
      rest <- for_rows l' body ;;
      ret (rows ++ rest)
  end.

(** The body of [for k in range(days)]. *)
Definition simulate_day (today : Z) (r : Student.t) (d : string) (lam : R)
           (days k : nat) : state rng (list Traj.t) :=
  let dt := (today - (Z.of_nat days - Z.of_nat k))%Z in
  minutes <- poisson (lam / 4.5) ;;
  noise <- normal 0 0.08 ;;
  let mu := 0.55 + 0.18 * Student.ability_g r
            + 0.12 * Student.affinity r d + noise in
  let micro := clip mu 0.05 0.98 in
  ret [Traj.mk (Student.student_id r) d dt minutes micro].

Definition simulate_trajectories (today : Z) (df_students : list Student.t)
           (domains : list string) (days : nat) : state rng (list Traj.t) :=
  for_rows df_students (fun r =>
    for_rows domains (fun d =>
      let lam := Rmax 5 (Student.pace_min_day r
                         * (0.5 + 0.5 * (Student.affinity r d + 2) / 4)) in
      for_rows (seq 0 days) (simulate_day today r d lam days))).

End Simulator.

(** ** Recent-progress aggregator *)

(** A row of [recent_progress]. *)
Module Agg.
Record t : Type := mk {
  student_id : Z;
  domain : string;
  minutes : Z;
  micro_mean : R
}.
End Agg.

(** [groupby] lists every distinct key once, in ascending order. *)
Section GroupBy.
Context {K : Type} (cmp : K -> K -> comparison).

Fixpoint insert_key (k : K) (keys : list K) : list K :=
  match keys with
  | [] => [k]
  | k' :: keys' =>
      match cmp k k' with
      | Lt => k :: keys
      | Eq => keys
      | Gt => k' :: insert_key k keys'
      end
  end.

Definition group_keys (keys : list K) : list K :=
  fold_right insert_key [] keys.
End GroupBy.

Definition pair_compare (k1 k2 : Z * string) : comparison :=
  match Z.compare (fst k1) (fst k2) with
  | Eq => String.compare (snd k1) (snd k2)
  | c => c
  end.

Definition traj_key (r : Traj.t) : Z * string :=
  (Traj.student_id r, Traj.domain r).

Definition pair_eqb (k1 k2 : Z * string) : bool :=
  (fst k1 =? fst k2)%Z && String.eqb (snd k1) (snd k2).

Definition Zsum (l : list Z) : Z := fold_right Z.add 0%Z l.

Definition recent_progress (today : Z) (df_traj : list Traj.t) (days : Z)
  : list Agg.t :=
  let cutoff := (today - days)%Z in
  let df := filter (fun r => (cutoff <=? Traj.date r)%Z) df_traj in
  map (fun k =>
         let g := filter (fun r => pair_eqb (traj_key r) k) df in
         Agg.mk (fst k) (snd k) (Zsum (map Traj.minutes g))
                (mean (map Traj.micro_score g)))
      (group_keys pair_compare (map traj_key df)).

(** ** Weekly planning agent *)

(** A row of [df_sched]. *)
Module Sched.
Record t : Type := mk {
  domain : string;
  day : string;
  hours : R
}.
End Sched.

Definition DAYS : list string :=
  ["Mon"; "Tue"; "Wed"; "Thu"; "Fri"; "Sat"; "Sun"]%string.

Definition DAY_SHAPE : list R := [1.1; 1.1; 1.1; 1.0; 1.0; 0.8; 0.9].

(** The frame [weights] before the [groupby]: columns [domain], [weight]. *)
Definition raw_weights (priority : string) (df7s : list Agg.t)
  : list (string * R) :=
  if (List.length df7s =? 0)%nat then
    map (fun d => (d, 1 / INR (List.length DOMAINS))) DOMAINS
  else if String.eqb priority "weak" then
    map (fun r => (Agg.domain r, 1 - Agg.micro_mean r)) df7s
  else if String.eqb priority "strong" then
    map (fun r => (Agg.domain r, Agg.micro_mean r)) df7s
  else
    map (fun r => (Agg.domain r, 1.0)) df7s.

(** [weights.groupby("domain").agg(weight=("weight", "mean"))]. *)
Definition mean_by_domain (weights : list (string * R)) : list (string * R) :=
  map (fun d => (d, mean (map snd (filter (fun w => String.eqb (fst w) d)
                                          weights))))
      (group_keys String.compare (map fst weights)).

(** [weights["weight"] / weights["weight"].sum()]. *)
Definition normalize (weights : list (string * R)) : list (string * R) :=
  let total := sum (map snd weights) in
  map (fun w => (fst w, snd w / total)) weights.

Definition day_weights (engagement : R) : list R :=
  let dw := map (fun s => s * (0.8 + 0.4 * engagement)) DAY_SHAPE in
  map (fun w => w / sum dw) dw.

(** The rows of one domain: [assign = base * day_weights] and the loop
    [for i, day in enumerate(days)]. *)
Definition day_cells (d : string) (base engagement : R) : list Sched.t :=
  let assign := map (fun w => base * w) (day_weights engagement) in
  map (fun da => Sched.mk d (fst da) (snd da)) (combine DAYS assign).

(** The loop [for d in weights["domain"]], collecting [rows]. *)
Fixpoint plan_rows (hours : list (string * R)) (engagement : R)
         (domains : list string) : result (list Sched.t) :=
  match domains with
  | [] => ret []
  | d :: domains' =>
      base <- iloc0 (map snd (filter (fun w => String.eqb (fst w) d) hours)) ;;
      rest <- plan_rows hours engagement domains' ;;
      ret (day_cells d base engagement ++ rest)
  end.

(** The rows of [df_sched], from which the stacked bar chart is drawn. *)
Definition build_agent_plan (today : Z) (DF_TRAJ : list Traj.t)
           (DF_STUD : list Student.t) (student_id : Z) (priority : string)
           (goal_h : R) : result (list Sched.t) :=
  let df7 := recent_progress today DF_TRAJ 7 in
  let df7s := filter (fun r => (Agg.student_id r =? student_id)%Z) df7 in
  let weights := normalize (mean_by_domain (raw_weights priority df7s)) in
  engagement <- iloc0 (map Student.engagement
                           (filter (fun s => (Student.student_id s
                                              =? student_id)%Z) DF_STUD)) ;;
  let hours := map (fun w => (fst w, snd w * goal_h)) weights in
  plan_rows hours engagement (map fst weights).

(** Hours of the plan: all cells, and the cells of one domain. *)
Definition total_hours (plan : list Sched.t) : R := sum (map Sched.hours plan).

Definition domain_hours (plan : list Sched.t) (d : string) : R :=
  sum (map Sched.hours
           (filter (fun c => String.eqb (Sched.domain c) d) plan)).

(** ** The planning arithmetic in binary64 *)

(** [build_agent_plan] from the frame [weights] of the [groupby] on, with
    NumPy's [float64] (IEEE 754 binary64, round to nearest even) in place
    of the reals: the same steps as [normalize], [day_weights],
    [day_cells] and [plan_rows], each operation rounded as the code rounds
    it. *)
Module Binary64.

Record cell : Type := mk_cell {
  domain : string;
  day : string;
  hours : float
}.

Definition DAY_SHAPE : list float :=
  [1.1; 1.1; 1.1; 1.0; 1.0; 0.8; 0.9]%float.

(** [.sum()] of a vector of fewer than eight elements: added one by one,
    in order. *)
Definition sum (l : list float) : float :=
  fold_left PrimFloat.add l 0%float.

(** [weights["weight"] / weights["weight"].sum()]. *)
Definition normalize (weights : list (string * float))
  : list (string * float) :=
  let total := sum (map snd weights) in
  map (fun w => (fst w, (snd w / total)%float)) weights.

Definition day_weights (engagement : float) : list float :=
  let dw := map (fun s => (s * (0.8 + 0.4 * engagement))%float) DAY_SHAPE in
  map (fun w => (w / sum dw)%float) dw.

Definition day_cells (d : string) (base engagement : float) : list cell :=
  let assign := map (fun w => (base * w)%float) (day_weights engagement) in
  map (fun da => mk_cell d (fst da) (snd da)) (combine DAYS assign).

Fixpoint plan_rows (hours : list (string * float)) (engagement : float)
         (domains : list string) : result (list cell) :=
  match domains with
  | [] => ret []
  | d :: domains' =>
      base <- iloc0 (map snd (filter (fun w => String.eqb (fst w) d) hours)) ;;
      rest <- plan_rows hours engagement domains' ;;
      ret (day_cells d base engagement ++ rest)
  end.

(** The rows of [df_sched] for the frame [weights] (one row per domain,
    column [weight] the mean of the domain), the engagement read from
    [DF_STUD] and the goal. *)
Definition plan (weights : list (string * float)) (engagement goal_h : float)
  : result (list cell) :=
  let weights := normalize weights in
  let hours := map (fun w => (fst w, (snd w * goal_h)%float)) weights in
  plan_rows hours engagement (map fst weights).

End Binary64.

(** ** Explanation client *)

Module Chat.
(** An entry of the [messages] argument. *)
Record message : Type := mk_message { role : string; content : string }.

(** What [client.chat.completions.create] answers:

    [resp.choices[i].message.content], each level possibly [None]. *)
Record reply : Type := mk_reply { reply_content : option string }.
Record choice : Type := mk_choice { choice_message : option reply }.
Record completion : Type := mk_completion { choices : list choice }.

(** The call either raises (with the text of the exception) or returns. *)
Inductive outcome : Type :=
| Raises (detail : string)
| Returns (resp : option completion).
End Chat.

(** Python truth value of an optional string: [None] and [""] are false. *)
Definition truthy (s : option string) : bool :=
  match s with
  | None => false
  | Some s' => negb (String.eqb s' "")
  end.

Definition NO_LIBRARY_MESSAGE : string :=
  "The environment does not have the OpenAI library installed. Please install it using 'pip install openai'.".

Definition NO_KEY_MESSAGE : string :=
  "No API Key received. Please enter your API Key at the top and resend your question.".

Definition NO_CONTENT_MESSAGE : string :=
  "The API responded without content. Try again.".

Definition KEY_PROMPT_MESSAGE : string :=
  "Enter your OpenAI API key at the top to get an AI-generated explanation for these recommendations.".

Definition newline : string := String (ascii_of_nat 10) EmptyString.

(** The third output of [update_learning]: the italic hint shown without a
    key, or the text put after "AI explanation: ". *)
Inductive explanation : Type :=
| KeyHint (text : string)
| AIExplanation (text : string).

Section ExplanationClient.

(** [CODE-IDM-04-E.py]: the import guard and the remote service. *)
Variable OPENAI_OK : bool.
Variable chat_create : string -> list Chat.message -> Chat.outcome.

(** The returned value is a [str], or [None] when the reply has no
    content. *)
Definition safe_openai_call (api_key : option string)
           (system_instruction : string) (history : list Chat.message)
  : result (option string) :=
  if negb OPENAI_OK then ret (Some NO_LIBRARY_MESSAGE)
  else if negb (truthy api_key) then ret (Some NO_KEY_MESSAGE)
  else
    match chat_create (match api_key with Some k => k | None => "" end)
                      history with
    | Chat.Raises detail =>
        ret (Some ("The digital mentor is active with OpenAI, but the call failed."
                     ++ newline ++ "Details: " ++ detail ++ newline
                     ++ "You can try again or check your key.")%string)
    | Chat.Returns None => ret (Some NO_CONTENT_MESSAGE)
    | Chat.Returns (Some resp) =>
        match Chat.choices resp with
        | [] => ret (Some NO_CONTENT_MESSAGE)
        | c :: _ =>
            match Chat.choice_message c with
            | None => ret (Some NO_CONTENT_MESSAGE)
            | Some m => ret (Chat.reply_content m)
            end
        end
    end.

(** [CODE-EDUCATIONAL-TRANSFORMATION-06.py]: the prompt built from the
    table of recommendations, and the outcome of the [try] block around
    the remote call ([inr]: the stripped text of the first choice, [inl]:
    the text of the exception caught).  The prompt is built before the
    [try] block, with [recs_show.to_markdown]: pandas raises [ImportError]
    there when the optional package tabulate is missing, and nothing
    catches it. *)
Variable sort_values_gap : list Candidate.t -> list Candidate.t.
Variable prompt_of : Z -> string -> list Rec.t -> result string.
Variable explain_remote : string -> string -> string + string.

(** A [dcc.Store] holding a dict: [None], [{}] or [{"api_key": key}]. *)
Fixpoint dict_get (k : string) (d : list (string * string))
  : option string :=
  match d with
  | [] => None
  | (k', v) :: d' => if String.eqb k k' then Some v else dict_get k d'
  end.

Definition stored_key (api_store : option (list (string * string)))
  : option string :=
  match api_store with
  | None => None
  | Some d => dict_get "api_key" d
  end.

(** The explanation output of the callback; the figure and the table do
    not take part in it. *)
Definition update_learning (DF_STUD : list Student.t)
           (DF_ITEMS : list Item.t) (DF_TRAJ : list Traj.t)
           (student_id : Z) (dom : string)
           (api_store : option (list (string * string)))
  : result explanation :=
  recs <- recommend_items sort_values_gap student_id DF_STUD DF_ITEMS
                          DF_TRAJ ;;
  if negb (truthy (stored_key api_store)) then
    ret (KeyHint KEY_PROMPT_MESSAGE)
  else
    let api_key := match stored_key api_store with
                   | Some k => k
                   | None => ""
                   end in
    prompt <- prompt_of student_id dom recs ;;
    match explain_remote api_key prompt with
    | inr text => ret (AIExplanation text)
    | inl detail =>
        ret (AIExplanation ("AI explanation could not be retrieved: "
                              ++ detail)%string)
    end.

End ExplanationClient.

(** ** Sorts to run the engine with *)

(** Ascending gap, equal gaps in the order of the item bank. *)
Definition sort_values_gap_stable : list Candidate.t -> list Candidate.t :=
  stable_sort gap_leb.

(** NumPy's [argsort] for [kind="quicksort"], the sort pandas hands the
    column to: an introsort on the array [tosort] of row positions.  A
    range of more than 17 positions is partitioned around the median of
    its first, middle and last row, the larger part is put on a stack and
    the smaller one is partitioned in turn; a range of at most 17 is
    insertion-sorted; a range taken from the stack after more than
    [2 * floor (log2 num)] partitions is heap-sorted.  Pointers into
    [tosort] are positions ([Z]); every loop runs on fuel that its bounds
    never exhaust. *)
Module NumPy.

Definition SMALL_QUICKSORT : Z := 16.

Section ArgSort.

(** [less i j]: [Tag::less(v[i], v[j])] on the column [v] being sorted. *)
Variable less : nat -> nat -> bool.

Definition get (tosort : list nat) (p : Z) : nat :=
  nth (Z.to_nat p) tosort 0%nat.

Fixpoint put_nth (n : nat) (x : nat) (l : list nat) : list nat :=
  match l, n with
  | [], _ => []
  | _ :: l', O => x :: l'
  | y :: l', S n' => y :: put_nth n' x l'
  end.

Definition put (tosort : list nat) (p : Z) (x : nat) : list nat :=
  put_nth (Z.to_nat p) x tosort.

Definition INTP_SWAP (tosort : list nat) (p q : Z) : list nat :=
  put (put tosort p (get tosort q)) q (get tosort p).

(** [do ++pi; while (less(v[*pi], vp))], entered at the incremented [pi]. *)
Fixpoint scan_up (fuel : nat) (tosort : list nat) (vp : nat) (pi : Z) : Z :=
  match fuel with
  | O => pi
  | S fuel' =>
      if less (get tosort pi) vp then scan_up fuel' tosort vp (pi + 1)%Z
      else pi
  end.

(** [do --pj; while (less(vp, v[*pj]))], entered at the decremented [pj]. *)
Fixpoint scan_down (fuel : nat) (tosort : list nat) (vp : nat) (pj : Z) : Z :=
  match fuel with
  | O => pj
  | S fuel' =>
      if less vp (get tosort pj) then scan_down fuel' tosort vp (pj - 1)%Z
      else pj
  end.

(** The loop [for (;;)] of the partition; returns the array and [pi]. *)
Fixpoint exchange (fuel : nat) (tosort : list nat) (vp : nat) (pi pj : Z)
  : list nat * Z :=
  match fuel with
  | O => (tosort, pi)
  | S fuel' =>
      let pi := scan_up (List.length tosort) tosort vp (pi + 1)%Z in
      let pj := scan_down (List.length tosort) tosort vp (pj - 1)%Z in
      if (pj <=? pi)%Z then (tosort, pi)
      else exchange fuel' (INTP_SWAP tosort pi pj) vp pi pj
  end.

(** One partition of the range [pl .. pr]: the median of three is moved to
    [pr - 1], the range is exchanged around it, and it is put at [pi]. *)
Definition partition (tosort : list nat) (pl pr : Z) : list nat * Z :=
  let pm := (pl + Z.shiftr (pr - pl) 1)%Z in
  let tosort := if less (get tosort pm) (get tosort pl)
                then INTP_SWAP tosort pm pl else tosort in
  let tosort := if less (get tosort pr) (get tosort pm)
                then INTP_SWAP tosort pr pm else tosort in
  let tosort := if less (get tosort pm) (get tosort pl)
                then INTP_SWAP tosort pm pl else tosort in
  let vp := get tosort pm in
  let pj := (pr - 1)%Z in
  let tosort := INTP_SWAP tosort pm pj in
  let (tosort, pi) := exchange (List.length tosort) tosort vp pl pj in
  (INTP_SWAP tosort pi (pr - 1)%Z, pi).

(** [while ((pr - pl) > SMALL_QUICKSORT)]: the larger part goes on the
    stack with the depth left, the smaller one is the new range. *)
Fixpoint partitions (fuel : nat) (tosort : list nat) (pl pr : Z)
         (stack : list (Z * Z * Z)) (cdepth : Z)
  : list nat * Z * Z * list (Z * Z * Z) :=
  match fuel with
  | O => (tosort, pl, pr, stack)
  | S fuel' =>
      if (SMALL_QUICKSORT <? pr - pl)%Z then
        let (tosort, pi) := partition tosort pl pr in
        if (pi - pl <? pr - pi)%Z then
          partitions fuel' tosort pl (pi - 1)%Z
                     ((pi + 1, pr, cdepth - 1)%Z :: stack) (cdepth - 1)%Z
        else
          partitions fuel' tosort (pi + 1)%Z pr
                     ((pl, pi - 1, cdepth - 1)%Z :: stack) (cdepth - 1)%Z
      else (tosort, pl, pr, stack)
  end.

(** The insertion sort: [while (pj > pl && less(vp, v[*pk]))] moves the
    rows above [vi] one place up. *)
Fixpoint shift (fuel : nat) (tosort : list nat) (pl : Z) (vi : nat) (pj : Z)
  : list nat * Z :=
  match fuel with
  | O => (tosort, pj)
  | S fuel' =>
      if (pl <? pj)%Z && less vi (get tosort (pj - 1)%Z) then
        shift fuel' (put tosort pj (get tosort (pj - 1)%Z)) pl vi (pj - 1)%Z
      else (tosort, pj)
  end.

Fixpoint insertion (fuel : nat) (tosort : list nat) (pl pr pi : Z)
  : list nat :=
  match fuel with
  | O => tosort
  | S fuel' =>
      if (pi <=? pr)%Z then
        let vi := get tosort pi in
        let (tosort, pj) := shift (List.length tosort) tosort pl vi pi in
        insertion fuel' (put tosort pj vi) pl pr (pi + 1)%Z
      else tosort
  end.

(** The heap sort of the range of [n] positions from [pl]; [a[k]], counted
    from 1, is the position [pl + k - 1]. *)
Fixpoint sift (fuel : nat) (tosort : list nat) (pl : Z) (tmp : nat)
         (i j n : Z) : list nat * Z :=
  match fuel with
  | O => (tosort, i)
  | S fuel' =>
      if (j <=? n)%Z then
        let j := if (j <? n)%Z && less (get tosort (pl + j - 1)%Z)
                                       (get tosort (pl + j)%Z)
                 then (j + 1)%Z else j in
        if less tmp (get tosort (pl + j - 1)%Z) then
          sift fuel' (put tosort (pl + i - 1)%Z (get tosort (pl + j - 1)%Z))
               pl tmp j (j + j)%Z n
        else (tosort, i)
      else (tosort, i)
  end.

Fixpoint heapify (fuel : nat) (tosort : list nat) (pl l n : Z) : list nat :=
  match fuel with
  | O => tosort
  | S fuel' =>
      if (0 <? l)%Z then
        let tmp := get tosort (pl + l - 1)%Z in
        let (tosort, i) :=
          sift (List.length tosort) tosort pl tmp l (Z.shiftl l 1) n in
        heapify fuel' (put tosort (pl + i - 1)%Z tmp) pl (l - 1)%Z n
      else tosort
  end.

Fixpoint extract (fuel : nat) (tosort : list nat) (pl n : Z) : list nat :=
  match fuel with
  | O => tosort
  | S fuel' =>
      if (1 <? n)%Z then
        let tmp := get tosort (pl + n - 1)%Z in
        let tosort := put tosort (pl + n - 1)%Z (get tosort pl) in
        let n := (n - 1)%Z in
        let (tosort, i) := sift (List.length tosort) tosort pl tmp 1 2 n in
        extract fuel' (put tosort (pl + i - 1)%Z tmp) pl n
      else tosort
  end.

Definition aheapsort (tosort : list nat) (pl n : Z) : list nat :=
  let tosort := heapify (List.length tosort) tosort pl (Z.shiftr n 1) n in
  extract (List.length tosort) tosort pl n.

(** The loop [while (1)]: one range, then the next one from the stack. *)
Fixpoint sort_ranges (fuel : nat) (tosort : list nat) (pl pr : Z)
         (stack : list (Z * Z * Z)) (cdepth : Z) : list nat :=
  match fuel with
  | O => tosort
  | S fuel' =>
      let (tosort, stack) :=
        if (cdepth <? 0)%Z then (aheapsort tosort pl (pr - pl + 1)%Z, stack)
        else
          let '(tosort, pl, pr, stack) :=
            partitions (List.length tosort) tosort pl pr stack cdepth in
          (insertion (List.length tosort) tosort pl pr (pl + 1)%Z, stack) in
      match stack with
      | [] => tosort
      | (pl, pr, cdepth) :: stack =>
          sort_ranges fuel' tosort pl pr stack cdepth
      end
  end.

(** The positions [0 .. num - 1] arranged by ascending key. *)
Definition aquicksort (num : nat) : list nat :=
  sort_ranges (S num) (seq 0 num) 0 (Z.of_nat num - 1)%Z []
              (Z.log2 (Z.of_nat num) * 2)%Z.

End ArgSort.
End NumPy.

Definition Rltb (x y : R) : bool := if Rlt_dec x y then true else false.

(** [candidates.sort_values("gap")] as pandas runs it: the positions of the
    column [gap] arranged by NumPy's quicksort, and the rows taken in that
    order. *)
Definition sort_values_gap_quicksort (candidates : list Candidate.t)
  : list Candidate.t :=
  let gap := map Candidate.gap candidates in
  let indexer :=
    NumPy.aquicksort (fun i j => Rltb (nth i gap 0) (nth j gap 0))
                     (List.length candidates) in
  flat_map (fun i => match nth_error candidates i with
                     | Some row => [row]
                     | None => []
                     end) indexer.

(** The place of a domain in [DOMAINS] (its length for a stranger). *)
Fixpoint index_of (d : string) (l : list string) : nat :=
  match l with
  | [] => 0
  | d' :: l' => if String.eqb d d' then 0 else S (index_of d l')
  end.

(** "By domain in the order of [DOMAINS], then by gap". *)
Definition enumeration_gap_le (x y : Rec.t) : Prop :=
  (index_of (Rec.domain x) DOMAINS < index_of (Rec.domain y) DOMAINS)%nat
  \/ (index_of (Rec.domain x) DOMAINS = index_of (Rec.domain y) DOMAINS
      /\ Rec.gap x <= Rec.gap y).

(** ** Small tables for worked instances *)

Definition no_affinity : string -> R := fun _ => 0.

Definition one_learner : list Student.t :=
  [Student.mk 0 0 0.5 45 4 no_affinity].

Definition tied_items : list Item.t :=
  [Item.mk 0 "Algebra" 1 1 8; Item.mk 1 "Algebra" 1 (-1) 8].

Definition two_domain_items : list Item.t :=
  [Item.mk 0 "Probability" 1 0 8; Item.mk 1 "Calculus" 1 0 8].



Definition one_record : list Traj.t :=
  [Traj.mk 0 "Algebra" 10 30 0.9].

(** A generator for worked instances: its state counts the draws, the
    Poisson sampler returns that count and the normal sampler its mean. *)
Definition counting_poisson (lam : R) : state nat Z :=
  mkState (fun g => (Z.of_nat g, S g)).

Definition centred_normal (loc scale : R) : state nat R :=
  mkState (fun g => (loc, S g)).

Definition keen_learner : list Student.t :=
  [Student.mk 0 0 1 45 4 no_affinity].

Definition two_records : list Traj.t :=
  [Traj.mk 0 "Algebra" 9 30 0.9; Traj.mk 0 "Calculus" 9 30 0.1].

(** ** Storing the key, assessments *)

(** [save_api_key] of [CODE-EDUCATIONAL-TRANSFORMATION-06.py]: the dict put
    in the store. *)
Definition save_api_key (key : option string) : list (string * string) :=
  match key with
  | None => []
  | Some k => if String.eqb k "" then [] else [("api_key", k)]
  end.

(** [DataFrame.head(n)]: the first [n] rows; all rows but the last [-n]
    when [n] is negative. *)
Definition head {A : Type} (n : Z) (df : list A) : list A :=
  if (n <? 0)%Z then firstn (List.length df - Z.to_nat (- n)) df
  else firstn (Z.to_nat n) df.

(** One entry of [questions_children]: the position [i] (the index of its
    radio buttons; the text shows [Q{i+1}]), and the item id, the domain
    asked for and the difficulty named in the text. *)
Module Question.
Record t : Type := mk {
  index : nat;
  item_id : Z;
  dom : string;
  b : R
}.
End Question.

Definition generate_assessment
           (sort_values_gap : list Candidate.t -> list Candidate.t)
           (DF_STUD : list Student.t) (DF_ITEMS : list Item.t)
           (DF_TRAJ : list Traj.t) (student_id : Z) (dom : string) (n_q : Z)
  : result (list Question.t) :=
  recs <- recommend_items sort_values_gap student_id DF_STUD DF_ITEMS
                          DF_TRAJ ;;
  let dom_items :=
    head (n_q * 2) (filter (fun r => String.eqb (Rec.domain r) dom) recs) in
  let dom_items := head n_q dom_items in
  ret (map (fun ir => Question.mk (fst ir) (Rec.item_id (snd ir)) dom
                                  (Item.b (Candidate.item (Rec.row (snd ir)))))
           (combine (seq 0 (List.length dom_items)) dom_items)).

(** The three messages of [submit_assessment]; the last one prints
    [score * 100] with one decimal. *)
Inductive assessment_feedback : Type :=
| NoAnswersSubmitted
| AnswerAtLeastOne
| AssessmentSubmitted (accuracy : R).

(** [answers]: the values of the radio groups, [1], [0] or [None]. *)
Definition submit_assessment (answers : list (option Z))
  : assessment_feedback :=
  match answers with
  | [] => NoAnswersSubmitted
  | _ =>
      let answers_clean :=
        flat_map (fun a => match a with Some v => [v] | None => [] end)
                 answers in
      if (List.length answers_clean =? 0)%nat then AnswerAtLeastOne
      else
        let score := IZR (Zsum answers_clean)
                     / INR (List.length answers_clean) in
        AssessmentSubmitted (score * 100)
  end.

(** ** Synthetic cohort and item bank *)

Section Generators.

(** The generator again, with the scalar samplers; a call with [size=n] is
    [n] draws in a row. *)
Variable rng : Type.
Variable poisson : R -> state rng Z.
Variable normal : R -> R -> state rng R.
Variable beta : R -> R -> state rng R.
Variable choice : list string -> state rng string.

Fixpoint draws {A : Type} (n : nat) (sampler : state rng A)
  : state rng (list A) :=
  match n with
  | O => ret []
  | S n' =>
      x <- sampler ;;
      xs <- draws n' sampler ;;
      ret (x :: xs)
  end.

(** The loop [for d in domains] that adds the column [affinity_<d>]. *)
Fixpoint affinity_columns (n : nat) (domains : list string)
  : state rng (list (string * list R)) :=
  match domains with
  | [] => ret []
  | d :: domains' =>
      col <- draws n (normal 0 1) ;;
      rest <- affinity_columns n domains' ;;
      ret ((d, map (fun x => clip x (-2) 2) col) :: rest)
  end.

(** The column a name stands for: the one assigned last. *)
Fixpoint read_column (d : string) (cols : list (string * list R))
  : option (list R) :=
  match cols with
  | [] => None
  | (d', col) :: cols' =>
      match read_column d cols' with
      | Some col' => Some col'
      | None => if String.eqb d d' then Some col else None
      end
  end.

(** Row [i] of the frame built from the columns.  A domain without a
    column has no affinity in the source (a [KeyError] on access); it reads
    as 0 here. *)
Definition student_row (ability_g engagement pace weekly_goal_hours : list R)
           (cols : list (string * list R)) (i : nat) : Student.t :=
  Student.mk (Z.of_nat i) (nth i ability_g 0) (nth i engagement 0)
             (nth i pace 0) (nth i weekly_goal_hours 0)
             (fun d => match read_column d cols with
                       | Some col => nth i col 0
                       | None => 0
                       end).

Definition simulate_students (n : nat) (domains : list string)
  : state rng (list Student.t) :=
  ability_g <- draws n (normal 0 1) ;;
  engagement <- draws n (beta 3 2) ;;
  pace <- draws n (normal 45 15) ;;
  weekly_goal_hours <- draws n (normal 3.6 1.2) ;;
  cols <- affinity_columns n domains ;;
  ret (map (student_row ability_g
                        (map (fun x => clip x 0 1) engagement)
                        (map (fun x => clip x 5 120) pace)
                        (map (fun x => clip x 1.0 8.0) weekly_goal_hours)
                        cols)
           (seq 0 n)).

Definition simulate_item_bank (n_items : nat) (domains : list string)
  : state rng (list Item.t) :=
  domains_items <- draws n_items (choice domains) ;;
  difficulty_b <- draws n_items (normal 0 1.0) ;;
  discrimination_a <- draws n_items (normal 1.0 0.3) ;;
  t_min <- draws n_items (normal 8 3) ;;
  ret (map (fun i =>
              Item.mk (Z.of_nat i) (nth i domains_items "")
                      (nth i (map (fun x => clip x 0.6 1.8) discrimination_a) 0)
                      (nth i difficulty_b 0)
                      (nth i (map (fun x => clip x 3 20) t_min) 0))
           (seq 0 n_items)).

Definition N_STUDENTS : nat := 90.
Definition N_ITEMS : nat := 120.
Definition HORIZON_DAYS : nat := 30.

(** The tables built when the module is loaded: [DF_STUD], [DF_ITEMS] and
    [DF_TRAJ], in this order. *)
Definition startup_tables (today : Z)
  : state rng (list Student.t * list Item.t * list Traj.t) :=
  DF_STUD <- simulate_students N_STUDENTS DOMAINS ;;
  DF_ITEMS <- simulate_item_bank N_ITEMS DOMAINS ;;
  DF_TRAJ <- simulate_trajectories rng poisson normal today DF_STUD DOMAINS
                                   HORIZON_DAYS ;;
  ret (DF_STUD, DF_ITEMS, DF_TRAJ).

End Generators.

(** * The mentor dashboard ([CODE-IDM-04-E.py]) *)

Module Mentor.

(** An entry of [store-students]. *)
Record student : Type := mk_student {
  id : Z;
  name : string;
  module : string;
  progress : R;
  autonomy : R;
  difficulty : string
}.

Definition INITIAL_STUDENTS : list student :=
  [mk_student 1 "Student A" "Linear Algebra" 0.35 0.40 "medium";
   mk_student 2 "Student B" "Programming I" 0.70 0.65 "low";
   mk_student 3 "Student C" "Differential Calculus" 0.50 0.45 "high";
   mk_student 4 "Student D" "Educational Statistics" 0.85 0.80 "low"].

Definition RESOURCES_BY_LEVEL : list (string * list string) :=
  [("very_low", ["5-minute introductory video about the topic.";
                 "Infographic with basic steps.";
                 "Guided activity with solved examples."]);
   ("low", ["Short reading with examples.";
            "Immediate self-assessment quiz.";
            "Visual summary with key terms."]);
   ("medium", ["Case applied to a real-world context.";
               "Problems of medium complexity.";
               "Collaborative activity with feedback."]);
   ("high", ["Open project where the student defines the problem.";
             "Advanced academic reading.";
             "Self-assessment and metacognition rubric."])].

Definition MOD_COLOR_MAP : list (string * string) :=
  [("Linear Algebra", "#38bdf8"); ("Programming I", "#8b5cf6");
   ("Differential Calculus", "#f97316");
   ("Educational Statistics", "#10b981")].

(** [table.get(key, default)]. *)
Fixpoint get_default {V : Type} (key : string) (default : V)
         (table : list (string * V)) : V :=
  match table with
  | [] => default
  | (k, v) :: table' =>
      if String.eqb key k then v else get_default key default table'
  end.

(** [save_api_key]: the dict put in the store. *)
Definition save_api_key (api_key_value : option string)
  : list (string * string) :=
  [("api_key", match api_key_value with Some k => k | None => "" end)].

(** The texts of the suggestions listed for the slider value. *)
Definition update_recommendations (autonomy_pct : option Z) : list string :=
  let autonomy_pct := match autonomy_pct with None => 40%Z | Some p => p end in
  let level :=
    if (autonomy_pct <? 25)%Z then "very_low"
    else if (autonomy_pct <? 50)%Z then "low"
    else if (autonomy_pct <? 75)%Z then "medium"
    else "high" in
  get_default level [] RESOURCES_BY_LEVEL.

(** An entry of [store-conversation]; the content of a reply is [None] when
    the service answered without content. *)
Record entry : Type := mk_entry {
  role : string;
  content : option string;
  timestamp : string
}.

(** A child of [list-recommendations] as the callback receives it: a
    component with [props.children], or anything else; each with the text
    [str] gives. *)
Inductive resource : Type :=
| Component (children : string)
| Other (text : string).

(** An entry of [store-autonomy-log]. *)
Record event : Type := mk_event {
  event_name : string;
  event_timestamp : string;
  event_autonomy : R
}.

(** [l[-n:]]. *)
Definition last_n {A : Type} (n : nat) (l : list A) : list A :=
  skipn (List.length l - n) l.

(** [l[i]], with Python's negative positions. *)
Definition position (len : nat) (i : Z) : option nat :=
  if (0 <=? i)%Z then
    if (i <? Z.of_nat len)%Z then Some (Z.to_nat i) else None
  else if (- Z.of_nat len <=? i)%Z then Some (Z.to_nat (Z.of_nat len + i))
  else None.

Fixpoint set_nth {A : Type} (n : nat) (v : A) (l : list A) : list A :=
  match l, n with
  | [], _ => []
  | _ :: l', O => v :: l'
  | x :: l', S n' => x :: set_nth n' v l'
  end.

(** [s.endswith(suffix)]. *)
Fixpoint endswith (s suffix : string) : bool :=
  if String.eqb s suffix then true
  else match s with
       | EmptyString => false
       | String _ s' => endswith s' suffix
       end.

(** [f"{selected_student_id}"] for an [int] or [None]. *)
Definition format_id (selected_student_id : option Z) : string :=
  match selected_student_id with
  | None => "None"
  | Some z => NilZero.string_of_int (Z.to_int z)
  end.

Definition base_instruction (autonomy_pct : Z) : string :=
  if (autonomy_pct <? 25)%Z then
    "You are a highly empathetic digital mentor for a learner with very low autonomy. Explain with simple examples, concrete steps, and explicit verification. Use academic Spanish and third-person tone."
  else if (autonomy_pct <? 50)%Z then
    "You are a digital mentor for a learner with low autonomy. Propose micro-activities and reinforcement. Use academic Spanish and third-person tone."
  else if (autonomy_pct <? 75)%Z then
    "You are a digital mentor for a learner with medium autonomy. Incorporate metacognition and application activities. Use academic Spanish and third-person tone."
  else
    "You are a digital mentor for a learner with high autonomy. Pose open-ended challenges, advanced readings, and deepening routes. Use academic Spanish and third-person tone.".

(** The first student with the id, [None] without one. *)
Definition find_student (students : list student) (student_id : option Z)
  : option student :=
  find (fun s => match student_id with
                 | Some i => (id s =? i)%Z
                 | None => false
                 end) students.

Definition resources_text (current_resources : option (list resource))
  : string :=
  match current_resources with
  | None | Some [] => "no suggested resources"
  | Some rs =>
      String.concat ", "
        (map (fun r => match r with Component c => c | Other t => t end) rs)
  end.

(** The messages sent: the system instruction, then the last six entries,
    every role other than "user" sent as "assistant".  An entry without
    content is sent with the content it has; [Chat.message] holds it as the
    empty text. *)
Definition mentor_history (system_instruction : string)
           (conversation : list entry) : list Chat.message :=
  Chat.mk_message "system" system_instruction
  :: map (fun m =>
            let text := match content m with Some s => s | None => "" end in
            if String.eqb (role m) "user" then Chat.mk_message "user" text
            else Chat.mk_message "assistant" text)
         (last_n 6 conversation).

(** What the cards, the panel, the history chart and the scatter show. *)
Inductive header_cards : Type :=
| NoData
| Averages (mean_autonomy mean_progress : R) (students : nat).

Inductive student_panel : Type :=
| StudentNotFound
| StudentInfo (module_text : string) (progress_pct autonomy_pct : R).

Inductive history_figure : Type :=
| EmptyFigure
| LineFigure (x : list nat) (y : list R).

Record point : Type := mk_point {
  x : R;
  y : R;
  hover_name : string;
  color : string;
  size : Z
}.

(** What [simulate_student_updates] and the figures can raise. *)
Inductive error : Type :=
| ValueError
| ListIndexError.

Section Callbacks.

(** The import guard and the service, as for [safe_openai_call]; the
    generator behind [random]; [str.strip]; [round(x, 1)] and the text of a
    float; [int(window)], [None] when it raises. *)
Variable OPENAI_OK : bool.
Variable chat_create : string -> list Chat.message -> Chat.outcome.
Variable rng : Type.
Variable randint : Z -> Z -> state rng Z.
Variable uniform : R -> R -> state rng R.
Variable strip : string -> string.
Variable round1 : R -> R.
Variable float_text : R -> string.
Variable parse_int : option string -> option Z.

Definition system_instruction_of (autonomy_pct : option Z)
           (student_id : option Z) (students_data : option (list student))
           (current_resources : option (list resource)) : string :=
  let autonomy_pct := match autonomy_pct with None => 40%Z | Some p => p end in
  let selected_student :=
    match students_data with
    | None => None
    | Some students => find_student students student_id
    end in
  let module_txt := match selected_student with
                    | Some st => module st
                    | None => "unidentified module"
                    end in
  let progress_txt := match selected_student with
                      | Some st =>
                          (float_text (round1 (progress st * 100)) ++ "%")%string
                      | None => "unknown"
                      end in
  let autonomy_txt := match selected_student with
                      | Some st =>
                          (float_text (round1 (autonomy st * 100)) ++ "%")%string
                      | None =>
                          (NilZero.string_of_int (Z.to_int autonomy_pct)
                           ++ "%")%string
                      end in
  (base_instruction autonomy_pct
   ++ " The current learner works on: " ++ module_txt ++ ". "
   ++ "Approximate progress: " ++ progress_txt
   ++ "; observed autonomy: " ++ autonomy_txt ++ ". "
   ++ "Suggested resources by the adaptive system are: "
   ++ resources_text current_resources ++ ". "
   ++ "Integrate these resources in your explanation or mention them as next steps.")%string.

(** [t_user] and [t_reply] are the two readings of the clock. *)
Definition converse_with_mentor (t_user t_reply : string)
           (user_message : option string)
           (current_conversation : option (list entry))
           (api_key_data : option (list (string * string)))
           (autonomy_pct student_id : option Z)
           (students_data : option (list student))
           (current_resources : option (list resource))
  : result (list entry) :=
  let current_conversation :=
    match current_conversation with None => [] | Some c => c end in
  match user_message with
  | None => ret current_conversation
  | Some message =>
      if String.eqb message "" || String.eqb (strip message) "" then
        ret current_conversation
      else
        let current_conversation :=
          current_conversation ++ [mk_entry "user" (Some message) t_user] in
        let api_key :=
          match api_key_data with
          | None | Some [] => ""
          | Some d => match dict_get "api_key" d with
                      | Some k => k
                      | None => ""
                      end
          end in
        let system_instruction :=
          system_instruction_of autonomy_pct student_id students_data
                                current_resources in
        let history := mentor_history system_instruction current_conversation in
        response <- safe_openai_call OPENAI_OK chat_create (Some api_key)
                                     system_instruction history ;;
        ret (current_conversation ++ [mk_entry "assistant" response t_reply])
  end.

(** The new stores, and the module-level [INITIAL_STUDENTS] after the call:
    when the store holds [None] the update is made on that very list. *)
Definition simulate_student_updates (now : string)
           (initial : list student) (students : option (list student))
           (autonomy_log : option (list event))
  : state rng (error + (list student * list event * list student)) :=
  let cohort := match students with None => initial | Some s => s end in
  let autonomy_log := match autonomy_log with None => [] | Some l => l end in
  if (List.length cohort =? 0)%nat then ret (inl ValueError)
  else
    idx <- randint 0 (Z.of_nat (List.length cohort) - 1) ;;
    match position (List.length cohort) idx with
    | None => ret (inl ListIndexError)
    | Some i =>
        match nth_error cohort i with
        | None => ret (inl ListIndexError)
        | Some st =>
            u_progress <- uniform 0.0 0.03 ;;
            let new_progress := Rmin (progress st + u_progress) 1.0 in
            u_autonomy <- uniform 0.0 0.015 ;;
            let new_autonomy := Rmin (autonomy st + u_autonomy) 1.0 in
            let cohort' :=
              set_nth i (mk_student (id st) (name st) (module st)
                                    new_progress new_autonomy (difficulty st))
                      cohort in
            let autonomy_log :=
              head 30 (mk_event (name st) now (round1 (new_autonomy * 100))
                       :: autonomy_log) in
            ret (inr (cohort', autonomy_log,
                      match students with
                      | None => cohort'
                      | Some _ => initial
                      end))
        end
    end.

(** The points of the scatter.  [px.scatter] is given the lists [x_vals]
    and [y_vals]; with both empty it raises [ValueError]. *)
Definition update_main_scatter (initial : list student)
           (students : option (list student)) (selected_id : option Z)
           (filtered_modules : option (list string))
  : error + list point :=
  let students := match students with None => initial | Some s => s end in
  let filtered :=
    match filtered_modules with
    | None | Some [] => students
    | Some modules =>
        filter (fun s => existsb (String.eqb (module s)) modules) students
    end in
  match filtered with
  | [] => inl ValueError
  | _ =>
      inr (map (fun s =>
                  mk_point (progress s * 100) (autonomy s * 100 / 10) (name s)
                           (get_default (module s) "#94a3b8" MOD_COLOR_MAP)
                           (match selected_id with
                            | Some i => if (id s =? i)%Z then 28%Z else 18%Z
                            | None => 18%Z
                            end))
               filtered)
  end.

Definition update_header_cards (students : option (list student))
  : header_cards :=
  match students with
  | None | Some [] => NoData
  | Some students =>
      Averages
        (round1 (sum (map autonomy students) / INR (List.length students)
                 * 100))
        (round1 (sum (map progress students) / INR (List.length students)
                 * 100))
        (List.length students)
  end.

Definition show_student_info (initial : list student)
           (student_id : option Z) (students : option (list student))
  : student_panel :=
  let students := match students with None => initial | Some s => s end in
  match find_student students student_id with
  | None => StudentNotFound
  | Some st =>
      StudentInfo (module st) (round1 (progress st * 100))
                  (round1 (autonomy st * 100))
  end.

(** The line of the history chart.  Without a log the figure is
    [px.line()]; otherwise [px.line] is given the lists [x] and [y], and
    with both empty (a window that leaves no event) it raises
    [ValueError]. *)
Definition update_autonomy_history (log : option (list event))
           (window : option string) (selected_student_id : option Z)
  : error + history_figure :=
  match log with
  | None | Some [] => inr EmptyFigure
  | Some log =>
      let window := match parse_int window with Some n => n | None => 10%Z end in
      let filtered_log :=
        filter (fun e => endswith (event_name e)
                                  (format_id selected_student_id)) log in
      let filtered_log := match filtered_log with
                          | [] => log
                          | _ => filtered_log
                          end in
      let data := rev (head window filtered_log) in
      match data with
      | [] => inl ValueError
      | _ =>
          inr (LineFigure (seq 1 (List.length data))
                          (map event_autonomy data))
      end
  end.

End Callbacks.

End Mentor.

(** Samplers for worked instances: both return the lower bound. *)
Definition lowest_randint (lo hi : Z) : state nat Z :=
  mkState (fun g => (lo, S g)).

Definition lowest_uniform (lo hi : R) : state nat R :=
  mkState (fun g => (lo, S g)).

(** * Theorems *)

Section Scoring.

Lemma clip_bounds (x lo hi : R) : lo <= hi -> lo <= clip x lo hi <= hi.
Proof.
  intros Hlh. unfold clip. split.
  - apply Rmin_glb; [apply Rmax_r | exact Hlh].
  - apply Rmin_r.
Qed.

Lemma logistic_denominator_pos (x : R) : 0 < 1 + exp x.
Proof. pose proof (exp_pos x). lra. Qed.

Lemma p_success_range (a b theta : R) : 0 < p_success a b theta < 1.
Proof.
  unfold p_success.
  pose proof (exp_pos (- a * (theta - b))) as He.
  split.
  - apply Rdiv_lt_0_compat; lra.
  - apply (Rmult_lt_reg_r (1 + exp (- a * (theta - b)))); [lra|].
    field_simplify; lra.
Qed.

Lemma p_success_increasing (a b t1 t2 : R) :
  0 < a -> t1 < t2 -> p_success a b t1 < p_success a b t2.
Proof.
  intros Ha Ht. unfold p_success.
  assert (Hexp : exp (- a * (t2 - b)) < exp (- a * (t1 - b))).
  { apply exp_increasing. nra. }
  pose proof (exp_pos (- a * (t2 - b))) as H2.
  unfold Rdiv. rewrite !Rmult_1_l.
  apply Rinv_lt_contravar; [|lra].
  apply Rmult_lt_0_compat; lra.
Qed.

Lemma p_success_half_iff (a b theta : R) :
  0 < a -> (p_success a b theta = 1 / 2 <-> theta = b).
Proof.
  intros Ha. unfold p_success. split.
  - intros Hp.
    pose proof (exp_pos (- a * (theta - b))) as He.
    assert (H1 : exp (- a * (theta - b)) = 1).
    { apply (f_equal (fun v => v * (2 * (1 + exp (- a * (theta - b)))))) in Hp.
      field_simplify in Hp; lra. }
    rewrite <- exp_0 in H1. apply exp_inv in H1. nra.
  - intros ->. replace (- a * (b - b)) with 0 by ring.
    rewrite exp_0. lra.
Qed.

End Scoring.

(** C4. For [a > 0] and any real [b], [theta], [p_success a b theta] lies
    strictly between 0 and 1, is strictly increasing in [theta], and is
    [1/2] exactly when [theta = b]. *)
Theorem p_success_logistic (a b : R) :
  0 < a ->
  (forall theta, 0 < p_success a b theta < 1) /\
  (forall t1 t2, t1 < t2 -> p_success a b t1 < p_success a b t2) /\
  (forall theta, p_success a b theta = 1 / 2 <-> theta = b).
Proof.
  intros Ha. repeat split.
  - apply p_success_range.
  - apply p_success_range.
  - intros t1 t2. now apply p_success_increasing.
  - now apply p_success_half_iff.
  - intros ->. now apply p_success_half_iff.
Qed.

Lemma p_success_logistic_witness :
  0 < 1 /\ 0 < p_success 1 0 2 < 1 /\ p_success 1 0 0 = 1 / 2.
Proof.
  split; [lra|].
  destruct (p_success_logistic 1 0 ltac:(lra)) as [Hr [_ Hh]].
  split; [apply Hr | now apply Hh].
Defined.

(** ** The result monad *)

Lemma bind_Ok_inv {A B : Type} (m : result A) (k : A -> result B) (b : B) :
  bind m k = Ok b -> exists a, m = Ok a /\ k a = Ok b.
Proof.
  destruct m as [a|e]; cbn; intros H; [eauto | discriminate].
Qed.

Lemma iloc0_Ok_In {A : Type} (df : list A) (row : A) :
  iloc0 df = Ok row -> In row df.
Proof.
  destruct df as [|x df]; cbn; intros H; inversion H; subst; now left.
Qed.

Lemma iloc0_nonempty {A : Type} (df : list A) :
  df <> [] -> exists row, iloc0 df = Ok row.
Proof.
  destruct df as [|x df]; [congruence | now exists x].
Qed.

Lemma Forall2_In_r {A B : Type} (P : A -> B -> Prop) (l : list A)
      (l' : list B) (y : B) :
  Forall2 P l l' -> In y l' -> exists x, In x l /\ P x y.
Proof.
  induction 1 as [|x y' l l' Hxy _ IH]; cbn; [tauto|].
  intros [<-|Hin].
  - exists x. now split; [left|].
  - destruct (IH Hin) as [x' [Hx' Hp]]. exists x'. now split; [right|].
Qed.

Lemma DOMAINS_NoDup : NoDup DOMAINS.
Proof. unfold DOMAINS. repeat constructor; cbn; intuition discriminate. Qed.

Lemma filter_none {A : Type} (f : A -> bool) (l : list A) :
  (forall x, In x l -> f x = false) -> filter f l = [].
Proof.
  induction l as [|x l IH]; cbn; intros Hall; [reflexivity|].
  rewrite (Hall x (or_introl eq_refl)). apply IH.
  intros y Hy. apply Hall. now right.
Qed.

Lemma In_firstn {A : Type} (n : nat) (l : list A) (x : A) :
  In x (firstn n l) -> In x l.
Proof.
  intros H. rewrite <- (firstn_skipn n l). apply in_or_app. now left.
Qed.

(** ** Stable insertion sort *)

Section StableSortFacts.
Context {A : Type} (leb : A -> A -> bool).

Let le (x y : A) : Prop := leb x y = true.

Lemma insert_row_perm (x : A) (l : list A) :
  Permutation (insert_row leb x l) (x :: l).
Proof.
  induction l as [|y l IH]; cbn; [reflexivity|].
  destruct (leb x y); [reflexivity|].
  rewrite IH. apply perm_swap.
Qed.

Lemma stable_sort_perm (l : list A) : Permutation (stable_sort leb l) l.
Proof.
  induction l as [|x l IH]; cbn; [reflexivity|].
  rewrite insert_row_perm. now constructor.
Qed.

Lemma stable_sort_In (x : A) (l : list A) :
  In x (stable_sort leb l) <-> In x l.
Proof.
  split; apply Permutation_in;
    [apply stable_sort_perm | symmetry; apply stable_sort_perm].
Qed.

Hypothesis leb_total : forall x y, leb x y = true \/ leb y x = true.
Hypothesis leb_trans :
  forall x y z, leb x y = true -> leb y z = true -> leb x z = true.

Lemma insert_row_sorted (x : A) (l : list A) :
  StronglySorted le l -> StronglySorted le (insert_row leb x l).
Proof.
  induction 1 as [|y l Hs IH Hall]; cbn.
  - constructor; constructor.
  - destruct (leb x y) eqn:Hxy.
    + constructor; [now constructor|].
      constructor; [exact Hxy|].
      eapply Forall_impl; [|exact Hall].
      intros z Hz. now apply (leb_trans x y z).
    + constructor; [exact IH|].
      assert (Hyx : le y x) by (destruct (leb_total x y); congruence).
      eapply Permutation_Forall.
      * symmetry. apply insert_row_perm.
      * now constructor.
Qed.

Lemma stable_sort_sorted (l : list A) :
  StronglySorted le (stable_sort leb l).
Proof.
  induction l as [|x l IH]; cbn; [constructor|].
  now apply insert_row_sorted.
Qed.

(** A frame already in order is left as it is. *)
Lemma stable_sort_of_sorted (l : list A) :
  StronglySorted le l -> stable_sort leb l = l.
Proof.
  unfold stable_sort.
  induction 1 as [|x l Hs IH Hall]; cbn; [reflexivity|].
  rewrite IH. destruct l as [|y l]; [reflexivity|].
  cbn. inversion Hall as [|? ? Hxy _]; subst.
  unfold le in Hxy. now rewrite Hxy.
Qed.

Lemma insert_row_head (x : A) (l : list A) :
  Forall (fun y => leb x y = true) l -> insert_row leb x l = x :: l.
Proof.
  destruct 1 as [|y l Hxy _]; cbn; [reflexivity|]. now rewrite Hxy.
Qed.

Lemma filter_insert_row (p : A -> bool) (x : A) (l : list A) :
  StronglySorted le l ->
  filter p (insert_row leb x l)
  = if p x then insert_row leb x (filter p l) else filter p l.
Proof.
  induction 1 as [|y l Hs IH Hall]; cbn [insert_row].
  - cbn. now destruct (p x).
  - destruct (leb x y) eqn:Hxy.
    + cbn [filter]. destruct (p x) eqn:Hpx; [|reflexivity].
      symmetry. apply insert_row_head.
      apply Forall_forall. intros z Hz.
      assert (Hin : In z (y :: l)).
      { change (In z (filter p (y :: l))) in Hz.
        apply filter_In in Hz. tauto. }
      destruct Hin as [<-|Hin]; [exact Hxy|].
      rewrite Forall_forall in Hall. apply (leb_trans x y z Hxy).
      now apply Hall.
    + cbn [filter]. rewrite IH.
      destruct (p y), (p x); cbn [insert_row]; try rewrite Hxy; reflexivity.
Qed.

(** Selecting rows commutes with the sort. *)
Lemma filter_stable_sort (p : A -> bool) (l : list A) :
  filter p (stable_sort leb l) = stable_sort leb (filter p l).
Proof.
  induction l as [|x l IH]; [reflexivity|].
  change (stable_sort leb (x :: l))
    with (insert_row leb x (stable_sort leb l)).
  rewrite filter_insert_row by apply stable_sort_sorted.
  rewrite IH. cbn [filter]. now destruct (p x).
Qed.

End StableSortFacts.

(** ** Ability estimate *)

Section AbilityEstimate.
Variables (student_id : Z) (df_students : list Student.t)
          (score_history : list Traj.t).

Lemma theta_d_history (d : string) :
  hist_of student_id d score_history <> [] ->
  theta_d student_id df_students score_history d
  = Ok (clip ((mean (map Traj.micro_score
                         (hist_of student_id d score_history)) - 0.5) / 0.2)
             (-2.5) 2.5).
Proof.
  intros Hne. unfold theta_d.
  destruct (hist_of student_id d score_history) as [|h hist];
    [congruence | reflexivity].
Qed.

Lemma theta_d_cold (d : string) (row : Student.t) :
  hist_of student_id d score_history = [] ->
  iloc0 (filter (fun s => (Student.student_id s =? student_id)%Z)
                df_students) = Ok row ->
  theta_d student_id df_students score_history d
  = Ok (clip (0.7 * Student.ability_g row + 0.3 * Student.affinity row d)
             (-2.5) 2.5).
Proof.
  intros He Hrow. unfold theta_d. rewrite He, Hrow. cbn.
  do 2 f_equal. ring.
Qed.

Lemma theta_d_range (d : string) (theta : R) :
  theta_d student_id df_students score_history d = Ok theta ->
  -2.5 <= theta <= 2.5.
Proof.
  unfold theta_d.
  destruct (0 <? List.length (hist_of student_id d score_history))%nat.
  - cbn. intros H. inversion H; subst. apply clip_bounds. lra.
  - intros H. apply bind_Ok_inv in H. destruct H as [row [_ H]].
    cbn in H. inversion H; subst. apply clip_bounds. lra.
Qed.

End AbilityEstimate.

(** ** The loop over the domains *)

Section RecsLoop.
Variable sort_values_gap : list Candidate.t -> list Candidate.t.
Variables (student_id : Z) (df_students : list Student.t)
          (df_items : list Item.t) (score_history : list Traj.t).

(** The frame appended for each domain is the [top] at its [theta_d]. *)
Lemma recs_loop_frames (domains : list string) (recs : list (list Rec.t)) :
  recs_loop sort_values_gap student_id df_students df_items score_history
            domains = Ok recs ->
  Forall2 (fun d top_d =>
             exists theta,
               theta_d student_id df_students score_history d = Ok theta
               /\ top_d = top sort_values_gap df_items d theta)
          domains recs.
Proof.
  revert recs. induction domains as [|d domains IH]; intros recs H.
  - cbn in H. inversion H; subst. constructor.
  - cbn [recs_loop] in H.
    apply bind_Ok_inv in H. destruct H as [top_d [Hd H]].
    apply bind_Ok_inv in H. destruct H as [rest [Hrest H]].
    cbn in H. inversion H; subst. constructor; [|now apply IH].
    unfold recommend_domain in Hd.
    apply bind_Ok_inv in Hd. destruct Hd as [theta [Ht Hd]].
    cbn in Hd. inversion Hd; subst. now exists theta.
Qed.

Lemma recs_loop_total (domains : list string) :
  (forall d, In d domains ->
     exists theta,
       theta_d student_id df_students score_history d = Ok theta) ->
  exists recs,
    recs_loop sort_values_gap student_id df_students df_items
              score_history domains = Ok recs.
Proof.
  induction domains as [|d domains IH]; intros Hall.
  - now exists [].
  - destruct (Hall d (or_introl eq_refl)) as [theta Ht].
    destruct IH as [recs Hrecs]; [intros; apply Hall; now right|].
    exists (top sort_values_gap df_items d theta :: recs).
    cbn [recs_loop]. unfold recommend_domain. rewrite Ht. cbn.
    rewrite Hrecs. reflexivity.
Qed.

Lemma recommend_items_rows (out : list Rec.t) (r : Rec.t) :
  recommend_items sort_values_gap student_id df_students df_items
                  score_history = Ok out ->
  In r out ->
  exists d theta,
    In d DOMAINS
    /\ theta_d student_id df_students score_history d = Ok theta
    /\ In r (top sort_values_gap df_items d theta).
Proof.
  unfold recommend_items. intros H Hin.
  apply bind_Ok_inv in H. destruct H as [recs [Hloop H]].
  cbn in H. inversion H; subst. clear H.
  apply stable_sort_In in Hin. apply in_concat in Hin.
  destruct Hin as [top_d [Htop Hr]].
  apply recs_loop_frames in Hloop.
  destruct (Forall2_In_r _ _ _ _ Hloop Htop) as [d [Hd [theta [Ht ->]]]].
  now exists d, theta.
Qed.

End RecsLoop.

(** C1. The ability estimate of a learner in a domain is
    [clip((mean micro-score - 0.5) / 0.2, -2.5, 2.5)] when the history holds
    a record of that learner and domain, and
    [clip(0.7 * global ability + 0.3 * affinity, -2.5, 2.5)] of the learner's
    row otherwise; it lies in [-2.5, 2.5] whatever the history holds, and so
    does the [theta_d] of every recommendation returned. *)
Theorem theta_d_estimate (student_id : Z) (df_students : list Student.t)
        (score_history : list Traj.t) (d : string) :
  (hist_of student_id d score_history <> [] ->
   theta_d student_id df_students score_history d
   = Ok (clip ((mean (map Traj.micro_score
                          (hist_of student_id d score_history)) - 0.5) / 0.2)
              (-2.5) 2.5))
  /\ (hist_of student_id d score_history = [] ->
      forall row,
        iloc0 (filter (fun s => (Student.student_id s =? student_id)%Z)
                      df_students) = Ok row ->
        theta_d student_id df_students score_history d
        = Ok (clip (0.7 * Student.ability_g row
                    + 0.3 * Student.affinity row d) (-2.5) 2.5))
  /\ (forall theta,
        theta_d student_id df_students score_history d = Ok theta ->
        -2.5 <= theta <= 2.5)
  /\ (forall sort_values_gap df_items out r,
        recommend_items sort_values_gap student_id df_students df_items
                        score_history = Ok out ->
        In r out -> -2.5 <= Rec.theta_d r <= 2.5).
Proof.
  split; [apply theta_d_history|].
  split; [intros He row; now apply theta_d_cold|].
  split; [apply theta_d_range|].
  intros sort_values_gap df_items out r Hout Hin.
  destruct (recommend_items_rows _ _ _ _ _ _ _ Hout Hin)
    as [d' [theta [_ [Ht Hr]]]].
  unfold top in Hr. apply in_map_iff in Hr. destruct Hr as [c [<- _]].
  cbn. eapply theta_d_range. exact Ht.
Qed.

(** ** Orders on rows *)

Lemma Rleb_le (x y : R) : Rleb x y = true <-> x <= y.
Proof.
  unfold Rleb. destruct (Rle_dec x y); split; intros; try easy; discriminate.
Qed.


Lemma gap_leb_total (x y : Candidate.t) :
  gap_leb x y = true \/ gap_leb y x = true.
Proof.
  unfold gap_leb. rewrite !Rleb_le. lra.
Qed.

Lemma gap_leb_trans (x y z : Candidate.t) :
  gap_leb x y = true -> gap_leb y z = true -> gap_leb x z = true.
Proof.
  unfold gap_leb. rewrite !Rleb_le. lra.
Qed.

Lemma string_compare_refl (s : string) : String.compare s s = Eq.
Proof. now apply String_as_OT.cmp_eq. Qed.

Lemma string_compare_Gt_Lt (s1 s2 : string) :
  String.compare s1 s2 = Gt <-> String.compare s2 s1 = Lt.
Proof.
  rewrite (String.compare_antisym s2 s1).
  destruct (String.compare s1 s2); cbn; split; congruence.
Qed.

Lemma string_compare_Lt_trans (s1 s2 s3 : string) :
  String.compare s1 s2 = Lt -> String.compare s2 s3 = Lt ->
  String.compare s1 s3 = Lt.
Proof.
  intros H12 H23. apply String_as_OT.cmp_lt.
  eapply String_as_OT.lt_trans; apply String_as_OT.cmp_lt; eassumption.
Qed.

(** The order of [sort_values(["domain", "gap"])], as a proposition. *)
Lemma domain_gap_leb_spec (x y : Rec.t) :
  domain_gap_leb x y = true <->
  String.compare (Rec.domain x) (Rec.domain y) = Lt
  \/ (Rec.domain x = Rec.domain y /\ Rec.gap x <= Rec.gap y).
Proof.
  unfold domain_gap_leb.
  destruct (String.compare (Rec.domain x) (Rec.domain y)) eqn:Hc.
  - apply String.compare_eq_iff in Hc. rewrite Rleb_le. split.
    + intros H. now right.
    + intros [H|[_ H]]; [discriminate | exact H].
  - split; [now left | reflexivity].
  - split; [discriminate|].
    intros [H|[He _]]; [discriminate|].
    rewrite He, string_compare_refl in Hc. discriminate.
Qed.

Lemma domain_gap_leb_total (x y : Rec.t) :
  domain_gap_leb x y = true \/ domain_gap_leb y x = true.
Proof.
  rewrite !domain_gap_leb_spec.
  destruct (String.compare (Rec.domain x) (Rec.domain y)) eqn:Hc.
  - apply String.compare_eq_iff in Hc.
    destruct (Rle_dec (Rec.gap x) (Rec.gap y)).
    + left. now right.
    + right. right. split; [easy | lra].
  - left. now left.
  - right. left. now apply string_compare_Gt_Lt.
Qed.

Lemma domain_gap_leb_trans (x y z : Rec.t) :
  domain_gap_leb x y = true -> domain_gap_leb y z = true ->
  domain_gap_leb x z = true.
Proof.
  rewrite !domain_gap_leb_spec.
  intros [Hxy|[Exy Gxy]] [Hyz|[Eyz Gyz]].
  - left. eapply string_compare_Lt_trans; eassumption.
  - left. now rewrite <- Eyz.
  - left. now rewrite Exy.
  - right. split; [congruence | lra].
Qed.

(** ** Rankings *)

Section Rankings.
Context {A : Type} (key : A -> R).

Let le (x y : A) : Prop := key x <= key y.




End Rankings.

(** ** Worked instances: deciding comparisons of reals *)

Ltac branch_free x :=
  lazymatch x with
  | context [Rle_dec _ _] => fail
  | context [Rcase_abs _] => fail
  | _ => idtac
  end.

Ltac real_facts :=
  unfold clip, Rmin, Rmax, Rabs;
  repeat match goal with
         | |- context [Rle_dec ?x ?y] =>
             branch_free x; branch_free y; destruct (Rle_dec x y)
         | |- context [Rcase_abs ?x] =>
             branch_free x; destruct (Rcase_abs x)
         end; lra.


Lemma one_learner_cold_theta (d : string) :
  theta_d 0 one_learner [] d = Ok 0.
Proof.
  cbn. f_equal. unfold no_affinity. real_facts.
Qed.

Lemma theta_d_estimate_witness :
  theta_d 0 one_learner one_record "Algebra"
  = Ok (clip ((mean [0.9] - 0.5) / 0.2) (-2.5) 2.5)
  /\ theta_d 0 one_learner one_record "Calculus"
     = Ok (clip (0.7 * 0 + 0.3 * 0) (-2.5) 2.5)
  /\ -2.5 <= 0 <= 2.5.
Proof.
  split; [|split].
  - apply (proj1 (theta_d_estimate 0 one_learner one_record "Algebra")).
    cbn. discriminate.
  - apply (proj1 (proj2 (theta_d_estimate 0 one_learner one_record
                                          "Calculus"))
                  eq_refl (Student.mk 0 0 0.5 45 4 no_affinity)).
    reflexivity.
  - apply (proj1 (proj2 (proj2 (theta_d_estimate 0 one_learner []
                                                 "Algebra")))).
    apply one_learner_cold_theta.
Defined.

(** ** The two sorts are ascending permutations *)

Lemma StronglySorted_weaken {A : Type} (P Q : A -> A -> Prop) (l : list A) :
  (forall x y, P x y -> Q x y) -> StronglySorted P l -> StronglySorted Q l.
Proof.
  intros HPQ. induction 1 as [|x l Hs IH Hall]; constructor; auto.
  eapply Forall_impl; [|exact Hall]. intros y. apply HPQ.
Qed.

Lemma sort_values_gap_stable_perm (l : list Candidate.t) :
  Permutation (sort_values_gap_stable l) l.
Proof. apply stable_sort_perm. Qed.

Lemma sort_values_gap_stable_ascending (l : list Candidate.t) :
  StronglySorted (fun x y => Candidate.gap x <= Candidate.gap y)
                 (sort_values_gap_stable l).
Proof.
  eapply StronglySorted_weaken;
    [|apply (stable_sort_sorted gap_leb gap_leb_total gap_leb_trans)].
  intros x y. apply Rleb_le.
Qed.

(** [sort_values_gap_stable] is stable: rows of one gap, whichever way they
    are selected, come out in the order they went in. *)
Lemma sort_values_gap_stable_ties (p : Candidate.t -> bool)
      (l : list Candidate.t) :
  (forall x y, p x = true -> p y = true -> Candidate.gap x = Candidate.gap y) ->
  filter p (sort_values_gap_stable l) = filter p l.
Proof.
  intros Hsame. unfold sort_values_gap_stable.
  rewrite (filter_stable_sort gap_leb gap_leb_total gap_leb_trans).
  apply stable_sort_of_sorted.
  induction l as [|x l IH]; cbn [filter]; [constructor|].
  destruct (p x) eqn:Hx; [|exact IH].
  constructor; [exact IH|].
  apply Forall_forall. intros y Hy. apply filter_In in Hy.
  destruct Hy as [_ Hy]. unfold gap_leb. apply Rleb_le.
  rewrite (Hsame x y Hx Hy). lra.
Qed.

(** ** Ranking within a domain *)

Section DomainRanking.
Variable sort_values_gap : list Candidate.t -> list Candidate.t.
Hypothesis sort_permutes : forall l, Permutation (sort_values_gap l) l.
Hypothesis sort_ascending :
  forall l, StronglySorted (fun x y => Candidate.gap x <= Candidate.gap y)
                           (sort_values_gap l).

Lemma candidates_length (df_items : list Item.t) (d : string) (theta : R) :
  List.length (candidates df_items d theta)
  = List.length (filter (fun it => String.eqb (Item.domain it) d) df_items).
Proof. unfold candidates. apply length_map. Qed.

Lemma candidates_domain (df_items : list Item.t) (d : string) (theta : R)
      (c : Candidate.t) :
  In c (candidates df_items d theta) -> Candidate.domain c = d.
Proof.
  unfold candidates. intros H. apply in_map_iff in H.
  destruct H as [it [<- Hit]]. apply filter_In in Hit.
  destruct Hit as [_ Hd]. now apply String.eqb_eq in Hd.
Qed.


Lemma top_length (df_items : list Item.t) (d : string) (theta : R) :
  List.length (top sort_values_gap df_items d theta)
  = Nat.min 3 (List.length (filter (fun it => String.eqb (Item.domain it) d)
                                   df_items)).
Proof.
  unfold top. rewrite length_map, length_firstn.
  rewrite (Permutation_length (sort_permutes _)), candidates_length.
  reflexivity.
Qed.

End DomainRanking.

(** ** Order of the returned frame *)

Lemma two_domain_frame :
  exists out,
    recommend_items sort_values_gap_stable 0 one_learner two_domain_items []
    = Ok out
    /\ map Rec.domain out = ["Calculus"; "Probability"].
Proof.
  unfold recommend_items. cbn [recs_loop DOMAINS].
  unfold recommend_domain. rewrite !one_learner_cold_theta.
  eexists. split; [reflexivity|]. reflexivity.
Qed.

(** C3 (as stated) fails: with one Probability item and one Calculus item
    the frame lists Calculus first, although [DOMAINS] lists Probability
    before Calculus. *)
Lemma recommend_items_not_in_enumeration_order :
  ~ (forall sort_values_gap : list Candidate.t -> list Candidate.t,
       (forall l, Permutation (sort_values_gap l) l) ->
       (forall l, StronglySorted
                    (fun x y => Candidate.gap x <= Candidate.gap y)
                    (sort_values_gap l)) ->
       forall student_id df_students df_items score_history out,
         recommend_items sort_values_gap student_id df_students df_items
                         score_history = Ok out ->
         Sorted enumeration_gap_le out).
Proof.
  intros Hclaim.
  destruct two_domain_frame as [out [Hout Hdom]].
  specialize (Hclaim sort_values_gap_stable sort_values_gap_stable_perm
                     sort_values_gap_stable_ascending _ _ _ _ _ Hout).
  destruct out as [|x [|y [|z out]]]; try discriminate.
  injection Hdom as Hx Hy.
  inversion Hclaim as [|? ? _ Hhd]; subst.
  inversion Hhd as [|? ? Hle]; subst.
  unfold enumeration_gap_le in Hle. rewrite Hx, Hy in Hle. cbn in Hle. lia.
Qed.

(** C3 (amended). The returned frame holds exactly the rows of the frames of
    the five domains, ordered first by domain name as a string (Algebra,
    Calculus, Probability, Programming, Statistics) and, within a domain, by
    ascending gap. *)
Theorem recommend_items_sorted
        (sort_values_gap : list Candidate.t -> list Candidate.t)
        (student_id : Z) (df_students : list Student.t)
        (df_items : list Item.t) (score_history : list Traj.t)
        (out : list Rec.t) :
  recommend_items sort_values_gap student_id df_students df_items
                  score_history = Ok out ->
  StronglySorted
    (fun x y => String.compare (Rec.domain x) (Rec.domain y) = Lt
                \/ (Rec.domain x = Rec.domain y /\ Rec.gap x <= Rec.gap y))
    out
  /\ (exists recs,
        recs_loop sort_values_gap student_id df_students df_items
                  score_history DOMAINS = Ok recs
        /\ Permutation out (List.concat recs))
  /\ StronglySorted (fun d d' => String.compare d d' = Lt)
       ["Algebra"; "Calculus"; "Probability"; "Programming"; "Statistics"]
  /\ Permutation
       ["Algebra"; "Calculus"; "Probability"; "Programming"; "Statistics"]
       DOMAINS.
Proof.
  unfold recommend_items. intros H.
  apply bind_Ok_inv in H. destruct H as [recs [Hloop H]].
  cbn in H. inversion H; subst. clear H.
  split; [|split; [|split]].
  - eapply StronglySorted_weaken;
      [|apply (stable_sort_sorted domain_gap_leb domain_gap_leb_total
                                  domain_gap_leb_trans)].
    intros x y. apply domain_gap_leb_spec.
  - exists recs. split; [exact Hloop | apply stable_sort_perm].
  - repeat constructor.
  - change (Permutation (stable_sort String.leb DOMAINS) DOMAINS).
    apply stable_sort_perm.
Qed.

Lemma recommend_items_sorted_witness :
  exists out,
    recommend_items sort_values_gap_stable 0 one_learner two_domain_items []
    = Ok out
    /\ StronglySorted
         (fun x y => String.compare (Rec.domain x) (Rec.domain y) = Lt
                     \/ (Rec.domain x = Rec.domain y
                         /\ Rec.gap x <= Rec.gap y))
         out.
Proof.
  destruct two_domain_frame as [out [Hout _]].
  exists out. split; [exact Hout|].
  exact (proj1 (recommend_items_sorted _ _ _ _ _ _ Hout)).
Defined.

(** ** Unknown learners and empty domains *)

Section UnknownLearner.
Variable sort_values_gap : list Candidate.t -> list Candidate.t.
Variables (student_id : Z) (df_students : list Student.t)
          (df_items : list Item.t) (score_history : list Traj.t).

Lemma theta_d_raises (d : string) :
  filter (fun s => (Student.student_id s =? student_id)%Z) df_students = [] ->
  hist_of student_id d score_history = [] ->
  theta_d student_id df_students score_history d = Raise IndexError.
Proof.
  intros Hs Hh. unfold theta_d. rewrite Hh, Hs. reflexivity.
Qed.

Lemma theta_d_with_history (d : string) :
  hist_of student_id d score_history <> [] ->
  exists theta, theta_d student_id df_students score_history d = Ok theta.
Proof.
  intros Hne. eexists. apply theta_d_history. exact Hne.
Qed.

Lemma theta_d_known_learner (d : string) (row : Student.t) :
  iloc0 (filter (fun s => (Student.student_id s =? student_id)%Z)
                df_students) = Ok row ->
  exists theta, theta_d student_id df_students score_history d = Ok theta.
Proof.
  intros Hrow.
  destruct (hist_of student_id d score_history) as [|h hist] eqn:Hh.
  - eexists. apply theta_d_cold; [exact Hh | exact Hrow].
  - apply theta_d_with_history. rewrite Hh. discriminate.
Qed.

(** The estimate raises nothing but the [IndexError] of [.iloc[0]]. *)
Lemma theta_d_raise_kind (d : string) (e : exn) :
  theta_d student_id df_students score_history d = Raise e -> e = IndexError.
Proof.
  unfold theta_d.
  destruct (0 <? List.length (hist_of student_id d score_history))%nat;
    [discriminate|].
  destruct (filter (fun s => (Student.student_id s =? student_id)%Z)
                   df_students); cbn; congruence.
Qed.

Lemma recs_loop_raises (domains : list string) (d : string) :
  In d domains ->
  theta_d student_id df_students score_history d = Raise IndexError ->
  recs_loop sort_values_gap student_id df_students df_items score_history
            domains = Raise IndexError.
Proof.
  induction domains as [|d' domains IH]; [contradiction|].
  intros Hin Hraise. cbn [recs_loop]. unfold recommend_domain.
  destruct (theta_d student_id df_students score_history d')
    as [theta|e] eqn:Ht;
    [|rewrite (theta_d_raise_kind d' e Ht); reflexivity].
  destruct Hin as [->|Hin]; [congruence|].
  cbn. rewrite (IH Hin Hraise). reflexivity.
Qed.

Lemma recommend_items_total :
  (forall d, In d DOMAINS ->
     exists theta,
       theta_d student_id df_students score_history d = Ok theta) ->
  exists out,
    recommend_items sort_values_gap student_id df_students df_items
                    score_history = Ok out.
Proof.
  intros Hall.
  destruct (recs_loop_total sort_values_gap student_id df_students df_items
                            score_history DOMAINS Hall) as [recs Hrecs].
  unfold recommend_items. rewrite Hrecs. cbn. eauto.
Qed.

Hypothesis sort_permutes : forall l, Permutation (sort_values_gap l) l.

Lemma top_rows_of_domain (d : string) (theta : R) (r : Rec.t) :
  In r (top sort_values_gap df_items d theta) ->
  Rec.domain r = d /\ In (Candidate.item (Rec.row r)) df_items.
Proof.
  unfold top. intros H. apply in_map_iff in H. destruct H as [c [<- Hc]].
  apply In_firstn in Hc.
  apply (Permutation_in _ (sort_permutes _)) in Hc.
  unfold candidates in Hc. apply in_map_iff in Hc.
  destruct Hc as [it [<- Hit]]. apply filter_In in Hit.
  destruct Hit as [Hit Hd]. apply String.eqb_eq in Hd.
  cbn. unfold Rec.domain, Candidate.domain. cbn. tauto.
Qed.

Lemma empty_domain_no_rows (d : string) (out : list Rec.t) :
  filter (fun it => String.eqb (Item.domain it) d) df_items = [] ->
  recommend_items sort_values_gap student_id df_students df_items
                  score_history = Ok out ->
  filter (fun r => String.eqb (Rec.domain r) d) out = [].
Proof.
  intros Hnone Hout.
  destruct (filter (fun r => String.eqb (Rec.domain r) d) out)
    as [|r rest] eqn:Hf; [reflexivity|].
  assert (Hr : In r (filter (fun r => String.eqb (Rec.domain r) d) out))
    by (rewrite Hf; now left).
  apply filter_In in Hr. destruct Hr as [Hin Hd].
  apply String.eqb_eq in Hd.
  destruct (recommend_items_rows _ _ _ _ _ _ _ Hout Hin)
    as [d' [theta [_ [_ Htop]]]].
  apply top_rows_of_domain in Htop. destruct Htop as [Hd' Hit].
  assert (Hbad : In (Candidate.item (Rec.row r))
                    (filter (fun it => String.eqb (Item.domain it) d)
                            df_items)).
  { apply filter_In. split; [exact Hit|]. apply String.eqb_eq. exact Hd. }
  rewrite Hnone in Hbad. contradiction.
Qed.

End UnknownLearner.

(** ** The rows of one domain in the returned frame *)

Lemma StronglySorted_firstn {A : Type} (P : A -> A -> Prop) (n : nat)
      (l : list A) :
  StronglySorted P l -> StronglySorted P (firstn n l).
Proof.
  intros Hs. revert n. induction Hs as [|x l Hs IH Hall]; intros n.
  - rewrite firstn_nil. constructor.
  - destruct n as [|n]; cbn; constructor; [apply IH|].
    apply Forall_forall. intros y Hy. apply In_firstn in Hy.
    rewrite Forall_forall in Hall. now apply Hall.
Qed.

Section Frames.
Variable sort_values_gap : list Candidate.t -> list Candidate.t.
Hypothesis sort_permutes : forall l, Permutation (sort_values_gap l) l.
Hypothesis sort_ascending :
  forall l, StronglySorted (fun x y => Candidate.gap x <= Candidate.gap y)
                           (sort_values_gap l).
Variables (student_id : Z) (df_students : list Student.t)
          (df_items : list Item.t) (score_history : list Traj.t).

(** The frame of a domain is already in the order of the final sort. *)
Lemma top_in_final_order (d : string) (theta : R) :
  StronglySorted (fun x y => domain_gap_leb x y = true)
                 (top sort_values_gap df_items d theta).
Proof.
  assert (Hdom : forall r, In r (top sort_values_gap df_items d theta) ->
                           Rec.domain r = d).
  { intros r Hr.
    now apply (top_rows_of_domain sort_values_gap df_items sort_permutes)
      in Hr. }
  assert (Hgap : StronglySorted (fun x y => Rec.gap x <= Rec.gap y)
                                (top sort_values_gap df_items d theta)).
  { unfold top.
    pose proof (StronglySorted_firstn _ 3 _
                  (sort_ascending (candidates df_items d theta))) as Hs.
    induction Hs as [|c l Hs IH Hall]; cbn [map]; constructor; [exact IH|].
    apply Forall_map. exact Hall. }
  induction Hgap as [|r l Hs IH Hall]; constructor.
  - apply IH. intros r' Hr'. apply Hdom. now right.
  - apply Forall_forall. intros r' Hr'. apply domain_gap_leb_spec. right.
    split.
    + rewrite (Hdom r (or_introl eq_refl)). symmetry. apply Hdom. now right.
    + rewrite Forall_forall in Hall. now apply Hall.
Qed.

Lemma frames_rows_domain (domains : list string) (recs : list (list Rec.t))
      (r : Rec.t) :
  Forall2 (fun d top_d =>
             exists theta,
               theta_d student_id df_students score_history d = Ok theta
               /\ top_d = top sort_values_gap df_items d theta)
          domains recs ->
  In r (List.concat recs) -> In (Rec.domain r) domains.
Proof.
  intros Hframes Hr. apply in_concat in Hr. destruct Hr as [top_d [Htop Hr]].
  destruct (Forall2_In_r _ _ _ _ Hframes Htop) as [d [Hd [theta [_ ->]]]].
  apply (top_rows_of_domain sort_values_gap df_items sort_permutes) in Hr.
  destruct Hr as [-> _]. exact Hd.
Qed.

(** Among the frames collected by the loop, the rows of domain [d] are the
    frame of [d]. *)
Lemma frames_of_domain (domains : list string) (recs : list (list Rec.t))
      (d : string) (theta : R) :
  NoDup domains ->
  Forall2 (fun d top_d =>
             exists theta,
               theta_d student_id df_students score_history d = Ok theta
               /\ top_d = top sort_values_gap df_items d theta)
          domains recs ->
  In d domains ->
  theta_d student_id df_students score_history d = Ok theta ->
  filter (fun r => String.eqb (Rec.domain r) d) (List.concat recs)
  = top sort_values_gap df_items d theta.
Proof.
  intros Hnd Hframes. revert Hnd.
  induction Hframes as [|d' top_d domains recs [theta' [Ht' ->]] Hrest IH];
    intros Hnd Hin Ht; [contradiction|].
  inversion Hnd as [|? ? Hnotin Hnd']; subst.
  cbn [List.concat]. rewrite filter_app.
  destruct (String.eqb_spec d' d) as [->|Hne].
  - assert (theta' = theta) by congruence. subst theta'.
    rewrite forallb_filter_id.
    + rewrite (filter_none (fun r => String.eqb (Rec.domain r) d)
                           (List.concat recs)); [apply app_nil_r|].
      intros r Hr. apply String.eqb_neq. intros Hd. apply Hnotin.
      rewrite <- Hd. eapply frames_rows_domain; eassumption.
    + apply forallb_forall. intros r Hr. apply String.eqb_eq.
      now apply (top_rows_of_domain sort_values_gap df_items sort_permutes)
        in Hr.
  - rewrite (filter_none (fun r => String.eqb (Rec.domain r) d)
                         (top sort_values_gap df_items d' theta')).
    + cbn [app]. apply IH; [exact Hnd' | | exact Ht].
      destruct Hin as [Heq|Hin]; [congruence | exact Hin].
    + intros r Hr. apply String.eqb_neq.
      apply (top_rows_of_domain sort_values_gap df_items sort_permutes)
        in Hr.
      destruct Hr as [-> _]. exact Hne.
Qed.

(** In the returned frame the rows of a domain are the frame of that
    domain, in the order the loop left them. *)
Lemma recommend_items_of_domain (d : string) (theta : R)
      (out : list Rec.t) :
  In d DOMAINS ->
  theta_d student_id df_students score_history d = Ok theta ->
  recommend_items sort_values_gap student_id df_students df_items
                  score_history = Ok out ->
  filter (fun r => String.eqb (Rec.domain r) d) out
  = top sort_values_gap df_items d theta.
Proof.
  intros Hd Ht Hout. unfold recommend_items in Hout.
  apply bind_Ok_inv in Hout. destruct Hout as [recs [Hloop Hout]].
  cbn in Hout. inversion Hout; subst. clear Hout.
  unfold sort_values_domain_gap.
  rewrite (filter_stable_sort domain_gap_leb domain_gap_leb_total
                              domain_gap_leb_trans).
  rewrite (frames_of_domain DOMAINS recs d theta DOMAINS_NoDup
                            (recs_loop_frames _ _ _ _ _ _ _ Hloop) Hd Ht).
  apply stable_sort_of_sorted, top_in_final_order.
Qed.

End Frames.


(** *** NumPy's quicksort on a column with ties *)

Lemma Rltb_IZR (a b : Z) : Rltb (IZR a) (IZR b) = (a <? b)%Z.
Proof.
  unfold Rltb.
  destruct (Rlt_dec (IZR a) (IZR b)) as [H|H]; destruct (Z.ltb_spec a b) as [Hz|Hz];
    try reflexivity.
  - apply lt_IZR in H. lia.
  - exfalso. apply H. apply IZR_lt. exact Hz.
Qed.

(** On a column of integer gaps the sort is the sort of the integers. *)
Lemma sort_values_gap_quicksort_keys (rows : list Candidate.t)
      (keys : list Z) :
  map Candidate.gap rows = map IZR keys ->
  sort_values_gap_quicksort rows
  = flat_map (fun i => match nth_error rows i with
                       | Some row => [row]
                       | None => []
                       end)
             (NumPy.aquicksort (fun i j => (nth i keys 0 <? nth j keys 0)%Z)
                               (List.length rows)).
Proof.
  intros Hkeys. unfold sort_values_gap_quicksort. rewrite Hkeys.
  f_equal. f_equal.
  apply functional_extensionality. intros i.
  apply functional_extensionality. intros j.
  rewrite !(map_nth IZR). apply Rltb_IZR.
Qed.








(** A column of at most 17 rows is not partitioned: on the two tied rows of
    [tied_items] the quicksort leaves the item order. *)
Lemma quicksort_short_column :
  map Rec.item_id (top sort_values_gap_quicksort tied_items "Algebra" 0)
  = [0; 1]%Z.
Proof.
  unfold top.
  rewrite (sort_values_gap_quicksort_keys _ [1; 1]%Z).
  - reflexivity.
  - unfold candidates, tied_items. cbn. f_equal; [|f_equal]; real_facts.
Qed.





Lemma unknown_learner_raises :
  filter (fun s => (Student.student_id s =? 7)%Z) one_learner = []
  /\ recommend_items sort_values_gap_stable 7 one_learner two_domain_items []
     = Raise IndexError
  /\ forall prompt_of explain_remote dom api_store,
      update_learning sort_values_gap_stable prompt_of explain_remote
                      one_learner two_domain_items [] 7 dom api_store
      = Raise IndexError.
Proof.
  assert (H : recommend_items sort_values_gap_stable 7 one_learner
                              two_domain_items [] = Raise IndexError)
    by reflexivity.
  split; [reflexivity|]. split; [exact H|].
  intros. unfold update_learning. rewrite H. reflexivity.
Qed.

(** C7 (as stated) fails: for a learner id that is in no table the engine
    returns no result at all, empty or other; [IndexError] is raised and
    reaches the caller of the callback. *)
Lemma unknown_learner_not_a_placeholder :
  ~ (forall sort_values_gap : list Candidate.t -> list Candidate.t,
       (forall l, Permutation (sort_values_gap l) l) ->
       forall student_id df_students df_items score_history,
         filter (fun s => (Student.student_id s =? student_id)%Z)
                df_students = [] ->
         exists out,
           recommend_items sort_values_gap student_id df_students df_items
                           score_history = Ok out).
Proof.
  intros Hclaim.
  destruct unknown_learner_raises as [Hunknown [Hraise _]].
  destruct (Hclaim sort_values_gap_stable sort_values_gap_stable_perm
                   7%Z one_learner two_domain_items [] Hunknown)
    as [out Hout].
  rewrite Hraise in Hout. discriminate.
Qed.

(** C7 (amended). For a learner id absent from the learner table the engine
    raises [IndexError] as soon as one domain has no history record of that
    id, and the callback that called it raises the same; it returns a frame
    when every domain has such a record.  Whenever every domain has an
    ability estimate the call returns a frame, whatever the item bank, and
    a domain without items has no row in it. *)
Theorem recommend_items_unknown_learner
        (sort_values_gap : list Candidate.t -> list Candidate.t)
        (sort_permutes : forall l, Permutation (sort_values_gap l) l)
        (student_id : Z) (df_students : list Student.t)
        (df_items : list Item.t) (score_history : list Traj.t) :
  (filter (fun s => (Student.student_id s =? student_id)%Z) df_students = [] ->
   (forall d, In d DOMAINS -> hist_of student_id d score_history = [] ->
      recommend_items sort_values_gap student_id df_students df_items
                      score_history = Raise IndexError
      /\ forall prompt_of explain_remote dom api_store,
          update_learning sort_values_gap prompt_of explain_remote
                          df_students df_items score_history student_id dom
                          api_store = Raise IndexError)
   /\ ((forall d, In d DOMAINS ->
          hist_of student_id d score_history <> []) ->
       exists out,
         recommend_items sort_values_gap student_id df_students df_items
                         score_history = Ok out))
  /\ ((forall d, In d DOMAINS ->
         exists theta,
           theta_d student_id df_students score_history d = Ok theta) ->
      exists out,
        recommend_items sort_values_gap student_id df_students df_items
                        score_history = Ok out
        /\ forall d,
            filter (fun it => String.eqb (Item.domain it) d) df_items = [] ->
            filter (fun r => String.eqb (Rec.domain r) d) out = []).
Proof.
  split.
  - intros Hunknown. split.
    + intros d Hd Hh.
      assert (Hraise : recommend_items sort_values_gap student_id df_students
                                       df_items score_history
                       = Raise IndexError).
      { unfold recommend_items.
        rewrite (recs_loop_raises sort_values_gap student_id df_students
                                  df_items score_history DOMAINS d Hd
                                  (theta_d_raises _ _ _ d Hunknown Hh)).
        reflexivity. }
      split; [exact Hraise|].
      intros. unfold update_learning. rewrite Hraise. reflexivity.
    + intros Hall. apply recommend_items_total.
      intros d Hd. apply theta_d_with_history. now apply Hall.
  - intros Hall.
    destruct (recommend_items_total sort_values_gap student_id df_students
                                    df_items score_history Hall)
      as [out Hout].
    exists out. split; [exact Hout|].
    intros d Hnone.
    eapply empty_domain_no_rows; eassumption.
Qed.

Lemma recommend_items_unknown_learner_witness :
  recommend_items sort_values_gap_stable 7 one_learner two_domain_items []
  = Raise IndexError
  /\ exists out,
      recommend_items sort_values_gap_stable 0 one_learner two_domain_items []
      = Ok out
      /\ filter (fun r => String.eqb (Rec.domain r) "Algebra") out = [].
Proof.
  split.
  - apply (proj1 (proj1 (recommend_items_unknown_learner
                           sort_values_gap_stable sort_values_gap_stable_perm
                           7 one_learner two_domain_items [])
                        eq_refl)
                 "Algebra");
      [now left | reflexivity].
  - destruct (proj2 (recommend_items_unknown_learner
                       sort_values_gap_stable sort_values_gap_stable_perm
                       0 one_learner two_domain_items []))
      as [out [Hout Hempty]].
    + intros d _. exists 0. apply one_learner_cold_theta.
    + exists out. split; [exact Hout|]. apply Hempty. reflexivity.
Defined.

(** ** Trajectory simulator *)

Section SimulatorFacts.
Variable rng : Type.
Variable poisson : R -> state rng Z.
Variable normal : R -> R -> state rng R.

Lemma for_rows_cons {A B : Type} (x : A) (l : list A)
      (body : A -> state rng (list B)) (g : rng) :
  runState (for_rows rng (x :: l) body) g
  = (fst (runState (body x) g)
     ++ fst (runState (for_rows rng l body) (snd (runState (body x) g))),
     snd (runState (for_rows rng l body) (snd (runState (body x) g)))).
Proof.
  cbn. destruct (runState (body x) g) as [rows g'].
  cbn. destruct (runState (for_rows rng l body) g') as [rest g''].
  reflexivity.
Qed.

(** A property of every row a body appends holds of all the rows. *)
Lemma for_rows_Forall {A B : Type} (P : B -> Prop) (l : list A)
      (body : A -> state rng (list B)) :
  (forall x g, In x l -> Forall P (fst (runState (body x) g))) ->
  forall g, Forall P (fst (runState (for_rows rng l body) g)).
Proof.
  induction l as [|x l IH]; intros Hbody g.
  - constructor.
  - rewrite for_rows_cons. cbn [fst]. apply Forall_app. split.
    + apply Hbody. now left.
    + apply IH. intros y g' Hy. apply Hbody. now right.
Qed.

(** With [n] rows appended per turn the loop appends [n] rows per element. *)
Lemma for_rows_length {A B : Type} (n : nat) (l : list A)
      (body : A -> state rng (list B)) :
  (forall x g, List.length (fst (runState (body x) g)) = n) ->
  forall g,
    List.length (fst (runState (for_rows rng l body) g))
    = (List.length l * n)%nat.
Proof.
  intros Hbody. induction l as [|x l IH]; intros g; [reflexivity|].
  rewrite for_rows_cons. cbn [fst]. rewrite length_app, Hbody, IH.
  reflexivity.
Qed.

Lemma simulate_day_row (today : Z) (r : Student.t) (d : string) (lam : R)
      (days k : nat) (g : rng) :
  exists minutes noise,
    minutes = fst (runState (poisson (lam / 4.5)) g)
    /\ fst (runState (simulate_day rng poisson normal today r d lam days k) g)
       = [Traj.mk (Student.student_id r) d
                  (today - (Z.of_nat days - Z.of_nat k))%Z minutes
                  (clip (0.55 + 0.18 * Student.ability_g r
                         + 0.12 * Student.affinity r d + noise) 0.05 0.98)].
Proof.
  unfold simulate_day. cbn.
  destruct (runState (poisson (lam / 4.5)) g) as [minutes g'].
  cbn. destruct (runState (normal 0 0.08) g') as [noise g''].
  cbn. now exists minutes, noise.
Qed.

End SimulatorFacts.

(** C8. Whatever the generator draws, provided its Poisson sampler returns
    counts, the simulator appends one record per learner, domain and day,
    and every record has [minutes >= 0] and a micro-score in
    [0.05, 0.98]. *)
Theorem simulate_trajectories_bounds
        (rng : Type) (poisson : R -> state rng Z)
        (normal : R -> R -> state rng R)
        (poisson_counts :
           forall lam g, (0 <= fst (runState (poisson lam) g))%Z)
        (today : Z) (df_students : list Student.t) (domains : list string)
        (days : nat) (g : rng) :
  let rows := fst (runState (simulate_trajectories rng poisson normal today
                                                   df_students domains days)
                            g) in
  List.length rows
  = (List.length df_students * (List.length domains * days))%nat
  /\ forall row, In row rows ->
                 (0 <= Traj.minutes row)%Z
                 /\ 0.05 <= Traj.micro_score row <= 0.98.
Proof.
  cbn zeta. unfold simulate_trajectories. split.
  - apply for_rows_length. intros r g1.
    apply for_rows_length. intros d g2.
    rewrite (for_rows_length rng 1); [now rewrite length_seq, Nat.mul_1_r|].
    intros k g3.
    destruct (simulate_day_row rng poisson normal today r d
                (Rmax 5 (Student.pace_min_day r
                         * (0.5 + 0.5 * (Student.affinity r d + 2) / 4)))
                days k g3) as [m [n [_ ->]]].
    reflexivity.
  - apply Forall_forall.
    apply for_rows_Forall. intros r g1 _.
    apply for_rows_Forall. intros d g2 _.
    apply for_rows_Forall. intros k g3 _.
    destruct (simulate_day_row rng poisson normal today r d
                (Rmax 5 (Student.pace_min_day r
                         * (0.5 + 0.5 * (Student.affinity r d + 2) / 4)))
                days k g3) as [m [n [Hm ->]]].
    constructor; [|constructor]. cbn. split.
    + rewrite Hm. apply poisson_counts.
    + apply clip_bounds. lra.
Qed.

Lemma simulate_trajectories_bounds_witness :
  (forall lam g, (0 <= fst (runState (counting_poisson lam) g))%Z)
  /\ (0 <= 3)%Z
  /\ 0.05 <= clip (0.55 + 0.18 * 0 + 0.12 * no_affinity "Algebra" + 0)
                  0.05 0.98 <= 0.98.
Proof.
  assert (Hcounts : forall lam g,
             (0 <= fst (runState (counting_poisson lam) g))%Z)
    by (intros lam g; cbn; lia).
  split; [exact Hcounts|].
  apply (proj2 (simulate_trajectories_bounds
                  nat counting_poisson centred_normal Hcounts
                  100 one_learner ["Algebra"] 1 3%nat)
               (Traj.mk 0 "Algebra" 99 3
                        (clip (0.55 + 0.18 * 0 + 0.12 * no_affinity "Algebra"
                               + 0) 0.05 0.98))).
  cbn. left. reflexivity.
Defined.

(** ** Explanation client *)

Lemma fallback_messages_nonempty :
  NO_KEY_MESSAGE <> "" /\ NO_LIBRARY_MESSAGE <> "" /\ KEY_PROMPT_MESSAGE <> "".
Proof. repeat split; discriminate. Qed.

(** C9. Without a credential ([None] or the empty string) the guarded call
    returns, and does not raise, a fixed non-empty message that depends on
    nothing but the import guard: the missing-key message when the client
    library is there, the missing-library message when it is not.  The
    recommendation callback, once it has its recommendations, answers with
    the fixed non-empty hint to enter a key. *)
Theorem no_credential_fallback
        (OPENAI_OK : bool)
        (chat_create : string -> list Chat.message -> Chat.outcome)
        (api_key : option string) (system_instruction : string)
        (history : list Chat.message) :
  truthy api_key = false ->
  safe_openai_call OPENAI_OK chat_create api_key system_instruction history
  = Ok (Some (if OPENAI_OK then NO_KEY_MESSAGE else NO_LIBRARY_MESSAGE))
  /\ NO_KEY_MESSAGE <> "" /\ NO_LIBRARY_MESSAGE <> ""
  /\ (forall sort_values_gap prompt_of explain_remote DF_STUD DF_ITEMS
             DF_TRAJ student_id dom api_store recs,
        truthy (stored_key api_store) = false ->
        recommend_items sort_values_gap student_id DF_STUD DF_ITEMS DF_TRAJ
        = Ok recs ->
        update_learning sort_values_gap prompt_of explain_remote DF_STUD
                        DF_ITEMS DF_TRAJ student_id dom api_store
        = Ok (KeyHint KEY_PROMPT_MESSAGE))
  /\ KEY_PROMPT_MESSAGE <> "".
Proof.
  intros Hkey.
  destruct fallback_messages_nonempty as [Hk [Hl Hp]].
  repeat split; try assumption.
  - unfold safe_openai_call. rewrite Hkey. now destruct OPENAI_OK.
  - intros sort_values_gap prompt_of explain_remote DF_STUD DF_ITEMS DF_TRAJ
           student_id dom api_store recs Hstore Hrecs.
    unfold update_learning. rewrite Hrecs. cbn. now rewrite Hstore.
Qed.

Lemma no_credential_fallback_witness :
  truthy (Some "") = false
  /\ safe_openai_call true (fun _ _ => Chat.Raises "unreachable") (Some "")
                      "system" []
     = Ok (Some NO_KEY_MESSAGE)
  /\ safe_openai_call false (fun _ _ => Chat.Raises "unreachable") None
                      "system" []
     = Ok (Some NO_LIBRARY_MESSAGE).
Proof.
  split; [reflexivity|]. split.
  - apply (no_credential_fallback true (fun _ _ => Chat.Raises "unreachable")
                                  (Some "") "system" []).
    reflexivity.
  - apply (no_credential_fallback false (fun _ _ => Chat.Raises "unreachable")
                                  None "system" []).
    reflexivity.
Defined.

(** ** Sums and means *)

Lemma sum_app (l1 l2 : list R) : sum (l1 ++ l2) = sum l1 + sum l2.
Proof.
  unfold sum. induction l1 as [|x l1 IH]; cbn [fold_right app]; [ring|].
  rewrite IH. ring.
Qed.

Lemma sum_scale (c : R) (l : list R) :
  sum (map (fun x => c * x) l) = c * sum l.
Proof.
  unfold sum. induction l as [|x l IH]; cbn [fold_right map]; [ring|].
  rewrite IH. ring.
Qed.

Lemma sum_perm (l1 l2 : list R) : Permutation l1 l2 -> sum l1 = sum l2.
Proof.
  unfold sum.
  induction 1 as [|x l1 l2 _ IH|x y l|l1 l2 l3 _ IH1 _ IH2];
    cbn [fold_right].
  - reflexivity.
  - now rewrite IH.
  - ring.
  - congruence.
Qed.

Lemma sum_pos (l : list R) :
  l <> [] -> Forall (fun x => 0 < x) l -> 0 < sum l.
Proof.
  intros Hne Hall. destruct l as [|x l]; [congruence|].
  inversion Hall as [|? ? Hx Hl]; subst. unfold sum. cbn [fold_right].
  assert (Hnn : 0 <= fold_right Rplus 0 l).
  { clear -Hl. induction Hl as [|y l Hy _ IH]; cbn [fold_right]; lra. }
  lra.
Qed.

Lemma sum_bounds (lo hi : R) (l : list R) :
  Forall (fun x => lo <= x <= hi) l ->
  INR (List.length l) * lo <= sum l <= INR (List.length l) * hi.
Proof.
  induction 1 as [|x l Hx _ IH].
  - unfold sum. cbn [fold_right List.length INR]. lra.
  - change (sum (x :: l)) with (x + sum l).
    change (List.length (x :: l)) with (S (List.length l)).
    rewrite S_INR. lra.
Qed.

Lemma mean_bounds (lo hi : R) (l : list R) :
  l <> [] -> Forall (fun x => lo <= x <= hi) l -> lo <= mean l <= hi.
Proof.
  intros Hne Hall. pose proof (sum_bounds lo hi l Hall) as [Hlo Hhi].
  assert (Hn : 0 < INR (List.length l)).
  { destruct l as [|x l]; [congruence|]. apply lt_0_INR. cbn. lia. }
  unfold mean. split.
  - apply (Rmult_le_reg_r (INR (List.length l))); [exact Hn|].
    unfold Rdiv. rewrite Rmult_assoc, Rinv_l by lra. lra.
  - apply (Rmult_le_reg_r (INR (List.length l))); [exact Hn|].
    unfold Rdiv. rewrite Rmult_assoc, Rinv_l by lra. lra.
Qed.

Lemma mean_single (x : R) : mean [x] = x.
Proof. unfold mean, sum. cbn [fold_right List.length INR]. field. Qed.

(** ** Grouping keys *)

Section GroupKeys.
Context {K : Type} (cmp : K -> K -> comparison).

Lemma insert_key_In (k x : K) (keys : list K) :
  In x (insert_key cmp k keys) -> x = k \/ In x keys.
Proof.
  induction keys as [|k' keys IH]; cbn.
  - intros [<-|[]]. now left.
  - destruct (cmp k k').
    + intros H. now right.
    + intros [<-|H]; [now left | now right].
    + intros [<-|H]; [right; now left|].
      destruct (IH H) as [->|Hin]; [now left | right; now right].
Qed.

Lemma group_keys_In (x : K) (keys : list K) :
  In x (group_keys cmp keys) -> In x keys.
Proof.
  induction keys as [|k keys IH]; cbn; [tauto|].
  intros H. apply insert_key_In in H. destruct H as [->|H]; auto.
Qed.

Hypothesis cmp_eq : forall x y, cmp x y = Eq -> x = y.
Hypothesis cmp_refl : forall x, cmp x x = Eq.
Hypothesis cmp_gt_lt : forall x y, cmp x y = Gt -> cmp y x = Lt.
Hypothesis cmp_lt_trans :
  forall x y z, cmp x y = Lt -> cmp y z = Lt -> cmp x z = Lt.

Lemma insert_key_ascending (k : K) (keys : list K) :
  StronglySorted (fun x y => cmp x y = Lt) keys ->
  StronglySorted (fun x y => cmp x y = Lt) (insert_key cmp k keys).
Proof.
  induction 1 as [|k' keys Hs IH Hall]; cbn.
  - repeat constructor.
  - destruct (cmp k k') eqn:Hc.
    + now constructor.
    + constructor; [now constructor|].
      constructor; [exact Hc|].
      eapply Forall_impl; [|exact Hall].
      intros z Hz. now apply (cmp_lt_trans k k' z).
    + constructor; [exact IH|].
      apply Forall_forall. intros z Hz.
      apply insert_key_In in Hz. destruct Hz as [->|Hz].
      * now apply cmp_gt_lt.
      * rewrite Forall_forall in Hall. now apply Hall.
Qed.

Lemma group_keys_ascending (keys : list K) :
  StronglySorted (fun x y => cmp x y = Lt) (group_keys cmp keys).
Proof.
  induction keys as [|k keys IH]; cbn; [constructor|].
  now apply insert_key_ascending.
Qed.

Lemma ascending_NoDup (keys : list K) :
  StronglySorted (fun x y => cmp x y = Lt) keys -> NoDup keys.
Proof.
  induction 1 as [|k keys Hs IH Hall]; constructor; [|exact IH].
  intros Hin. rewrite Forall_forall in Hall.
  specialize (Hall k Hin). rewrite cmp_refl in Hall. discriminate.
Qed.

(** A key is listed once, however often it occurs. *)
Lemma group_keys_NoDup (keys : list K) : NoDup (group_keys cmp keys).
Proof. apply ascending_NoDup, group_keys_ascending. Qed.

Lemma insert_key_fresh (k : K) (keys : list K) :
  ~ In k keys -> Permutation (insert_key cmp k keys) (k :: keys).
Proof.
  induction keys as [|k' keys IH]; cbn; intros Hnotin; [reflexivity|].
  destruct (cmp k k') eqn:Hc.
  - exfalso. apply Hnotin. left. symmetry. now apply cmp_eq.
  - reflexivity.
  - rewrite IH by tauto. apply perm_swap.
Qed.

(** Keys that are distinct to begin with are only put in order. *)
Lemma group_keys_perm (keys : list K) :
  NoDup keys -> Permutation (group_keys cmp keys) keys.
Proof.
  induction 1 as [|k keys Hnotin _ IH]; cbn; [reflexivity|].
  rewrite insert_key_fresh.
  - now constructor.
  - intros Hin. apply Hnotin. now apply group_keys_In.
Qed.

End GroupKeys.

Lemma pair_compare_eq (k1 k2 : Z * string) :
  pair_compare k1 k2 = Eq -> k1 = k2.
Proof.
  destruct k1 as [z1 s1], k2 as [z2 s2]. unfold pair_compare. cbn.
  destruct (Z.compare z1 z2) eqn:Hz; try discriminate.
  intros Hs. apply Z.compare_eq in Hz. apply String.compare_eq_iff in Hs.
  congruence.
Qed.

Lemma pair_compare_refl (k : Z * string) : pair_compare k k = Eq.
Proof.
  unfold pair_compare. rewrite Z.compare_refl. apply string_compare_refl.
Qed.

Lemma pair_compare_gt_lt (k1 k2 : Z * string) :
  pair_compare k1 k2 = Gt -> pair_compare k2 k1 = Lt.
Proof.
  unfold pair_compare. rewrite (Z.compare_antisym (fst k1) (fst k2)).
  destruct (Z.compare (fst k1) (fst k2)); cbn; try easy.
  apply string_compare_Gt_Lt.
Qed.

Lemma pair_compare_lt_trans (k1 k2 k3 : Z * string) :
  pair_compare k1 k2 = Lt -> pair_compare k2 k3 = Lt ->
  pair_compare k1 k3 = Lt.
Proof.
  unfold pair_compare.
  destruct (Z.compare_spec (fst k1) (fst k2)) as [E12|L12|G12];
    destruct (Z.compare_spec (fst k2) (fst k3)) as [E23|L23|G23];
    try discriminate; intros H12 H23.
  - rewrite E12, E23, Z.compare_refl.
    eapply string_compare_Lt_trans; eassumption.
  - assert (Hlt : (fst k1 < fst k3)%Z) by lia.
    apply Z.compare_lt_iff in Hlt. now rewrite Hlt.
  - assert (Hlt : (fst k1 < fst k3)%Z) by lia.
    apply Z.compare_lt_iff in Hlt. now rewrite Hlt.
  - assert (Hlt : (fst k1 < fst k3)%Z) by lia.
    apply Z.compare_lt_iff in Hlt. now rewrite Hlt.
Qed.

Lemma string_compare_gt_lt (s1 s2 : string) :
  String.compare s1 s2 = Gt -> String.compare s2 s1 = Lt.
Proof. apply string_compare_Gt_Lt. Qed.

(** ** Recent-progress aggregator *)

Lemma pair_eqb_refl (k : Z * string) : pair_eqb k k = true.
Proof. unfold pair_eqb. now rewrite Z.eqb_refl, String.eqb_refl. Qed.

Section RecentProgress.
Variables (today : Z) (df_traj : list Traj.t) (days : Z).

(** Every aggregate is the mean over a non-empty group of records. *)
Lemma recent_progress_group (agg : Agg.t) :
  In agg (recent_progress today df_traj days) ->
  exists g,
    g <> [] /\ incl g df_traj
    /\ Agg.micro_mean agg = mean (map Traj.micro_score g).
Proof.
  unfold recent_progress. intros H. apply in_map_iff in H.
  destruct H as [k [<- Hk]]. apply group_keys_In in Hk.
  apply in_map_iff in Hk. destruct Hk as [r [Hkey Hr]].
  eexists. split; [|split; [|reflexivity]].
  - intros Hnil.
    assert (Hin : In r (filter (fun r' => pair_eqb (traj_key r') k)
                               (filter (fun r' => (today - days <=? Traj.date r')%Z)
                                       df_traj))).
    { apply filter_In. split; [exact Hr|]. rewrite Hkey. apply pair_eqb_refl. }
    rewrite Hnil in Hin. contradiction.
  - intros x Hx. apply filter_In in Hx. destruct Hx as [Hx _].
    apply filter_In in Hx. tauto.
Qed.

Lemma recent_progress_mean_bounds (lo hi : R) (agg : Agg.t) :
  Forall (fun r => lo <= Traj.micro_score r <= hi) df_traj ->
  In agg (recent_progress today df_traj days) ->
  lo <= Agg.micro_mean agg <= hi.
Proof.
  intros Hall Hin.
  destruct (recent_progress_group agg Hin) as [g [Hne [Hincl ->]]].
  apply mean_bounds.
  - destruct g; [congruence | discriminate].
  - apply Forall_map. apply Forall_forall. intros r Hr.
    rewrite Forall_forall in Hall. apply Hall, Hincl, Hr.
Qed.

(** One aggregate per (learner, domain) pair. *)
Lemma recent_progress_keys_NoDup :
  NoDup (map (fun agg => (Agg.student_id agg, Agg.domain agg))
             (recent_progress today df_traj days)).
Proof.
  unfold recent_progress. rewrite map_map.
  rewrite (map_ext _ (fun k => k)) by (intros [z s]; reflexivity).
  rewrite map_id.
  apply (group_keys_NoDup pair_compare pair_compare_refl pair_compare_gt_lt
                          pair_compare_lt_trans).
Qed.

End RecentProgress.

Lemma student_domains_NoDup (student_id : Z) (aggs : list Agg.t) :
  NoDup (map (fun agg => (Agg.student_id agg, Agg.domain agg)) aggs) ->
  NoDup (map Agg.domain
             (filter (fun r => (Agg.student_id r =? student_id)%Z) aggs)).
Proof.
  induction aggs as [|agg aggs IH]; cbn; [constructor|].
  intros Hnd. inversion Hnd as [|? ? Hnotin Hnd']; subst.
  destruct (Z.eqb_spec (Agg.student_id agg) student_id) as [Heq|Hne];
    [|now apply IH].
  cbn. constructor; [|now apply IH].
  intros Hin. apply in_map_iff in Hin. destruct Hin as [agg' [Hd Hin']].
  apply filter_In in Hin'. destruct Hin' as [Hin' Hid].
  apply Z.eqb_eq in Hid. apply Hnotin. apply in_map_iff.
  exists agg'. split; [|exact Hin']. congruence.
Qed.

(** ** Domain weights *)


Lemma raw_weights_domains (priority : string) (df7s : list Agg.t) :
  map fst (raw_weights priority df7s)
  = if (List.length df7s =? 0)%nat then DOMAINS else map Agg.domain df7s.
Proof.
  unfold raw_weights.
  destruct (List.length df7s =? 0)%nat.
  - rewrite map_map. apply map_id.
  - destruct (String.eqb priority "weak");
      [|destruct (String.eqb priority "strong")];
      rewrite map_map; reflexivity.
Qed.

Lemma raw_weights_NoDup (priority : string) (df7s : list Agg.t) :
  NoDup (map Agg.domain df7s) ->
  NoDup (map fst (raw_weights priority df7s)).
Proof.
  intros Hnd. rewrite raw_weights_domains.
  destruct (List.length df7s =? 0)%nat; [apply DOMAINS_NoDup | exact Hnd].
Qed.

Lemma raw_weights_nonempty (priority : string) (df7s : list Agg.t) :
  raw_weights priority df7s <> [].
Proof.
  intros Hnil. apply (f_equal (map fst)) in Hnil.
  rewrite raw_weights_domains in Hnil.
  destruct df7s as [|agg df7s]; discriminate.
Qed.

(** With mean micro-scores strictly between 0 and 1 every weight is
    positive, under each policy. *)
Lemma raw_weights_pos (priority : string) (df7s : list Agg.t) :
  Forall (fun agg => 0 < Agg.micro_mean agg < 1) df7s ->
  Forall (fun w => 0 < snd w) (raw_weights priority df7s).
Proof.
  intros Hall. unfold raw_weights.
  destruct (List.length df7s =? 0)%nat.
  - apply Forall_map. apply Forall_forall. intros d _. cbn. lra.
  - destruct (String.eqb priority "weak");
      [|destruct (String.eqb priority "strong")];
      apply Forall_map; (eapply Forall_impl; [|exact Hall]);
      intros agg Hagg; cbn; lra.
Qed.

Lemma filter_unique_key (d : string) (v : R) (l : list (string * R)) :
  NoDup (map fst l) -> In (d, v) l ->
  filter (fun w => String.eqb (fst w) d) l = [(d, v)].
Proof.
  induction l as [|[d' v'] l IH]; cbn; [tauto|].
  intros Hnd Hin. inversion Hnd as [|? ? Hnotin Hnd']; subst.
  destruct (String.eqb_spec d' d) as [->|Hne].
  - destruct Hin as [Heq|Hin].
    + inversion Heq; subst. f_equal.
      destruct (filter (fun w => String.eqb (fst w) d) l) as [|w rest] eqn:Hf;
        [reflexivity|].
      exfalso. apply Hnotin.
      assert (Hw : In w (filter (fun w => String.eqb (fst w) d) l))
        by (rewrite Hf; now left).
      apply filter_In in Hw. destruct Hw as [Hw Hd].
      apply String.eqb_eq in Hd. rewrite <- Hd. now apply in_map.
    + exfalso. apply Hnotin. now apply (in_map fst) in Hin.
  - destruct Hin as [Heq|Hin]; [congruence|]. now apply IH.
Qed.

(** With one row per domain the [groupby] only puts the rows in the order
    of their domain names. *)
Lemma mean_by_domain_perm (weights : list (string * R)) :
  NoDup (map fst weights) ->
  Permutation (mean_by_domain weights) weights.
Proof.
  intros Hnd. unfold mean_by_domain.
  rewrite (group_keys_perm String.compare String.compare_eq_iff
                           (map fst weights) Hnd).
  rewrite map_map.
  rewrite (map_ext_in _ (fun w => w)); [now rewrite map_id|].
  intros [d v] Hin. cbn [fst].
  rewrite (filter_unique_key d v weights Hnd Hin).
  cbn [map snd]. now rewrite mean_single.
Qed.

Lemma mean_by_domain_NoDup (weights : list (string * R)) :
  NoDup (map fst (mean_by_domain weights)).
Proof.
  unfold mean_by_domain. rewrite map_map. cbn [fst]. rewrite map_id.
  apply (group_keys_NoDup String.compare string_compare_refl
                          string_compare_gt_lt string_compare_Lt_trans).
Qed.

Lemma normalize_domains (weights : list (string * R)) :
  map fst (normalize weights) = map fst weights.
Proof. unfold normalize. rewrite map_map. reflexivity. Qed.

Lemma normalize_sum (weights : list (string * R)) :
  sum (map snd weights) <> 0 -> sum (map snd (normalize weights)) = 1.
Proof.
  intros Hne. unfold normalize. rewrite map_map. cbn [snd].
  rewrite (map_ext _ (fun w => / sum (map snd weights) * snd w))
    by (intros w; unfold Rdiv; ring).
  rewrite <- (map_map snd (fun x => / sum (map snd weights) * x)).
  rewrite sum_scale. now apply Rinv_l.
Qed.

Lemma normalize_In (d : string) (v : R) (weights : list (string * R)) :
  In (d, v) weights ->
  In (d, v / sum (map snd weights)) (normalize weights).
Proof.
  intros Hin. unfold normalize. apply in_map_iff. now exists (d, v).
Qed.

(** ** Day shaping *)

Lemma scale_cancel (s k : R) : k <> 0 -> s * k / (7 * k) = s / 7.
Proof. intros Hk. field. exact Hk. Qed.

(** The engagement factor cancels in the renormalisation. *)
Lemma day_weights_fixed (engagement : R) :
  0 <= engagement <= 1 ->
  day_weights engagement
  = [1.1 / 7; 1.1 / 7; 1.1 / 7; 1.0 / 7; 1.0 / 7; 0.8 / 7; 0.9 / 7].
Proof.
  intros He. unfold day_weights, DAY_SHAPE, sum. cbn [map fold_right].
  match goal with
  | |- context [_ / ?total] =>
      replace total with (7 * (0.8 + 0.4 * engagement)) by lra
  end.
  rewrite !scale_cancel by lra. reflexivity.
Qed.

Lemma day_cells_fixed (d : string) (base e1 e2 : R) :
  0 <= e1 <= 1 -> 0 <= e2 <= 1 -> day_cells d base e1 = day_cells d base e2.
Proof.
  intros H1 H2. unfold day_cells.
  now rewrite (day_weights_fixed e1 H1), (day_weights_fixed e2 H2).
Qed.

Lemma day_cells_hours (d : string) (base engagement : R) :
  0 <= engagement <= 1 ->
  sum (map Sched.hours (day_cells d base engagement)) = base.
Proof.
  intros He. unfold day_cells. rewrite (day_weights_fixed engagement He).
  unfold sum, DAYS. cbn [map combine fold_right Sched.hours fst snd]. lra.
Qed.

Lemma day_cells_domain (d : string) (base engagement : R) (c : Sched.t) :
  In c (day_cells d base engagement) -> Sched.domain c = d.
Proof.
  unfold day_cells. intros H. apply in_map_iff in H.
  destruct H as [da [<- _]]. reflexivity.
Qed.

(** ** The loop over the weighted domains *)

Section PlanRows.
Variables (goal_h engagement : R) (weights : list (string * R)).
Hypothesis weights_NoDup : NoDup (map fst weights).

Lemma plan_rows_cells (ws : list (string * R)) :
  incl ws weights ->
  plan_rows (map (fun w => (fst w, snd w * goal_h)) weights) engagement
            (map fst ws)
  = Ok (flat_map (fun w => day_cells (fst w) (snd w * goal_h) engagement) ws).
Proof.
  induction ws as [|[d v] ws IH]; intros Hincl; [reflexivity|].
  cbn [map fst plan_rows flat_map].
  assert (Hin : In (d, v * goal_h)
                   (map (fun w => (fst w, snd w * goal_h)) weights)).
  { apply in_map_iff. exists (d, v). split; [reflexivity|].
    apply Hincl. now left. }
  rewrite (filter_unique_key d (v * goal_h) _).
  - cbn. rewrite IH; [reflexivity|].
    intros w Hw. apply Hincl. now right.
  - rewrite map_map. exact weights_NoDup.
  - exact Hin.
Qed.

Lemma cells_total (ws : list (string * R)) :
  0 <= engagement <= 1 ->
  total_hours (flat_map (fun w => day_cells (fst w) (snd w * goal_h)
                                            engagement) ws)
  = sum (map snd ws) * goal_h.
Proof.
  intros He. unfold total_hours.
  induction ws as [|[d v] ws IH].
  - unfold sum. cbn. ring.
  - cbn [flat_map]. rewrite map_app, sum_app, IH, day_cells_hours by exact He.
    unfold sum. cbn [map snd fst fold_right]. ring.
Qed.

Lemma cells_domain_hours (ws : list (string * R)) (d : string) (v : R) :
  0 <= engagement <= 1 ->
  NoDup (map fst ws) -> In (d, v) ws ->
  domain_hours (flat_map (fun w => day_cells (fst w) (snd w * goal_h)
                                             engagement) ws) d
  = v * goal_h.
Proof.
  intros He. unfold domain_hours.
  induction ws as [|[d' v'] ws IH]; [contradiction|].
  intros Hnd Hin. inversion Hnd as [|? ? Hnotin Hnd']; subst.
  cbn [flat_map fst snd]. rewrite filter_app, map_app, sum_app.
  destruct Hin as [Heq|Hin].
  - inversion Heq; subst.
    rewrite forallb_filter_id.
    + rewrite day_cells_hours by exact He.
      rewrite (filter_none (fun c => String.eqb (Sched.domain c) d)
                 (flat_map (fun w => day_cells (fst w) (snd w * goal_h)
                                               engagement) ws)).
      * unfold sum. cbn [map fold_right]. ring.
      * intros c Hc. apply String.eqb_neq. intros Hd.
        apply Hnotin. apply in_flat_map in Hc.
        destruct Hc as [w [Hw Hcw]]. apply day_cells_domain in Hcw.
        apply in_map_iff. exists w. split; [congruence | exact Hw].
    + apply forallb_forall. intros c Hc. apply day_cells_domain in Hc.
      now apply String.eqb_eq.
  - assert (Hne : d' <> d).
    { intros ->. apply Hnotin. now apply (in_map fst) in Hin. }
    rewrite (filter_none (fun c => String.eqb (Sched.domain c) d)
               (day_cells d' (v' * goal_h) engagement)).
    + rewrite (IH Hnd' Hin). unfold sum. cbn [map fold_right]. ring.
    + intros c Hc. apply String.eqb_neq. apply day_cells_domain in Hc.
      congruence.
Qed.

End PlanRows.

(** ** Weekly planning agent *)

Lemma iloc0_map {A B : Type} (f : A -> B) (df : list A) (row : A) :
  iloc0 df = Ok row -> iloc0 (map f df) = Ok (f row).
Proof.
  destruct df as [|x df]; cbn; intros H; inversion H; reflexivity.
Qed.

Section WeeklyPlan.
Variables (today : Z) (DF_TRAJ : list Traj.t) (student_id : Z)
          (priority : string) (goal_h : R).

Hypothesis micro_scores_bounded :
  Forall (fun r => 0.05 <= Traj.micro_score r <= 0.98) DF_TRAJ.

Let df7s : list Agg.t :=
  filter (fun r => (Agg.student_id r =? student_id)%Z)
         (recent_progress today DF_TRAJ 7).

Lemma df7s_means : Forall (fun agg => 0 < Agg.micro_mean agg < 1) df7s.
Proof.
  apply Forall_forall. intros agg Hagg. apply filter_In in Hagg.
  destruct Hagg as [Hagg _].
  pose proof (recent_progress_mean_bounds today DF_TRAJ 7 0.05 0.98 agg
                micro_scores_bounded Hagg).
  lra.
Qed.

Lemma df7s_domains_NoDup : NoDup (map Agg.domain df7s).
Proof.
  apply student_domains_NoDup, recent_progress_keys_NoDup.
Qed.

Lemma raw_weights_total_pos :
  0 < sum (map snd (mean_by_domain (raw_weights priority df7s))).
Proof.
  rewrite (sum_perm _ (map snd (raw_weights priority df7s))).
  - apply sum_pos.
    + pose proof (raw_weights_nonempty priority df7s) as Hne.
      destruct (raw_weights priority df7s); [congruence | discriminate].
    + apply Forall_map. apply raw_weights_pos, df7s_means.
  - apply Permutation_map, mean_by_domain_perm, raw_weights_NoDup,
      df7s_domains_NoDup.
Qed.

Lemma plan_weights_NoDup :
  NoDup (map fst (normalize (mean_by_domain (raw_weights priority df7s)))).
Proof. rewrite normalize_domains. apply mean_by_domain_NoDup. Qed.

Lemma plan_weights_sum :
  sum (map snd (normalize (mean_by_domain (raw_weights priority df7s)))) = 1.
Proof.
  apply normalize_sum. pose proof raw_weights_total_pos. lra.
Qed.

(** The plan is the block of seven cells of every weighted domain. *)
Lemma build_agent_plan_cells (DF_STUD : list Student.t) (row : Student.t) :
  iloc0 (filter (fun s => (Student.student_id s =? student_id)%Z) DF_STUD)
  = Ok row ->
  build_agent_plan today DF_TRAJ DF_STUD student_id priority goal_h
  = Ok (flat_map (fun w => day_cells (fst w) (snd w * goal_h)
                                     (Student.engagement row))
                 (normalize (mean_by_domain (raw_weights priority df7s)))).
Proof.
  intros Hrow. unfold build_agent_plan.
  rewrite (iloc0_map Student.engagement _ row Hrow). cbn [bind Monad_result].
  apply plan_rows_cells; [apply plan_weights_NoDup | apply incl_refl].
Qed.

End WeeklyPlan.

(** C5. For a learner of the table, over trajectories with micro-scores in
    [0.05, 0.98] and for any priority and any weekly goal, the planning
    agent returns a plan whose hours add up to the goal, hence within 1e-6
    of it in relative terms. *)
Theorem weekly_plan_total
        (today : Z) (DF_TRAJ : list Traj.t) (DF_STUD : list Student.t)
        (student_id : Z) (priority : string) (goal_h : R)
        (row : Student.t) :
  Forall (fun r => 0.05 <= Traj.micro_score r <= 0.98) DF_TRAJ ->
  iloc0 (filter (fun s => (Student.student_id s =? student_id)%Z) DF_STUD)
  = Ok row ->
  0 <= Student.engagement row <= 1 ->
  exists plan,
    build_agent_plan today DF_TRAJ DF_STUD student_id priority goal_h
    = Ok plan
    /\ total_hours plan = goal_h
    /\ Rabs (total_hours plan - goal_h) <= 1e-6 * Rabs goal_h.
Proof.
  intros Hbounds Hrow He.
  rewrite (build_agent_plan_cells today DF_TRAJ student_id priority goal_h
                                  DF_STUD row Hrow).
  eexists. split; [reflexivity|].
  assert (Htotal :
            total_hours
              (flat_map (fun w => day_cells (fst w) (snd w * goal_h)
                                            (Student.engagement row))
                 (normalize
                    (mean_by_domain
                       (raw_weights priority
                          (filter (fun r => (Agg.student_id r
                                             =? student_id)%Z)
                                  (recent_progress today DF_TRAJ 7))))))
            = goal_h).
  { rewrite cells_total by exact He.
    rewrite plan_weights_sum by exact Hbounds. ring. }
  split; [exact Htotal|].
  rewrite Htotal. replace (goal_h - goal_h) with 0 by ring.
  rewrite Rabs_R0. pose proof (Rabs_pos goal_h). nra.
Qed.

Lemma weekly_plan_total_witness :
  exists plan,
    build_agent_plan 10 two_records one_learner 0 "balanced" 4 = Ok plan
    /\ total_hours plan = 4.
Proof.
  destruct (weekly_plan_total 10 two_records one_learner 0 "balanced" 4
                              (Student.mk 0 0 0.5 45 4 no_affinity))
    as [plan [Hplan [Htotal _]]].
  - repeat constructor; cbn; lra.
  - reflexivity.
  - cbn. lra.
  - exists plan. split; [exact Hplan | exact Htotal].
Defined.

(** Under the weak policy a domain of the learner gets the share
    [1 - mean micro-score] of the goal, over the sum of the weights. *)
Lemma weak_domain_hours (today : Z) (DF_TRAJ : list Traj.t) (student_id : Z)
      (goal_h engagement : R) (agg : Agg.t) :
  0 <= engagement <= 1 ->
  In agg (recent_progress today DF_TRAJ 7) ->
  Agg.student_id agg = student_id ->
  let weights :=
    mean_by_domain
      (raw_weights "weak"
         (filter (fun r => (Agg.student_id r =? student_id)%Z)
                 (recent_progress today DF_TRAJ 7))) in
  domain_hours
    (flat_map (fun w => day_cells (fst w) (snd w * goal_h) engagement)
              (normalize weights))
    (Agg.domain agg)
  = (1 - Agg.micro_mean agg) / sum (map snd weights) * goal_h.
Proof.
  intros He Hin Hid weights.
  assert (Hagg : In agg (filter (fun r => (Agg.student_id r =? student_id)%Z)
                                (recent_progress today DF_TRAJ 7))).
  { apply filter_In. split; [exact Hin | now apply Z.eqb_eq]. }
  apply cells_domain_hours; [exact He | |].
  - rewrite normalize_domains. apply mean_by_domain_NoDup.
  - apply normalize_In. unfold weights.
    eapply Permutation_in.
    + symmetry. apply mean_by_domain_perm, raw_weights_NoDup,
        student_domains_NoDup, recent_progress_keys_NoDup.
    + unfold raw_weights.
      destruct (filter (fun r => (Agg.student_id r =? student_id)%Z)
                       (recent_progress today DF_TRAJ 7)) as [|x l];
        [contradiction|].
      cbn [List.length Nat.eqb String.eqb].
      apply in_map_iff. now exists agg.
Qed.

(** C6. Under the weak policy, for a learner of the table with a positive
    goal, the hours of two domains of the recent aggregates are in the
    ratio of their [1 - mean micro-score], and the domain with the lower
    mean gets strictly more hours: the domain at 0.1 more than the domain
    at 0.9. *)
Theorem weak_policy_favours_low_scores
        (today : Z) (DF_TRAJ : list Traj.t) (DF_STUD : list Student.t)
        (student_id : Z) (goal_h : R) (row : Student.t)
        (agg_hi agg_lo : Agg.t) :
  Forall (fun r => 0.05 <= Traj.micro_score r <= 0.98) DF_TRAJ ->
  iloc0 (filter (fun s => (Student.student_id s =? student_id)%Z) DF_STUD)
  = Ok row ->
  0 <= Student.engagement row <= 1 ->
  0 < goal_h ->
  In agg_hi (recent_progress today DF_TRAJ 7) ->
  Agg.student_id agg_hi = student_id ->
  In agg_lo (recent_progress today DF_TRAJ 7) ->
  Agg.student_id agg_lo = student_id ->
  Agg.micro_mean agg_lo < Agg.micro_mean agg_hi ->
  exists plan,
    build_agent_plan today DF_TRAJ DF_STUD student_id "weak" goal_h = Ok plan
    /\ domain_hours plan (Agg.domain agg_hi) * (1 - Agg.micro_mean agg_lo)
       = domain_hours plan (Agg.domain agg_lo) * (1 - Agg.micro_mean agg_hi)
    /\ domain_hours plan (Agg.domain agg_hi)
       < domain_hours plan (Agg.domain agg_lo).
Proof.
  intros Hbounds Hrow He Hgoal Hhi Hhi_id Hlo Hlo_id Hlt.
  rewrite (build_agent_plan_cells today DF_TRAJ student_id "weak" goal_h
                                  DF_STUD row Hrow).
  eexists. split; [reflexivity|].
  rewrite (weak_domain_hours today DF_TRAJ student_id goal_h
                             (Student.engagement row) agg_hi He Hhi Hhi_id).
  rewrite (weak_domain_hours today DF_TRAJ student_id goal_h
                             (Student.engagement row) agg_lo He Hlo Hlo_id).
  pose proof (raw_weights_total_pos today DF_TRAJ student_id "weak" Hbounds)
    as Hpos.
  set (total := sum (map snd _)) in *.
  split.
  - field. lra.
  - apply Rmult_lt_compat_r; [exact Hgoal|].
    apply Rmult_lt_compat_r; [now apply Rinv_0_lt_compat | lra].
Qed.

Lemma weak_policy_favours_low_scores_witness :
  exists plan,
    build_agent_plan 10 two_records one_learner 0 "weak" 4 = Ok plan
    /\ domain_hours plan "Algebra" < domain_hours plan "Calculus".
Proof.
  destruct (weak_policy_favours_low_scores
              10 two_records one_learner 0 4
              (Student.mk 0 0 0.5 45 4 no_affinity)
              (Agg.mk 0 "Algebra" 30 (mean [0.9]))
              (Agg.mk 0 "Calculus" 30 (mean [0.1])))
    as [plan [Hplan [_ Hlt]]].
  - repeat constructor; cbn; lra.
  - reflexivity.
  - cbn. lra.
  - lra.
  - left. reflexivity.
  - reflexivity.
  - right. left. reflexivity.
  - reflexivity.
  - cbn [Agg.micro_mean]. rewrite !mean_single. lra.
  - exists plan. split; [exact Hplan | exact Hlt].
Defined.

(** C10. The plan does not depend on the engagement score: two learner
    tables that give the learner engagement values in [0, 1] yield the same
    plan, everything else being equal, because the factor
    [0.8 + 0.4 * engagement] cancels when the day weights are renormalised. *)
Theorem plan_independent_of_engagement
        (today : Z) (DF_TRAJ : list Traj.t)
        (DF_STUD1 DF_STUD2 : list Student.t)
        (student_id : Z) (priority : string) (goal_h : R)
        (row1 row2 : Student.t) :
  iloc0 (filter (fun s => (Student.student_id s =? student_id)%Z) DF_STUD1)
  = Ok row1 ->
  iloc0 (filter (fun s => (Student.student_id s =? student_id)%Z) DF_STUD2)
  = Ok row2 ->
  0 <= Student.engagement row1 <= 1 ->
  0 <= Student.engagement row2 <= 1 ->
  build_agent_plan today DF_TRAJ DF_STUD1 student_id priority goal_h
  = build_agent_plan today DF_TRAJ DF_STUD2 student_id priority goal_h
  /\ exists plan,
      build_agent_plan today DF_TRAJ DF_STUD1 student_id priority goal_h
      = Ok plan.
Proof.
  intros Hrow1 Hrow2 He1 He2.
  rewrite (build_agent_plan_cells today DF_TRAJ student_id priority goal_h
                                  DF_STUD1 row1 Hrow1).
  rewrite (build_agent_plan_cells today DF_TRAJ student_id priority goal_h
                                  DF_STUD2 row2 Hrow2).
  split; [|eauto].
  f_equal. apply flat_map_ext. intros w.
  now apply day_cells_fixed.
Qed.

Lemma plan_independent_of_engagement_witness :
  build_agent_plan 10 two_records one_learner 0 "strong" 4
  = build_agent_plan 10 two_records keen_learner 0 "strong" 4.
Proof.
  apply (plan_independent_of_engagement
           10 two_records one_learner keen_learner 0 "strong" 4
           (Student.mk 0 0 0.5 45 4 no_affinity)
           (Student.mk 0 0 1 45 4 no_affinity)).
  - reflexivity.
  - reflexivity.
  - cbn. lra.
  - cbn. lra.
Defined.

(** C10 (as stated) fails on the code's own arithmetic.  Over binary64 the
    factor is rounded ([0.8 + 0.4 * 1] is 1.2000000000000002) and so are
    the products and the renormalisation: for the frame [weights] of the
    learner of [two_records] under the strong policy (Algebra 0.9, Calculus
    0.1) and a goal of 4 hours, engagement 0.5 and engagement 1 give plans
    whose Sunday cells differ in the last bit. *)
Lemma engagement_changes_the_last_bit :
  exists plan_half plan_full,
    Binary64.plan [("Algebra", 0.9%float); ("Calculus", 0.1%float)] 0.5 4
    = Ok plan_half
    /\ Binary64.plan [("Algebra", 0.9%float); ("Calculus", 0.1%float)] 1 4
       = Ok plan_full
    /\ plan_half <> plan_full
    /\ map Binary64.hours
           (filter (fun c => String.eqb (Binary64.day c) "Sun") plan_half)
       = [0.4628571428571428; 0.051428571428571428]%float
    /\ map Binary64.hours
           (filter (fun c => String.eqb (Binary64.day c) "Sun") plan_full)
       = [0.46285714285714291; 0.051428571428571435]%float.
Proof.
  eexists _, _.
  split; [vm_compute; reflexivity|].
  split; [vm_compute; reflexivity|].
  split; [|split; vm_compute; reflexivity].
  intros Hsame.
  apply (f_equal
           (fun plan =>
              map Binary64.hours
                  (filter (fun c => String.eqb (Binary64.day c) "Sun") plan)))
    in Hsame.
  vm_compute in Hsame. discriminate Hsame.
Qed.

(** * Further properties of the engine *)

(** ** Scoring model: symmetry *)

(** X1. The success probabilities at equal distances above and below the
    difficulty add up to one. *)
Theorem p_success_symmetric (a b x : R) :
  p_success a b (b + x) + p_success a b (b - x) = 1.
Proof.
  unfold p_success.
  replace (- a * (b + x - b)) with (- (a * x)) by ring.
  replace (- a * (b - x - b)) with (a * x) by ring.
  rewrite exp_Ropp. pose proof (exp_pos (a * x)) as He.
  field. split; lra.
Qed.

(** ** Recommended rows *)

Section RecommendedRows.
Variable sort_values_gap : list Candidate.t -> list Candidate.t.
Hypothesis sort_permutes : forall l, Permutation (sort_values_gap l) l.
Variables (student_id : Z) (df_students : list Student.t)
          (df_items : list Item.t) (score_history : list Traj.t).

(** A row of a frame is an item of the bank with its gap and probability. *)
Lemma top_row_columns (d : string) (theta : R) (r : Rec.t) :
  In r (top sort_values_gap df_items d theta) ->
  exists it,
    In it df_items /\ Item.domain it = d
    /\ r = Rec.mk (Candidate.mk it (Rabs (Item.b it - theta))
                                (p_success (Item.a it) (Item.b it) theta))
                  theta.
Proof.
  unfold top. intros H. apply in_map_iff in H. destruct H as [c [<- Hc]].
  apply In_firstn in Hc.
  apply (Permutation_in _ (sort_permutes _)) in Hc.
  unfold candidates in Hc. apply in_map_iff in Hc.
  destruct Hc as [it [<- Hit]]. apply filter_In in Hit.
  destruct Hit as [Hit Hd]. apply String.eqb_eq in Hd.
  exists it. auto.
Qed.

Lemma recommend_items_row_columns (out : list Rec.t) (r : Rec.t) :
  recommend_items sort_values_gap student_id df_students df_items
                  score_history = Ok out ->
  In r out ->
  exists it,
    In it df_items /\ In (Item.domain it) DOMAINS
    /\ r = Rec.mk (Candidate.mk it (Rabs (Item.b it - Rec.theta_d r))
                                (p_success (Item.a it) (Item.b it)
                                           (Rec.theta_d r)))
                  (Rec.theta_d r).
Proof.
  intros Hout Hin.
  destruct (recommend_items_rows _ _ _ _ _ _ _ Hout Hin)
    as [d [theta [Hd [_ Htop]]]].
  apply top_row_columns in Htop. destruct Htop as [it [Hit [Hdom ->]]].
  exists it. cbn. rewrite Hdom. auto.
Qed.

Lemma recs_loop_rows_bound (domains : list string)
      (recs : list (list Rec.t)) :
  recs_loop sort_values_gap student_id df_students df_items score_history
            domains = Ok recs ->
  (List.length (List.concat recs) <= 3 * List.length domains)%nat.
Proof.
  intros H. apply recs_loop_frames in H.
  induction H as [|d top_d domains recs [theta [_ ->]] _ IH];
    cbn [List.concat List.length]; [lia|].
  rewrite length_app. unfold top. rewrite length_map, length_firstn.
  lia.
Qed.

End RecommendedRows.

(** X2. Every row returned by the engine is an item of the bank whose domain
    is one of [DOMAINS], carrying [gap = |b - theta_d|] and the success
    probability of the item at [theta_d]; for an item of positive
    discrimination that probability is at least one half exactly when the
    item is not harder than the estimate.  No call returns more than
    fifteen rows. *)
Theorem recommended_rows_columns
        (sort_values_gap : list Candidate.t -> list Candidate.t)
        (sort_permutes : forall l, Permutation (sort_values_gap l) l)
        (student_id : Z) (df_students : list Student.t)
        (df_items : list Item.t) (score_history : list Traj.t)
        (out : list Rec.t) :
  recommend_items sort_values_gap student_id df_students df_items
                  score_history = Ok out ->
  (List.length out <= 15)%nat
  /\ forall r, In r out ->
       exists it,
         In it df_items /\ In (Item.domain it) DOMAINS
         /\ Candidate.item (Rec.row r) = it
         /\ Rec.gap r = Rabs (Item.b it - Rec.theta_d r)
         /\ Candidate.p_success (Rec.row r)
            = p_success (Item.a it) (Item.b it) (Rec.theta_d r)
         /\ (0 < Item.a it ->
             (1 / 2 <= Candidate.p_success (Rec.row r)
              <-> Item.b it <= Rec.theta_d r)).
Proof.
  intros Hout. split.
  - unfold recommend_items in Hout. apply bind_Ok_inv in Hout.
    destruct Hout as [recs [Hloop Hout]]. cbn in Hout.
    inversion Hout; subst. clear Hout.
    unfold sort_values_domain_gap.
    rewrite (Permutation_length (stable_sort_perm domain_gap_leb _)).
    apply (recs_loop_rows_bound _ _ _ _ _ _ _ Hloop).
  - intros r Hin.
    destruct (recommend_items_row_columns sort_values_gap sort_permutes
                _ _ _ _ _ _ Hout Hin) as [it [Hit [Hdom Hr]]].
    exists it. split; [exact Hit|]. split; [exact Hdom|].
    set (theta := Rec.theta_d r) in *. rewrite Hr. cbn.
    split; [reflexivity|]. split; [reflexivity|]. split; [reflexivity|].
    intros Ha. split.
    + intros Hp.
      destruct (Rle_lt_dec (Item.b it) theta) as [Hle|Hlt]; [exact Hle|].
      pose proof (p_success_increasing (Item.a it) (Item.b it) theta
                                       (Item.b it) Ha Hlt) as Hinc.
      rewrite (proj2 (p_success_half_iff (Item.a it) (Item.b it) (Item.b it)
                                         Ha) eq_refl) in Hinc.
      lra.
    + intros Hle. destruct Hle as [Hlt|Heq].
      * pose proof (p_success_increasing (Item.a it) (Item.b it) (Item.b it)
                                         theta Ha Hlt) as Hinc.
        rewrite (proj2 (p_success_half_iff (Item.a it) (Item.b it)
                                           (Item.b it) Ha) eq_refl) in Hinc.
        lra.
      * rewrite <- Heq.
        rewrite (proj2 (p_success_half_iff (Item.a it) (Item.b it)
                                           (Item.b it) Ha) eq_refl).
        lra.
Qed.

Lemma recommended_rows_columns_witness :
  exists out,
    recommend_items sort_values_gap_stable 0 one_learner two_domain_items []
    = Ok out
    /\ (List.length out <= 15)%nat.
Proof.
  destruct two_domain_frame as [out [Hout _]].
  exists out. split; [exact Hout|].
  exact (proj1 (recommended_rows_columns
                  sort_values_gap_stable sort_values_gap_stable_perm
                  0 one_learner two_domain_items [] out Hout)).
Defined.

(** ** Recent-progress aggregator: which pairs, how many minutes *)

Lemma pair_eqb_eq (k1 k2 : Z * string) : pair_eqb k1 k2 = true <-> k1 = k2.
Proof.
  destruct k1 as [z1 s1], k2 as [z2 s2]. unfold pair_eqb. cbn.
  rewrite andb_true_iff, Z.eqb_eq, String.eqb_eq. split.
  - intros [-> ->]. reflexivity.
  - intros H. inversion H. auto.
Qed.

Section GroupKeysCover.
Context {K : Type} (cmp : K -> K -> comparison).
Hypothesis cmp_eq : forall x y, cmp x y = Eq -> x = y.

Lemma insert_key_keeps (k x : K) (keys : list K) :
  In x keys -> In x (insert_key cmp k keys).
Proof.
  induction keys as [|k' keys IH]; cbn; [tauto|].
  intros Hin. destruct (cmp k k'); cbn; tauto.
Qed.

Lemma insert_key_adds (k : K) (keys : list K) :
  In k (insert_key cmp k keys).
Proof.
  induction keys as [|k' keys IH]; cbn; [now left|].
  destruct (cmp k k') eqn:Hc; cbn; auto.
  left. symmetry. now apply cmp_eq.
Qed.

(** Every key that occurs is listed. *)
Lemma group_keys_cover (x : K) (keys : list K) :
  In x keys -> In x (group_keys cmp keys).
Proof.
  induction keys as [|k keys IH]; cbn; [tauto|].
  intros [->|Hin]; [apply insert_key_adds | now apply insert_key_keeps, IH].
Qed.

End GroupKeysCover.

Lemma indicator_zero (k0 : Z * string) (v : Z) (keys : list (Z * string)) :
  ~ In k0 keys ->
  Zsum (map (fun k => if pair_eqb k0 k then v else 0%Z) keys) = 0%Z.
Proof.
  unfold Zsum. induction keys as [|k keys IH]; [reflexivity|].
  intros Hnotin. cbn [map fold_right].
  destruct (pair_eqb k0 k) eqn:Hk.
  - apply pair_eqb_eq in Hk. subst k. exfalso. apply Hnotin. now left.
  - rewrite IH; [reflexivity|]. intros Hin. apply Hnotin. now right.
Qed.

Lemma indicator_sum (k0 : Z * string) (v : Z) (keys : list (Z * string)) :
  NoDup keys -> In k0 keys ->
  Zsum (map (fun k => if pair_eqb k0 k then v else 0%Z) keys) = v.
Proof.
  induction 1 as [|k keys Hnotin Hnd IH]; [contradiction|].
  intros Hin. change (Zsum (map ?f (k :: keys)))
    with (f k + Zsum (map f keys))%Z.
  cbn beta. destruct (pair_eqb k0 k) eqn:Hk.
  - apply pair_eqb_eq in Hk. subst k0.
    rewrite indicator_zero by exact Hnotin. lia.
  - destruct Hin as [->|Hin].
    + rewrite pair_eqb_refl in Hk. discriminate.
    + rewrite (IH Hin). lia.
Qed.

(** Grouping splits the rows: the sums of the groups add up to the sum. *)
Lemma group_sums_total (minutes : Traj.t -> Z) (keys : list (Z * string))
      (df : list Traj.t) :
  NoDup keys ->
  (forall r, In r df -> In (traj_key r) keys) ->
  Zsum (map (fun k => Zsum (map minutes
                                (filter (fun r => pair_eqb (traj_key r) k) df)))
            keys)
  = Zsum (map minutes df).
Proof.
  intros Hnd. induction df as [|r df IH]; intros Hkeys.
  - cbn [filter map]. unfold Zsum. cbn [fold_right]. clear Hnd Hkeys.
    induction keys as [|k l IHl]; [reflexivity|].
    cbn [map fold_right]. now rewrite IHl.
  - assert (Hsplit :
              forall ks,
                Zsum (map (fun k =>
                             Zsum (map minutes
                                       (filter (fun r' => pair_eqb (traj_key r') k)
                                               (r :: df)))) ks)
                = (Zsum (map (fun k => if pair_eqb (traj_key r) k
                                       then minutes r else 0%Z) ks)
                   + Zsum (map (fun k =>
                                  Zsum (map minutes
                                            (filter (fun r' =>
                                                       pair_eqb (traj_key r') k)
                                                    df))) ks))%Z).
    { unfold Zsum. induction ks as [|k ks IHks]; [reflexivity|].
      cbn [map fold_right].
      rewrite IHks. cbn [filter].
      destruct (pair_eqb (traj_key r) k); cbn [map fold_right]; lia. }
    rewrite Hsplit, indicator_sum, IH.
    + unfold Zsum. cbn [map fold_right]. reflexivity.
    + intros r' Hr'. apply Hkeys. now right.
    + exact Hnd.
    + apply Hkeys. now left.
Qed.

(** X3. The recent-progress table has one row for every (learner, domain)
    pair with a record in the window and for no other pair, each pair once;
    the minutes of its rows add up to the minutes of all records in the
    window. *)
Theorem recent_progress_partition
        (today : Z) (df_traj : list Traj.t) (days : Z) :
  let window := filter (fun r => (today - days <=? Traj.date r)%Z) df_traj in
  let pairs := map (fun agg => (Agg.student_id agg, Agg.domain agg))
                   (recent_progress today df_traj days) in
  NoDup pairs
  /\ (forall sid d,
        In (sid, d) pairs <->
        exists r, In r df_traj /\ (today - days <= Traj.date r)%Z
                  /\ Traj.student_id r = sid /\ Traj.domain r = d)
  /\ Zsum (map Agg.minutes (recent_progress today df_traj days))
     = Zsum (map Traj.minutes window).
Proof.
  cbn zeta.
  assert (Hpairs :
            map (fun agg => (Agg.student_id agg, Agg.domain agg))
                (recent_progress today df_traj days)
            = group_keys pair_compare
                (map traj_key
                     (filter (fun r => (today - days <=? Traj.date r)%Z)
                             df_traj))).
  { unfold recent_progress. rewrite map_map.
    rewrite (map_ext _ (fun k => k)) by (intros [z s]; reflexivity).
    apply map_id. }
  split; [apply recent_progress_keys_NoDup|]. split.
  - intros sid d. rewrite Hpairs. split.
    + intros Hin. apply group_keys_In in Hin. apply in_map_iff in Hin.
      destruct Hin as [r [Hkey Hr]]. apply filter_In in Hr.
      destruct Hr as [Hr Hdate]. apply Z.leb_le in Hdate.
      inversion Hkey. exists r. auto.
    + intros [r [Hr [Hdate [Hsid Hd]]]].
      apply (group_keys_cover pair_compare pair_compare_eq).
      apply in_map_iff. exists r. split.
      * unfold traj_key. now rewrite Hsid, Hd.
      * apply filter_In. split; [exact Hr | now apply Z.leb_le].
  - unfold recent_progress. rewrite map_map. cbn [Agg.minutes].
    apply group_sums_total.
    + apply (group_keys_NoDup pair_compare pair_compare_refl
                              pair_compare_gt_lt pair_compare_lt_trans).
    + intros r Hr. apply (group_keys_cover pair_compare pair_compare_eq).
      now apply in_map.
Qed.

(** ** Weekly plan: shares of the domains *)

Lemma recent_progress_row_record (today : Z) (df_traj : list Traj.t)
      (days : Z) (agg : Agg.t) :
  In agg (recent_progress today df_traj days) ->
  exists r, In r df_traj /\ (today - days <= Traj.date r)%Z
            /\ Traj.student_id r = Agg.student_id agg
            /\ Traj.domain r = Agg.domain agg.
Proof.
  unfold recent_progress. intros H. apply in_map_iff in H.
  destruct H as [k [<- Hk]]. apply group_keys_In in Hk.
  apply in_map_iff in Hk. destruct Hk as [r [Hkey Hr]].
  apply filter_In in Hr. destruct Hr as [Hr Hdate]. apply Z.leb_le in Hdate.
  exists r. rewrite <- Hkey. cbn. auto.
Qed.

Section PlanShares.
Variables (today : Z) (DF_TRAJ : list Traj.t) (student_id : Z)
          (priority : string) (goal_h engagement : R).
Hypothesis engagement_range : 0 <= engagement <= 1.

Let df7s : list Agg.t :=
  filter (fun r => (Agg.student_id r =? student_id)%Z)
         (recent_progress today DF_TRAJ 7).

Let weights : list (string * R) :=
  normalize (mean_by_domain (raw_weights priority df7s)).

Let cells : list Sched.t :=
  flat_map (fun w => day_cells (fst w) (snd w * goal_h) engagement) weights.

Lemma raw_weights_keys_NoDup : NoDup (map fst (raw_weights priority df7s)).
Proof.
  apply raw_weights_NoDup, student_domains_NoDup, recent_progress_keys_NoDup.
Qed.

Lemma raw_weight_normalized (d : string) (v : R) :
  In (d, v) (raw_weights priority df7s) ->
  In (d, v / sum (map snd (raw_weights priority df7s))) weights.
Proof.
  intros Hin. unfold weights.
  rewrite <- (sum_perm _ _ (Permutation_map snd
                              (mean_by_domain_perm _ raw_weights_keys_NoDup))).
  apply normalize_In.
  eapply Permutation_in; [|exact Hin].
  symmetry. apply mean_by_domain_perm, raw_weights_keys_NoDup.
Qed.

Lemma weights_keys_NoDup : NoDup (map fst weights).
Proof. unfold weights. rewrite normalize_domains. apply mean_by_domain_NoDup. Qed.

(** The hours of a domain are its share of the raw weights, times the
    goal. *)
Lemma raw_weight_hours (d : string) (v : R) :
  In (d, v) (raw_weights priority df7s) ->
  domain_hours cells d
  = v / sum (map snd (raw_weights priority df7s)) * goal_h.
Proof.
  intros Hin. unfold cells.
  apply cells_domain_hours;
    [exact engagement_range | apply weights_keys_NoDup
     | now apply raw_weight_normalized].
Qed.

(** The rows of a weighted domain are its seven day cells. *)
Lemma cells_of_domain (ws : list (string * R)) (d : string) (v : R) :
  NoDup (map fst ws) -> In (d, v) ws ->
  filter (fun c => String.eqb (Sched.domain c) d)
         (flat_map (fun w => day_cells (fst w) (snd w * goal_h) engagement) ws)
  = day_cells d (v * goal_h) engagement.
Proof.
  induction ws as [|[d' v'] ws IH]; [contradiction|].
  intros Hnd Hin. inversion Hnd as [|? ? Hnotin Hnd']; subst.
  cbn [flat_map fst snd]. rewrite filter_app.
  destruct Hin as [Heq|Hin].
  - inversion Heq; subst.
    rewrite forallb_filter_id.
    + rewrite (filter_none (fun c => String.eqb (Sched.domain c) d)
                 (flat_map (fun w => day_cells (fst w) (snd w * goal_h)
                                               engagement) ws));
        [apply app_nil_r|].
      intros c Hc. apply String.eqb_neq. intros Hd.
      apply Hnotin. apply in_flat_map in Hc.
      destruct Hc as [w [Hw Hcw]]. apply day_cells_domain in Hcw.
      apply in_map_iff. exists w. split; [congruence | exact Hw].
    + apply forallb_forall. intros c Hc. apply day_cells_domain in Hc.
      now apply String.eqb_eq.
  - assert (Hne : d' <> d).
    { intros ->. apply Hnotin. now apply (in_map fst) in Hin. }
    rewrite (filter_none (fun c => String.eqb (Sched.domain c) d)
               (day_cells d' (v' * goal_h) engagement)).
    + cbn [app]. now apply IH.
    + intros c Hc. apply String.eqb_neq. apply day_cells_domain in Hc.
      congruence.
Qed.

Lemma cells_domains (d : string) :
  In d (map Sched.domain cells) -> exists v, In (d, v) weights.
Proof.
  unfold cells. intros H. apply in_map_iff in H. destruct H as [c [<- Hc]].
  apply in_flat_map in Hc. destruct Hc as [[d' v] [Hw Hc]].
  apply day_cells_domain in Hc. cbn in Hc. subst d'. now exists v.
Qed.

End PlanShares.

(** X4. In a plan every weighted domain has exactly seven cells, Monday to
    Sunday in this order, and the cell of a day holds the share
    [shape / 7] of the hours of the domain, with the fixed day shape
    1.1, 1.1, 1.1, 1.0, 1.0, 0.8, 0.9. *)
Theorem plan_day_shape
        (today : Z) (DF_TRAJ : list Traj.t) (DF_STUD : list Student.t)
        (student_id : Z) (priority : string) (goal_h : R)
        (row : Student.t) (plan : list Sched.t) (d : string) :
  iloc0 (filter (fun s => (Student.student_id s =? student_id)%Z) DF_STUD)
  = Ok row ->
  0 <= Student.engagement row <= 1 ->
  build_agent_plan today DF_TRAJ DF_STUD student_id priority goal_h
  = Ok plan ->
  In d (map Sched.domain plan) ->
  map (fun c => (Sched.day c, Sched.hours c))
      (filter (fun c => String.eqb (Sched.domain c) d) plan)
  = map (fun ds => (fst ds, domain_hours plan d * snd ds / 7))
        (combine DAYS DAY_SHAPE).
Proof.
  intros Hrow He Hplan Hd.
  rewrite (build_agent_plan_cells today DF_TRAJ student_id priority goal_h
                                  DF_STUD row Hrow) in Hplan.
  inversion Hplan; subst plan. clear Hplan.
  destruct (cells_domains today DF_TRAJ student_id priority goal_h
                          (Student.engagement row) d Hd) as [v Hv].
  pose proof (weights_keys_NoDup today DF_TRAJ student_id priority) as Hnd.
  rewrite (cells_domain_hours goal_h (Student.engagement row) _ d v He Hnd Hv).
  rewrite (cells_of_domain goal_h (Student.engagement row) _ d v Hnd Hv).
  unfold day_cells. rewrite (day_weights_fixed _ He).
  unfold DAYS, DAY_SHAPE. cbn [map combine fst snd Sched.day Sched.hours].
  set (x := v * goal_h).
  repeat (apply f_equal2; [f_equal; lra|]). reflexivity.
Qed.

(** X5. A learner id that is not in the learner table makes the planning
    agent raise [IndexError], whatever the trajectories, the priority and
    the goal. *)
Theorem build_agent_plan_unknown_learner
        (today : Z) (DF_TRAJ : list Traj.t) (DF_STUD : list Student.t)
        (student_id : Z) (priority : string) (goal_h : R) :
  filter (fun s => (Student.student_id s =? student_id)%Z) DF_STUD = [] ->
  build_agent_plan today DF_TRAJ DF_STUD student_id priority goal_h
  = Raise IndexError.
Proof.
  intros Hnone. unfold build_agent_plan. rewrite Hnone. reflexivity.
Qed.

Lemma sum_constant (c : R) {A : Type} (l : list A) :
  sum (map (fun _ => c) l) = INR (List.length l) * c.
Proof.
  unfold sum. induction l as [|x l IH].
  - cbn. ring.
  - cbn [map fold_right]. rewrite IH.
    change (List.length (x :: l)) with (S (List.length l)).
    rewrite S_INR. ring.
Qed.

Lemma cells_length (goal_h engagement : R) (ws : list (string * R)) :
  List.length (flat_map (fun w => day_cells (fst w) (snd w * goal_h)
                                            engagement) ws)
  = (7 * List.length ws)%nat.
Proof.
  induction ws as [|w ws IH]; [reflexivity|].
  cbn [flat_map]. rewrite length_app, IH.
  unfold day_cells, day_weights, DAYS, DAY_SHAPE.
  rewrite !length_map, length_combine, !length_map.
  cbn [List.length]. lia.
Qed.

(** X6. Without any record of the learner in the last seven days the plan
    gives each of the five domains one fifth of the goal, whatever the
    priority, and has 35 cells. *)
Theorem plan_without_recent_activity
        (today : Z) (DF_TRAJ : list Traj.t) (DF_STUD : list Student.t)
        (student_id : Z) (priority : string) (goal_h : R)
        (row : Student.t) :
  (forall r, In r DF_TRAJ -> Traj.student_id r = student_id ->
             (Traj.date r < today - 7)%Z) ->
  iloc0 (filter (fun s => (Student.student_id s =? student_id)%Z) DF_STUD)
  = Ok row ->
  0 <= Student.engagement row <= 1 ->
  exists plan,
    build_agent_plan today DF_TRAJ DF_STUD student_id priority goal_h
    = Ok plan
    /\ List.length plan = 35%nat
    /\ forall d, In d DOMAINS -> domain_hours plan d = goal_h / 5.
Proof.
  intros Hold Hrow He.
  rewrite (build_agent_plan_cells today DF_TRAJ student_id priority goal_h
                                  DF_STUD row Hrow).
  eexists. split; [reflexivity|].
  assert (Hnone : filter (fun r => (Agg.student_id r =? student_id)%Z)
                         (recent_progress today DF_TRAJ 7) = []).
  { apply filter_none. intros agg Hagg. apply Z.eqb_neq. intros Hid.
    destruct (recent_progress_row_record _ _ _ _ Hagg)
      as [r [Hr [Hdate [Hsid _]]]].
    specialize (Hold r Hr ltac:(congruence)). lia. }
  split.
  - rewrite cells_length, Hnone. reflexivity.
  - intros d Hd.
    rewrite (raw_weight_hours today DF_TRAJ student_id priority goal_h
                              (Student.engagement row) He d (1 / 5)).
    + rewrite Hnone. unfold raw_weights. cbn [List.length Nat.eqb].
      rewrite map_map. cbn [snd]. rewrite sum_constant.
      unfold DOMAINS. cbn [List.length INR]. field.
    + rewrite Hnone. unfold raw_weights. cbn [List.length Nat.eqb].
      apply in_map_iff. exists d. split; [|exact Hd].
      f_equal. unfold DOMAINS. cbn [List.length INR]. lra.
Qed.

Lemma plan_day_shape_witness :
  exists plan,
    build_agent_plan 10 two_records one_learner 0 "balanced" 4 = Ok plan
    /\ map Sched.day
           (filter (fun c => String.eqb (Sched.domain c) "Algebra") plan)
       = DAYS.
Proof.
  eexists. split; [reflexivity|].
  pose proof (plan_day_shape 10 two_records one_learner 0 "balanced" 4
                (Student.mk 0 0 0.5 45 4 no_affinity) _ "Algebra"
                eq_refl ltac:(cbn; lra) eq_refl) as H.
  assert (Hin : In "Algebra"
                   (map Sched.domain
                        (flat_map
                           (fun w => day_cells (fst w) (snd w * 4) 0.5)
                           (normalize
                              (mean_by_domain
                                 (raw_weights "balanced"
                                    (filter (fun r => (Agg.student_id r =? 0)%Z)
                                            (recent_progress 10 two_records
                                                             7)))))))).
  { left. reflexivity. }
  specialize (H Hin).
  apply (f_equal (map fst)) in H. rewrite !map_map in H. cbn [fst] in H.
  exact H.
Defined.

Lemma build_agent_plan_unknown_learner_witness :
  build_agent_plan 10 two_records one_learner 7 "weak" 4 = Raise IndexError.
Proof.
  apply (build_agent_plan_unknown_learner 10 two_records one_learner 7
                                          "weak" 4).
  reflexivity.
Defined.

Lemma plan_without_recent_activity_witness :
  exists plan,
    build_agent_plan 100 two_records one_learner 0 "weak" 4 = Ok plan
    /\ domain_hours plan "Statistics" = 4 / 5.
Proof.
  destruct (plan_without_recent_activity
              100 two_records one_learner 0 "weak" 4
              (Student.mk 0 0 0.5 45 4 no_affinity))
    as [plan [Hplan [_ Hshare]]].
  - intros r [<-|[<-|[]]] _; cbn; lia.
  - reflexivity.
  - cbn. lra.
  - exists plan. split; [exact Hplan|]. apply Hshare.
    unfold DOMAINS. cbn. tauto.
Defined.

(** X7. Under the balanced policy (any priority other than "weak" and
    "strong") every domain in which the learner was active in the last
    seven days gets the same share of the goal: the goal over the number
    of active domains. *)
Theorem balanced_policy_equal_shares
        (today : Z) (DF_TRAJ : list Traj.t) (DF_STUD : list Student.t)
        (student_id : Z) (priority : string) (goal_h : R)
        (row : Student.t) (agg : Agg.t) :
  String.eqb priority "weak" = false ->
  String.eqb priority "strong" = false ->
  iloc0 (filter (fun s => (Student.student_id s =? student_id)%Z) DF_STUD)
  = Ok row ->
  0 <= Student.engagement row <= 1 ->
  In agg (recent_progress today DF_TRAJ 7) ->
  Agg.student_id agg = student_id ->
  exists plan,
    build_agent_plan today DF_TRAJ DF_STUD student_id priority goal_h
    = Ok plan
    /\ domain_hours plan (Agg.domain agg)
       = goal_h
         / INR (List.length
                  (filter (fun r => (Agg.student_id r =? student_id)%Z)
                          (recent_progress today DF_TRAJ 7))).
Proof.
  intros Hweak Hstrong Hrow He Hin Hid.
  rewrite (build_agent_plan_cells today DF_TRAJ student_id priority goal_h
                                  DF_STUD row Hrow).
  eexists. split; [reflexivity|].
  assert (Hagg : In agg (filter (fun r => (Agg.student_id r =? student_id)%Z)
                                (recent_progress today DF_TRAJ 7))).
  { apply filter_In. split; [exact Hin | now apply Z.eqb_eq]. }
  assert (Hraw : raw_weights priority
                   (filter (fun r => (Agg.student_id r =? student_id)%Z)
                           (recent_progress today DF_TRAJ 7))
                 = map (fun r => (Agg.domain r, 1.0))
                       (filter (fun r => (Agg.student_id r =? student_id)%Z)
                               (recent_progress today DF_TRAJ 7))).
  { unfold raw_weights. rewrite Hweak, Hstrong.
    destruct (filter _ (recent_progress today DF_TRAJ 7)) as [|x l];
      [contradiction | reflexivity]. }
  rewrite (raw_weight_hours today DF_TRAJ student_id priority goal_h
                            (Student.engagement row) He (Agg.domain agg) 1.0).
  - rewrite Hraw, map_map. cbn [snd]. rewrite sum_constant.
    assert (Hn : 0 < INR (List.length
                            (filter (fun r => (Agg.student_id r
                                               =? student_id)%Z)
                                    (recent_progress today DF_TRAJ 7)))).
    { apply lt_0_INR.
      destruct (filter _ (recent_progress today DF_TRAJ 7));
        [contradiction | cbn; lia]. }
    field. lra.
  - rewrite Hraw. apply in_map_iff. now exists agg.
Qed.

Lemma balanced_policy_equal_shares_witness :
  exists plan,
    build_agent_plan 10 two_records one_learner 0 "balanced" 7 = Ok plan
    /\ domain_hours plan "Calculus" = 7 / 2.
Proof.
  destruct (balanced_policy_equal_shares
              10 two_records one_learner 0 "balanced" 7
              (Student.mk 0 0 0.5 45 4 no_affinity)
              (Agg.mk 0 "Calculus" 30 (mean [0.1])))
    as [plan [Hplan Hshare]].
  - reflexivity.
  - reflexivity.
  - reflexivity.
  - cbn. lra.
  - right. left. reflexivity.
  - reflexivity.
  - exists plan. split; [exact Hplan|].
    cbn [Agg.domain] in Hshare. rewrite Hshare.
    change (List.length
              (filter (fun r => (Agg.student_id r =? 0)%Z)
                      (recent_progress 10 two_records 7))) with 2%nat.
    cbn [INR]. lra.
Defined.

(** X8. Under the strong policy the hours of two domains of the learner's
    recent aggregates are in the ratio of their mean micro-scores, and the
    domain with the higher mean gets strictly more hours. *)
Theorem strong_policy_favours_high_scores
        (today : Z) (DF_TRAJ : list Traj.t) (DF_STUD : list Student.t)
        (student_id : Z) (goal_h : R) (row : Student.t)
        (agg_hi agg_lo : Agg.t) :
  Forall (fun r => 0.05 <= Traj.micro_score r <= 0.98) DF_TRAJ ->
  iloc0 (filter (fun s => (Student.student_id s =? student_id)%Z) DF_STUD)
  = Ok row ->
  0 <= Student.engagement row <= 1 ->
  0 < goal_h ->
  In agg_hi (recent_progress today DF_TRAJ 7) ->
  Agg.student_id agg_hi = student_id ->
  In agg_lo (recent_progress today DF_TRAJ 7) ->
  Agg.student_id agg_lo = student_id ->
  Agg.micro_mean agg_lo < Agg.micro_mean agg_hi ->
  exists plan,
    build_agent_plan today DF_TRAJ DF_STUD student_id "strong" goal_h
    = Ok plan
    /\ domain_hours plan (Agg.domain agg_hi) * Agg.micro_mean agg_lo
       = domain_hours plan (Agg.domain agg_lo) * Agg.micro_mean agg_hi
    /\ domain_hours plan (Agg.domain agg_lo)
       < domain_hours plan (Agg.domain agg_hi).
Proof.
  intros Hbounds Hrow He Hgoal Hhi Hhi_id Hlo Hlo_id Hlt.
  rewrite (build_agent_plan_cells today DF_TRAJ student_id "strong" goal_h
                                  DF_STUD row Hrow).
  eexists. split; [reflexivity|].
  assert (Hraw : forall agg,
             In agg (recent_progress today DF_TRAJ 7) ->
             Agg.student_id agg = student_id ->
             In (Agg.domain agg, Agg.micro_mean agg)
                (raw_weights "strong"
                   (filter (fun r => (Agg.student_id r =? student_id)%Z)
                           (recent_progress today DF_TRAJ 7)))).
  { intros agg Hin Hid.
    assert (Hagg : In agg (filter (fun r => (Agg.student_id r
                                             =? student_id)%Z)
                                  (recent_progress today DF_TRAJ 7))).
    { apply filter_In. split; [exact Hin | now apply Z.eqb_eq]. }
    unfold raw_weights.
    destruct (filter _ (recent_progress today DF_TRAJ 7)) as [|x l];
      [contradiction|].
    cbn [List.length Nat.eqb String.eqb Ascii.eqb Bool.eqb andb].
    apply in_map_iff. now exists agg. }
  rewrite (raw_weight_hours today DF_TRAJ student_id "strong" goal_h
             (Student.engagement row) He _ _ (Hraw agg_hi Hhi Hhi_id)).
  rewrite (raw_weight_hours today DF_TRAJ student_id "strong" goal_h
             (Student.engagement row) He _ _ (Hraw agg_lo Hlo Hlo_id)).
  pose proof (raw_weights_total_pos today DF_TRAJ student_id "strong" Hbounds)
    as Hpos.
  rewrite (sum_perm _ _ (Permutation_map snd
             (mean_by_domain_perm _
                (raw_weights_keys_NoDup today DF_TRAJ student_id "strong"))))
    in Hpos.
  set (total := sum (map snd _)) in *.
  split.
  - field. lra.
  - apply Rmult_lt_compat_r; [exact Hgoal|].
    apply Rmult_lt_compat_r; [now apply Rinv_0_lt_compat | exact Hlt].
Qed.

Lemma strong_policy_favours_high_scores_witness :
  exists plan,
    build_agent_plan 10 two_records one_learner 0 "strong" 4 = Ok plan
    /\ domain_hours plan "Calculus" < domain_hours plan "Algebra".
Proof.
  destruct (strong_policy_favours_high_scores
              10 two_records one_learner 0 4
              (Student.mk 0 0 0.5 45 4 no_affinity)
              (Agg.mk 0 "Algebra" 30 (mean [0.9]))
              (Agg.mk 0 "Calculus" 30 (mean [0.1])))
    as [plan [Hplan [_ Hlt]]].
  - repeat constructor; cbn; lra.
  - reflexivity.
  - cbn. lra.
  - lra.
  - left. reflexivity.
  - reflexivity.
  - right. left. reflexivity.
  - reflexivity.
  - cbn [Agg.micro_mean]. rewrite !mean_single. lra.
  - exists plan. split; [exact Hplan | exact Hlt].
Defined.

(** ** The stored key *)

(** X9. The store written by [save_api_key] reads back as the key that was
    saved when the key is a non-empty string, and as no key otherwise.
    With it the recommendation callback, once it has its recommendations,
    shows the hint when there is no key.  With a key it first builds the
    prompt, outside the [try] block: an exception raised there (pandas'
    [ImportError] for [to_markdown] without tabulate) is raised by the
    callback; once the prompt is built the callback does not raise, it
    asks the service with exactly that key and shows either the text
    returned or "AI explanation could not be retrieved: " followed by the
    text of the exception. *)
Theorem saved_key_round_trip
        (sort_values_gap : list Candidate.t -> list Candidate.t)
        (prompt_of : Z -> string -> list Rec.t -> result string)
        (explain_remote : string -> string -> string + string)
        (DF_STUD : list Student.t) (DF_ITEMS : list Item.t)
        (DF_TRAJ : list Traj.t) (student_id : Z) (dom : string)
        (key : option string) (recs : list Rec.t) :
  recommend_items sort_values_gap student_id DF_STUD DF_ITEMS DF_TRAJ
  = Ok recs ->
  stored_key (Some (save_api_key key)) = (if truthy key then key else None)
  /\ update_learning sort_values_gap prompt_of explain_remote DF_STUD
                     DF_ITEMS DF_TRAJ student_id dom
                     (Some (save_api_key key))
     = match key with
       | Some k =>
           if String.eqb k "" then Ok (KeyHint KEY_PROMPT_MESSAGE)
           else
             match prompt_of student_id dom recs with
             | Raise e => Raise e
             | Ok prompt =>
                 match explain_remote k prompt with
                 | inr text => Ok (AIExplanation text)
                 | inl detail =>
                     Ok (AIExplanation
                           ("AI explanation could not be retrieved: "
                              ++ detail)%string)
                 end
             end
       | None => Ok (KeyHint KEY_PROMPT_MESSAGE)
       end.
Proof.
  intros Hrecs. unfold update_learning. rewrite Hrecs.
  destruct key as [k|]; [|split; reflexivity].
  unfold save_api_key, truthy.
  destruct (String.eqb k "") eqn:Hk; [split; reflexivity|].
  cbn. rewrite Hk. cbn.
  split; [reflexivity|].
  destruct (prompt_of student_id dom recs) as [prompt|e]; [|reflexivity].
  destruct (explain_remote k prompt); reflexivity.
Qed.

Lemma saved_key_round_trip_witness :
  exists recs,
    recommend_items sort_values_gap_stable 0 one_learner two_domain_items []
    = Ok recs
    /\ update_learning sort_values_gap_stable (fun _ _ _ => Ok "prompt")
                       (fun _ _ => inl "timeout") one_learner
                       two_domain_items [] 0 "Calculus"
                       (Some (save_api_key (Some "sk-1")))
       = Ok (AIExplanation "AI explanation could not be retrieved: timeout")
    /\ update_learning sort_values_gap_stable (fun _ _ _ => Raise ImportError)
                       (fun _ _ => inl "timeout") one_learner
                       two_domain_items [] 0 "Calculus"
                       (Some (save_api_key (Some "sk-1")))
       = Raise ImportError.
Proof.
  destruct two_domain_frame as [recs [Hrecs _]].
  exists recs. split; [exact Hrecs|]. split.
  - exact (proj2 (saved_key_round_trip
                    sort_values_gap_stable (fun _ _ _ => Ok "prompt")
                    (fun _ _ => inl "timeout") one_learner two_domain_items []
                    0 "Calculus" (Some "sk-1") recs Hrecs)).
  - exact (proj2 (saved_key_round_trip
                    sort_values_gap_stable (fun _ _ _ => Raise ImportError)
                    (fun _ _ => inl "timeout") one_learner two_domain_items []
                    0 "Calculus" (Some "sk-1") recs Hrecs)).
Defined.

(** ** Assessments *)

Lemma head_nonneg {A : Type} (n : Z) (df : list A) :
  (0 <= n)%Z -> head n df = firstn (Z.to_nat n) df.
Proof.
  intros Hn. unfold head. destruct (Z.ltb_spec n 0); [lia | reflexivity].
Qed.

Lemma head_twice {A : Type} (n : Z) (df : list A) :
  (0 <= n)%Z -> head n (head (n * 2) df) = firstn (Z.to_nat n) df.
Proof.
  intros Hn. rewrite !head_nonneg by lia. rewrite firstn_firstn.
  f_equal. lia.
Qed.

Lemma combine_seq_fst {A : Type} (l : list A) (start : nat) :
  map fst (combine (seq start (List.length l)) l) = seq start (List.length l).
Proof.
  revert start. induction l as [|x l IH]; intros start; [reflexivity|].
  cbn. now rewrite IH.
Qed.

Lemma combine_seq_snd {A : Type} (l : list A) (start : nat) :
  map snd (combine (seq start (List.length l)) l) = l.
Proof.
  revert start. induction l as [|x l IH]; intros start; [reflexivity|].
  cbn. now rewrite IH.
Qed.

(** X10. For a domain of [DOMAINS] and a non-negative number of questions,
    the assessment asks the items of the domain's frame, closest first, cut
    at the number asked for and numbered from 0; as the frame has at most
    three rows, asking for three questions or more always gives the whole
    frame and never more than three questions.  When the engine raises, so
    does the assessment. *)
Theorem generate_assessment_questions
        (sort_values_gap : list Candidate.t -> list Candidate.t)
        (sort_permutes : forall l, Permutation (sort_values_gap l) l)
        (sort_ascending :
           forall l, StronglySorted
                       (fun x y => Candidate.gap x <= Candidate.gap y)
                       (sort_values_gap l))
        (DF_STUD : list Student.t) (DF_ITEMS : list Item.t)
        (DF_TRAJ : list Traj.t) (student_id : Z) (dom : string) (n_q : Z) :
  (forall e,
     recommend_items sort_values_gap student_id DF_STUD DF_ITEMS DF_TRAJ
     = Raise e ->
     generate_assessment sort_values_gap DF_STUD DF_ITEMS DF_TRAJ student_id
                         dom n_q = Raise e)
  /\ (forall theta out,
        In dom DOMAINS ->
        theta_d student_id DF_STUD DF_TRAJ dom = Ok theta ->
        recommend_items sort_values_gap student_id DF_STUD DF_ITEMS DF_TRAJ
        = Ok out ->
        (0 <= n_q)%Z ->
        exists qs,
          generate_assessment sort_values_gap DF_STUD DF_ITEMS DF_TRAJ
                              student_id dom n_q = Ok qs
          /\ map Question.item_id qs
             = firstn (Z.to_nat n_q)
                      (map Rec.item_id (top sort_values_gap DF_ITEMS dom theta))
          /\ map Question.index qs = seq 0 (List.length qs)
          /\ List.length qs
             = Nat.min (Z.to_nat n_q)
                 (Nat.min 3 (List.length
                               (filter (fun it => String.eqb (Item.domain it)
                                                             dom) DF_ITEMS)))
          /\ ((3 <= n_q)%Z ->
              map Question.item_id qs
              = map Rec.item_id (top sort_values_gap DF_ITEMS dom theta))).
Proof.
  split.
  - intros e He. unfold generate_assessment. rewrite He. reflexivity.
  - intros theta out Hdom Ht Hout Hn.
    unfold generate_assessment. rewrite Hout. cbn [bind Monad_result ret].
    rewrite (recommend_items_of_domain sort_values_gap sort_permutes
               sort_ascending student_id DF_STUD DF_ITEMS DF_TRAJ dom theta
               out Hdom Ht Hout).
    rewrite head_twice by exact Hn.
    set (rows := firstn (Z.to_nat n_q) (top sort_values_gap DF_ITEMS dom theta)).
    eexists. split; [reflexivity|].
    assert (Hlen : List.length rows
                   = Nat.min (Z.to_nat n_q)
                       (Nat.min 3 (List.length
                                     (filter (fun it =>
                                                String.eqb (Item.domain it) dom)
                                             DF_ITEMS)))).
    { unfold rows. rewrite length_firstn.
      now rewrite (top_length sort_values_gap sort_permutes). }
    split; [|split; [|split]].
    + rewrite map_map. cbn [Question.item_id].
      rewrite <- (map_map snd Rec.item_id), combine_seq_snd.
      unfold rows. symmetry. apply firstn_map.
    + rewrite map_map. cbn [Question.index]. rewrite length_map.
      rewrite combine_seq_fst. rewrite length_combine, length_seq.
      now rewrite Nat.min_id.
    + rewrite length_map, length_combine, length_seq, Nat.min_id.
      exact Hlen.
    + intros H3. rewrite map_map. cbn [Question.item_id].
      rewrite <- (map_map snd Rec.item_id), combine_seq_snd.
      unfold rows. rewrite firstn_all2; [reflexivity|].
      rewrite (top_length sort_values_gap sort_permutes). lia.
Qed.

Lemma generate_assessment_questions_witness :
  exists qs,
    generate_assessment sort_values_gap_stable one_learner tied_items [] 0
                        "Algebra" 5 = Ok qs
    /\ List.length qs = 2%nat.
Proof.
  destruct (recommend_items_total sort_values_gap_stable 0 one_learner
                                  tied_items [])
    as [out Hout].
  { intros d _. exists 0. apply one_learner_cold_theta. }
  destruct (proj2 (generate_assessment_questions
                     sort_values_gap_stable sort_values_gap_stable_perm
                     sort_values_gap_stable_ascending one_learner tied_items
                     [] 0 "Algebra" 5)
                  0 out)
    as [qs [Hqs [_ [_ [Hlen _]]]]].
  - now left.
  - apply one_learner_cold_theta.
  - exact Hout.
  - lia.
  - exists qs. split; [exact Hqs | exact Hlen].
Defined.

Lemma clean_answers_sum (answers : list (option Z)) :
  Forall (fun a => a = None \/ a = Some 0%Z \/ a = Some 1%Z) answers ->
  let answers_clean :=
    flat_map (fun a => match a with Some v => [v] | None => [] end) answers in
  (0 <= Zsum answers_clean <= Z.of_nat (List.length answers_clean))%Z
  /\ Zsum answers_clean
     = Z.of_nat (List.length (filter (fun a => match a with
                                               | Some 1%Z => true
                                               | _ => false
                                               end) answers))
  /\ List.length answers_clean
     = List.length (filter (fun a => match a with
                                     | Some _ => true
                                     | None => false
                                     end) answers).
Proof.
  cbn zeta. unfold Zsum.
  induction 1 as [|a answers Ha _ [IHr [IHs IHl]]]; [cbn; lia|].
  destruct Ha as [->|[->| ->]]; cbn [flat_map app filter List.length
                                     fold_right];
    rewrite ?IHs, ?IHl in *; repeat split; try lia.
Qed.

(** X11. Submitting answers that are 1, 0 or left open: an empty form is
    answered "No answers submitted", a form with every question left open
    "Please answer at least one question"; otherwise the accuracy shown is
    the share of 1s among the questions answered, in percent, between 0 and
    100, and questions left open do not count. *)
Theorem submit_assessment_accuracy (answers : list (option Z)) :
  Forall (fun a => a = None \/ a = Some 0%Z \/ a = Some 1%Z) answers ->
  let answered :=
    List.length (filter (fun a => match a with
                                  | Some _ => true
                                  | None => false
                                  end) answers) in
  let correct :=
    List.length (filter (fun a => match a with
                                  | Some 1%Z => true
                                  | _ => false
                                  end) answers) in
  match submit_assessment answers with
  | NoAnswersSubmitted => answers = []
  | AnswerAtLeastOne => answers <> [] /\ answered = 0%nat
  | AssessmentSubmitted accuracy =>
      (0 < answered)%nat
      /\ accuracy = INR correct / INR answered * 100
      /\ 0 <= accuracy <= 100
  end.
Proof.
  intros Hall. cbn zeta.
  destruct (clean_answers_sum answers Hall) as [Hrange [Hsum Hlen]].
  cbn zeta in Hrange, Hsum, Hlen.
  unfold submit_assessment.
  destruct answers as [|a answers]; [reflexivity|].
  set (clean := flat_map _ (a :: answers)) in *.
  destruct (Nat.eqb_spec (List.length clean) 0) as [Hz|Hnz].
  - split; [discriminate | congruence].
  - rewrite <- Hlen.
    assert (Hpos : 0 < INR (List.length clean)) by (apply lt_0_INR; lia).
    split; [lia|]. split.
    + rewrite Hsum, <- INR_IZR_INZ. reflexivity.
    + assert (H0 : 0 <= IZR (Zsum clean)) by (apply IZR_le; lia).
      assert (H1 : IZR (Zsum clean) <= INR (List.length clean)).
      { rewrite INR_IZR_INZ. apply IZR_le. lia. }
      split.
      * apply Rmult_le_pos; [|lra].
        apply Rmult_le_pos; [exact H0|].
        left. now apply Rinv_0_lt_compat.
      * apply (Rmult_le_reg_r (INR (List.length clean))); [exact Hpos|].
        unfold Rdiv.
        replace (IZR (Zsum clean) * / INR (List.length clean) * 100
                 * INR (List.length clean))
          with (IZR (Zsum clean) * 100
                * (/ INR (List.length clean) * INR (List.length clean)))
          by ring.
        rewrite Rinv_l by lra. lra.
Qed.

Lemma submit_assessment_accuracy_witness :
  submit_assessment [Some 1%Z; None; Some 0%Z]
  = AssessmentSubmitted (IZR 1 / INR 2 * 100)
  /\ 0 <= IZR 1 / INR 2 * 100 <= 100.
Proof.
  split; [reflexivity|].
  pose proof (submit_assessment_accuracy [Some 1%Z; None; Some 0%Z]) as H.
  cbn zeta in H.
  change (submit_assessment [Some 1%Z; None; Some 0%Z])
    with (AssessmentSubmitted (IZR 1 / INR 2 * 100)) in H.
  apply H.
  repeat (apply Forall_cons;
          [first [left; reflexivity | right; left; reflexivity
                 | right; right; reflexivity]|]).
  apply Forall_nil.
Defined.

(** ** Synthetic cohort and item bank *)

Section GeneratorFacts.
Variable rng : Type.
Variable normal : R -> R -> state rng R.
Variable beta : R -> R -> state rng R.
Variable choice : list string -> state rng string.

Lemma draws_length {A : Type} (n : nat) (sampler : state rng A) (g : rng) :
  List.length (fst (runState (draws rng n sampler) g)) = n.
Proof.
  revert g. induction n as [|n IH]; intros g; [reflexivity|].
  cbn. destruct (runState sampler g) as [x g1].
  specialize (IH g1). cbn.
  destruct (runState (draws rng n sampler) g1) as [xs g2].
  cbn in *. now rewrite IH.
Qed.

Lemma draws_Forall {A : Type} (P : A -> Prop) (n : nat)
      (sampler : state rng A) :
  (forall g, P (fst (runState sampler g))) ->
  forall g, Forall P (fst (runState (draws rng n sampler) g)).
Proof.
  intros Hs. induction n as [|n IH]; intros g; [constructor|].
  cbn. pose proof (Hs g) as Hx.
  destruct (runState sampler g) as [x g1].
  specialize (IH g1). cbn.
  destruct (runState (draws rng n sampler) g1) as [xs g2].
  cbn in *. now constructor.
Qed.

Lemma nth_clipped (lo hi : R) (l : list R) (i : nat) :
  lo <= hi -> (i < List.length l)%nat ->
  lo <= nth i (map (fun x => clip x lo hi) l) 0 <= hi.
Proof.
  intros Hlh Hi.
  assert (Hin : In (nth i (map (fun x => clip x lo hi) l) 0)
                   (map (fun x => clip x lo hi) l)).
  { apply nth_In. now rewrite length_map. }
  apply in_map_iff in Hin. destruct Hin as [x [<- _]].
  now apply clip_bounds.
Qed.

(** Every affinity column holds [n] values between -2 and 2. *)
Lemma affinity_columns_ranges (n : nat) (domains : list string) (g : rng) :
  Forall (fun dc => List.length (snd dc) = n
                    /\ Forall (fun x => -2 <= x <= 2) (snd dc))
         (fst (runState (affinity_columns rng normal n domains) g)).
Proof.
  revert g. induction domains as [|d domains IH]; intros g; [constructor|].
  cbn. pose proof (draws_length n (normal 0 1) g) as Hlen.
  destruct (runState (draws rng n (normal 0 1)) g) as [col g1].
  specialize (IH g1). cbn.
  destruct (runState (affinity_columns rng normal n domains) g1)
    as [rest g2].
  cbn in *. constructor; [|exact IH]. cbn. split.
  - now rewrite length_map.
  - apply Forall_map. apply Forall_forall. intros x _.
    apply clip_bounds. lra.
Qed.

Lemma read_column_In (d : string) (cols : list (string * list R))
      (col : list R) :
  read_column d cols = Some col -> In col (map snd cols).
Proof.
  induction cols as [|[d' c] cols IH]; cbn; [discriminate|].
  destruct (read_column d cols) as [col'|].
  - intros H. inversion H; subst. right. now apply IH.
  - destruct (String.eqb d d'); [|discriminate].
    intros H. inversion H; subst. now left.
Qed.

Lemma student_row_ranges (ability_g engagement pace goal : list R)
      (cols : list (string * list R)) (n i : nat) :
  List.length engagement = n -> List.length pace = n ->
  List.length goal = n ->
  Forall (fun dc => List.length (snd dc) = n
                    /\ Forall (fun x => -2 <= x <= 2) (snd dc)) cols ->
  (i < n)%nat ->
  let s := student_row ability_g
                       (map (fun x => clip x 0 1) engagement)
                       (map (fun x => clip x 5 120) pace)
                       (map (fun x => clip x 1.0 8.0) goal) cols i in
  Student.student_id s = Z.of_nat i
  /\ 0 <= Student.engagement s <= 1
  /\ 5 <= Student.pace_min_day s <= 120
  /\ 1 <= Student.goal_hours_week s <= 8
  /\ forall d, -2 <= Student.affinity s d <= 2.
Proof.
  intros He Hp Hg Hcols Hi. cbn.
  split; [reflexivity|].
  split; [apply nth_clipped; [lra | now rewrite He]|].
  split; [apply nth_clipped; [lra | now rewrite Hp]|].
  split.
  - assert (Hig : (i < List.length goal)%nat) by now rewrite Hg.
    pose proof (nth_clipped 1.0 8.0 goal i ltac:(lra) Hig) as H. lra.
  - intros d. destruct (read_column d cols) as [col|] eqn:Hcol; [|lra].
    apply read_column_In in Hcol. apply in_map_iff in Hcol.
    destruct Hcol as [[d' c] [Heq Hin]]. cbn in Heq. subst c.
    rewrite Forall_forall in Hcols. destruct (Hcols _ Hin) as [Hlen Hall].
    cbn in Hlen, Hall. rewrite Forall_forall in Hall.
    apply Hall. apply nth_In. now rewrite Hlen.
Qed.

(** The cohort, as rows. *)
Lemma simulate_students_rows (n : nat) (domains : list string) (g : rng) :
  exists ability_g engagement pace goal cols,
    List.length engagement = n /\ List.length pace = n
    /\ List.length goal = n
    /\ Forall (fun dc => List.length (snd dc) = n
                         /\ Forall (fun x => -2 <= x <= 2) (snd dc)) cols
    /\ fst (runState (simulate_students rng normal beta n domains) g)
       = map (student_row ability_g
                          (map (fun x => clip x 0 1) engagement)
                          (map (fun x => clip x 5 120) pace)
                          (map (fun x => clip x 1.0 8.0) goal) cols)
             (seq 0 n).
Proof.
  unfold simulate_students. cbn.
  destruct (runState (draws rng n (normal 0 1)) g) as [ability_g g1].
  cbn. pose proof (draws_length n (beta 3 2) g1) as He.
  destruct (runState (draws rng n (beta 3 2)) g1) as [engagement g2].
  cbn. pose proof (draws_length n (normal 45 15) g2) as Hp.
  destruct (runState (draws rng n (normal 45 15)) g2) as [pace g3].
  cbn. pose proof (draws_length n (normal 3.6 1.2) g3) as Hg.
  destruct (runState (draws rng n (normal 3.6 1.2)) g3) as [goal g4].
  cbn. pose proof (affinity_columns_ranges n domains g4) as Hcols.
  destruct (runState (affinity_columns rng normal n domains) g4)
    as [cols g5].
  cbn in *. exists ability_g, engagement, pace, goal, cols.
  repeat split; assumption.
Qed.

End GeneratorFacts.

(** X12. Whatever the generator draws, the cohort has one learner per id
    0 .. n-1, in this order, each with engagement in [0, 1], pace in
    [5, 120] minutes a day, weekly goal in [1, 8] hours and, for every
    domain asked for, an affinity in [-2, 2]. *)
Theorem simulate_students_ranges
        (rng : Type) (normal beta : R -> R -> state rng R)
        (n : nat) (domains : list string) (g : rng) :
  let DF_STUD :=
    fst (runState (simulate_students rng normal beta n domains) g) in
  map Student.student_id DF_STUD = map Z.of_nat (seq 0 n)
  /\ forall s, In s DF_STUD ->
       0 <= Student.engagement s <= 1
       /\ 5 <= Student.pace_min_day s <= 120
       /\ 1 <= Student.goal_hours_week s <= 8
       /\ forall d, In d domains -> -2 <= Student.affinity s d <= 2.
Proof.
  cbn zeta.
  destruct (simulate_students_rows rng normal beta n domains g)
    as [ability_g [engagement [pace [goal [cols [He [Hp [Hg [Hcols ->]]]]]]]]].
  split.
  - rewrite map_map. apply map_ext. reflexivity.
  - intros s Hs. apply in_map_iff in Hs. destruct Hs as [i [<- Hi]].
    apply in_seq in Hi.
    destruct (student_row_ranges ability_g engagement pace goal cols n i
                                 He Hp Hg Hcols ltac:(lia))
      as [_ [H1 [H2 [H3 H4]]]].
    split; [exact H1|]. split; [exact H2|]. split; [exact H3|].
    intros d _. apply H4.
Qed.

Section ItemBankFacts.
Variable rng : Type.
Variable normal : R -> R -> state rng R.
Variable choice : list string -> state rng string.

Lemma simulate_item_bank_rows (n : nat) (domains : list string) (g : rng) :
  (forall g', In (fst (runState (choice domains) g')) domains) ->
  exists domains_items difficulty_b discrimination_a t_min,
    List.length domains_items = n /\ Forall (fun d => In d domains) domains_items
    /\ List.length discrimination_a = n /\ List.length t_min = n
    /\ fst (runState (simulate_item_bank rng normal choice n domains) g)
       = map (fun i =>
                Item.mk (Z.of_nat i) (nth i domains_items "")
                        (nth i (map (fun x => clip x 0.6 1.8) discrimination_a)
                             0)
                        (nth i difficulty_b 0)
                        (nth i (map (fun x => clip x 3 20) t_min) 0))
             (seq 0 n).
Proof.
  intros Hchoice. unfold simulate_item_bank. cbn.
  pose proof (draws_length rng n (choice domains) g) as Hd.
  pose proof (draws_Forall rng (fun d => In d domains) n (choice domains)
                           Hchoice g) as Hin.
  destruct (runState (draws rng n (choice domains)) g) as [domains_items g1].
  cbn.
  destruct (runState (draws rng n (normal 0 1.0)) g1) as [difficulty_b g2].
  cbn. pose proof (draws_length rng n (normal 1.0 0.3) g2) as Ha.
  destruct (runState (draws rng n (normal 1.0 0.3)) g2)
    as [discrimination_a g3].
  cbn. pose proof (draws_length rng n (normal 8 3) g3) as Ht.
  destruct (runState (draws rng n (normal 8 3)) g3) as [t_min g4].
  cbn in *. exists domains_items, difficulty_b, discrimination_a, t_min.
  repeat split; assumption.
Qed.

End ItemBankFacts.

(** X13. Whatever the generator draws, provided its [choice] returns an
    element of the list it is given, the item bank has one item per id
    0 .. n-1, in this order, each in one of the domains asked for, with a
    discrimination in [0.6, 1.8] and an expected time in [3, 20] minutes;
    the success probability of every item is therefore strictly increasing
    in the ability. *)
Theorem simulate_item_bank_ranges
        (rng : Type) (normal : R -> R -> state rng R)
        (choice : list string -> state rng string)
        (n_items : nat) (domains : list string) (g : rng) :
  (forall g', In (fst (runState (choice domains) g')) domains) ->
  let DF_ITEMS :=
    fst (runState (simulate_item_bank rng normal choice n_items domains) g) in
  map Item.item_id DF_ITEMS = map Z.of_nat (seq 0 n_items)
  /\ forall it, In it DF_ITEMS ->
       In (Item.domain it) domains
       /\ 0.6 <= Item.a it <= 1.8
       /\ 3 <= Item.t_expected_min it <= 20
       /\ forall t1 t2, t1 < t2 ->
            p_success (Item.a it) (Item.b it) t1
            < p_success (Item.a it) (Item.b it) t2.
Proof.
  intros Hchoice. cbn zeta.
  destruct (simulate_item_bank_rows rng normal choice n_items domains g
                                    Hchoice)
    as [ds [bs [as_ [ts [Hd [Hin [Ha [Ht ->]]]]]]]].
  split.
  - rewrite map_map. apply map_ext. reflexivity.
  - intros it Hit. apply in_map_iff in Hit. destruct Hit as [i [<- Hi]].
    apply in_seq in Hi. cbn.
    assert (Hrange : 0.6 <= nth i (map (fun x => clip x 0.6 1.8) as_) 0
                     <= 1.8).
    { apply nth_clipped; [lra | lia]. }
    split; [|split; [exact Hrange|split]].
    + rewrite Forall_forall in Hin. apply Hin. apply nth_In. lia.
    + apply nth_clipped; [lra | lia].
    + intros t1 t2 Hlt. apply p_success_increasing; [lra | exact Hlt].
Qed.

Lemma simulate_item_bank_ranges_witness :
  map Item.item_id
      (fst (runState (simulate_item_bank nat centred_normal
                                         (fun l => mkState (fun g => (hd "" l, g)))
                                         2 DOMAINS) 0%nat))
  = [0; 1]%Z.
Proof.
  apply (simulate_item_bank_ranges
           nat centred_normal (fun l => mkState (fun g => (hd "" l, g)))
           2 DOMAINS 0%nat).
  intros g'. cbn. now left.
Defined.

(** ** The tables built at start-up *)

Section StartupFacts.
Variable rng : Type.
Variable poisson : R -> state rng Z.
Variable normal : R -> R -> state rng R.
Variable beta : R -> R -> state rng R.
Variable choice : list string -> state rng string.

(** The rows appended in one turn are rows of the whole loop. *)
Lemma for_rows_incl {A B : Type} (l : list A)
      (body : A -> state rng (list B)) (x : A) (g : rng) :
  In x l ->
  exists g', incl (fst (runState (body x) g'))
                  (fst (runState (for_rows rng l body) g)).
Proof.
  revert g. induction l as [|y l IH]; intros g Hin; [contradiction|].
  rewrite for_rows_cons. cbn [fst].
  destruct Hin as [->|Hin].
  - exists g. apply incl_appl, incl_refl.
  - destruct (IH (snd (runState (body y) g)) Hin) as [g' Hg'].
    exists g'. now apply incl_appr.
Qed.

Lemma simulate_trajectories_micro (today : Z) (df_students : list Student.t)
      (domains : list string) (days : nat) (g : rng) :
  Forall (fun r => 0.05 <= Traj.micro_score r <= 0.98)
         (fst (runState (simulate_trajectories rng poisson normal today
                                               df_students domains days) g)).
Proof.
  unfold simulate_trajectories.
  apply for_rows_Forall. intros r g1 _.
  apply for_rows_Forall. intros d g2 _.
  apply for_rows_Forall. intros k g3 _.
  destruct (simulate_day_row rng poisson normal today r d
              (Rmax 5 (Student.pace_min_day r
                       * (0.5 + 0.5 * (Student.affinity r d + 2) / 4)))
              days k g3) as [m [n [_ ->]]].
  constructor; [|constructor]. cbn. apply clip_bounds. lra.
Qed.

(** With at least one day simulated, every learner has a record in every
    domain. *)
Lemma simulate_trajectories_cover (today : Z) (df_students : list Student.t)
      (domains : list string) (days : nat) (g : rng) (r : Student.t)
      (d : string) :
  (0 < days)%nat -> In r df_students -> In d domains ->
  exists row,
    In row (fst (runState (simulate_trajectories rng poisson normal today
                                                 df_students domains days) g))
    /\ Traj.student_id row = Student.student_id r
    /\ Traj.domain row = d.
Proof.
  intros Hdays Hr Hd. unfold simulate_trajectories.
  match goal with
  | |- context [for_rows rng df_students ?body] =>
      destruct (for_rows_incl df_students body r g Hr) as [g1 H1]
  end.
  cbn beta in H1.
  match type of H1 with
  | context [for_rows rng domains ?body] =>
      destruct (for_rows_incl domains body d g1 Hd) as [g2 H2]
  end.
  cbn beta in H2.
  match type of H2 with
  | context [for_rows rng (seq 0 days) ?body] =>
      destruct (for_rows_incl (seq 0 days) body 0%nat g2) as [g3 H3];
        [apply in_seq; lia|]
  end.
  destruct (simulate_day_row rng poisson normal today r d
              (Rmax 5 (Student.pace_min_day r
                       * (0.5 + 0.5 * (Student.affinity r d + 2) / 4)))
              days 0 g3) as [m [n [_ Hrow]]].
  rewrite Hrow in H3. eexists. split.
  - apply H1, H2, H3. now left.
  - split; reflexivity.
Qed.

Lemma startup_tables_parts (today : Z) (g : rng) :
  exists g1 g2,
    fst (runState (startup_tables rng poisson normal beta choice today) g)
    = (fst (runState (simulate_students rng normal beta N_STUDENTS DOMAINS) g),
       fst (runState (simulate_item_bank rng normal choice N_ITEMS DOMAINS)
                     g1),
       fst (runState (simulate_trajectories rng poisson normal today
                        (fst (runState (simulate_students rng normal beta
                                                          N_STUDENTS DOMAINS)
                                       g))
                        DOMAINS HORIZON_DAYS) g2)).
Proof.
  unfold startup_tables.
  change (runState (bind ?m ?k) g)
    with (let (v, s) := runState m g in runState (k v) s).
  destruct (runState (simulate_students rng normal beta N_STUDENTS DOMAINS) g)
    as [studs g1].
  exists g1.
  change (runState (bind ?m ?k) g1)
    with (let (v, s) := runState m g1 in runState (k v) s).
  destruct (runState (simulate_item_bank rng normal choice N_ITEMS DOMAINS) g1)
    as [items g2].
  exists g2.
  change (runState (bind ?m ?k) g2)
    with (let (v, s) := runState m g2 in runState (k v) s).
  cbn [fst].
  destruct (runState (simulate_trajectories rng poisson normal today studs
                                            DOMAINS HORIZON_DAYS) g2)
    as [traj g3].
  reflexivity.
Qed.

(** A generated learner is found in the table, with an engagement in
    range. *)
Lemma generated_learner_found (n : nat) (domains : list string) (g : rng)
      (student_id : Z) :
  (0 <= student_id < Z.of_nat n)%Z ->
  exists row,
    iloc0 (filter (fun s => (Student.student_id s =? student_id)%Z)
                  (fst (runState (simulate_students rng normal beta n domains)
                                 g))) = Ok row
    /\ In row (fst (runState (simulate_students rng normal beta n domains) g))
    /\ Student.student_id row = student_id
    /\ 0 <= Student.engagement row <= 1.
Proof.
  intros Hid.
  destruct (simulate_students_rows rng normal beta n domains g)
    as [ability_g [engagement [pace [goal [cols [He [Hp [Hg [Hcols Hrows]]]]]]]]].
  set (studs := fst (runState (simulate_students rng normal beta n domains) g))
    in *.
  assert (Hex : In (student_row ability_g
                      (map (fun x => clip x 0 1) engagement)
                      (map (fun x => clip x 5 120) pace)
                      (map (fun x => clip x 1.0 8.0) goal) cols
                      (Z.to_nat student_id))
                   (filter (fun s => (Student.student_id s =? student_id)%Z)
                           studs)).
  { apply filter_In. split.
    - rewrite Hrows. apply in_map. apply in_seq. lia.
    - cbn. apply Z.eqb_eq. lia. }
  destruct (filter (fun s => (Student.student_id s =? student_id)%Z) studs)
    as [|row rest] eqn:Hf; [contradiction|].
  exists row. split; [reflexivity|].
  assert (Hrow : In row (filter (fun s => (Student.student_id s
                                           =? student_id)%Z) studs))
    by (rewrite Hf; now left).
  apply filter_In in Hrow. destruct Hrow as [Hin Hsid].
  apply Z.eqb_eq in Hsid. split; [exact Hin|]. split; [exact Hsid|].
  rewrite Hrows in Hin. apply in_map_iff in Hin.
  destruct Hin as [i [<- Hi]]. apply in_seq in Hi.
  apply (student_row_ranges ability_g engagement pace goal cols n i
                            He Hp Hg Hcols ltac:(lia)).
Qed.

End StartupFacts.

Lemma build_agent_plan_total
      (today : Z) (DF_TRAJ : list Traj.t) (DF_STUD : list Student.t)
      (student_id : Z) (priority : string) (goal_h : R) (row : Student.t) :
  Forall (fun r => 0.05 <= Traj.micro_score r <= 0.98) DF_TRAJ ->
  iloc0 (filter (fun s => (Student.student_id s =? student_id)%Z) DF_STUD)
  = Ok row ->
  0 <= Student.engagement row <= 1 ->
  exists plan,
    build_agent_plan today DF_TRAJ DF_STUD student_id priority goal_h
    = Ok plan
    /\ total_hours plan = goal_h.
Proof.
  intros Hbounds Hrow He.
  rewrite (build_agent_plan_cells today DF_TRAJ student_id priority goal_h
                                  DF_STUD row Hrow).
  eexists. split; [reflexivity|].
  rewrite cells_total by exact He.
  rewrite plan_weights_sum by exact Hbounds. ring.
Qed.

(** X14. On the tables built at start-up (90 learners, 120 items, 30 days
    of trajectories), whatever the generator draws: for every learner id
    0 .. 89, every priority, every goal and whatever the day of the
    request, the planning agent returns a plan and its hours add up to the
    goal. *)
Theorem startup_plan_total
        (rng : Type) (poisson : R -> state rng Z)
        (normal beta : R -> R -> state rng R)
        (choice : list string -> state rng string)
        (today : Z) (g : rng)
        (request_day student_id : Z) (priority : string) (goal_h : R) :
  (0 <= student_id < 90)%Z ->
  let tables :=
    fst (runState (startup_tables rng poisson normal beta choice today) g) in
  let DF_STUD := fst (fst tables) in
  let DF_TRAJ := snd tables in
  exists plan,
    build_agent_plan request_day DF_TRAJ DF_STUD student_id priority goal_h
    = Ok plan
    /\ total_hours plan = goal_h.
Proof.
  intros Hid. cbn zeta.
  destruct (startup_tables_parts rng poisson normal beta choice today g)
    as [g1 [g2 ->]].
  cbn [fst snd].
  destruct (generated_learner_found rng normal beta N_STUDENTS DOMAINS g
                                    student_id)
    as [row [Hrow [_ [_ He]]]].
  { unfold N_STUDENTS. lia. }
  apply (build_agent_plan_total request_day _ _ student_id priority goal_h
                                row).
  - apply simulate_trajectories_micro.
  - exact Hrow.
  - exact He.
Qed.

(** X15. On the tables built at start-up, whatever the generator draws, the
    history of every learner id 0 .. 89 has a record in each of the five
    domains; the recommendation engine therefore returns a frame for every
    such learner, with every ability estimate taken from the history. *)
Theorem startup_recommendations
        (rng : Type) (poisson : R -> state rng Z)
        (normal beta : R -> R -> state rng R)
        (choice : list string -> state rng string)
        (today : Z) (g : rng)
        (sort_values_gap : list Candidate.t -> list Candidate.t)
        (student_id : Z) :
  (0 <= student_id < 90)%Z ->
  let tables :=
    fst (runState (startup_tables rng poisson normal beta choice today) g) in
  let DF_STUD := fst (fst tables) in
  let DF_ITEMS := snd (fst tables) in
  let DF_TRAJ := snd tables in
  (forall d, In d DOMAINS ->
     hist_of student_id d DF_TRAJ <> []
     /\ theta_d student_id DF_STUD DF_TRAJ d
        = Ok (clip ((mean (map Traj.micro_score
                               (hist_of student_id d DF_TRAJ)) - 0.5) / 0.2)
                   (-2.5) 2.5))
  /\ exists out,
      recommend_items sort_values_gap student_id DF_STUD DF_ITEMS DF_TRAJ
      = Ok out.
Proof.
  intros Hid. cbn zeta.
  destruct (startup_tables_parts rng poisson normal beta choice today g)
    as [g1 [g2 ->]].
  cbn [fst snd].
  destruct (generated_learner_found rng normal beta N_STUDENTS DOMAINS g
                                    student_id)
    as [row [_ [Hin [Hsid _]]]].
  { unfold N_STUDENTS. lia. }
  assert (Hhist : forall d, In d DOMAINS ->
            hist_of student_id d
              (fst (runState (simulate_trajectories rng poisson normal today
                       (fst (runState (simulate_students rng normal beta
                                                         N_STUDENTS DOMAINS)
                                      g))
                       DOMAINS HORIZON_DAYS) g2)) <> []).
  { intros d Hd.
    destruct (simulate_trajectories_cover rng poisson normal today
                (fst (runState (simulate_students rng normal beta
                                                  N_STUDENTS DOMAINS) g))
                DOMAINS HORIZON_DAYS g2 row d) as [rec [Hrec [Hrs Hrd]]];
      [unfold HORIZON_DAYS; lia | exact Hin | exact Hd |].
    intros Hnil.
    assert (Hmem : In rec (hist_of student_id d
                     (fst (runState (simulate_trajectories rng poisson normal
                              today
                              (fst (runState (simulate_students rng normal
                                                beta N_STUDENTS DOMAINS) g))
                              DOMAINS HORIZON_DAYS) g2)))).
    { unfold hist_of. apply filter_In. split; [exact Hrec|].
      apply andb_true_iff. split.
      - apply Z.eqb_eq. congruence.
      - now apply String.eqb_eq. }
    rewrite Hnil in Hmem. contradiction. }
  split.
  - intros d Hd. split; [now apply Hhist|].
    apply theta_d_history. now apply Hhist.
  - apply recommend_items_total. intros d Hd.
    apply theta_d_with_history. now apply Hhist.
Qed.

Lemma startup_plan_total_witness :
  let tables :=
    fst (runState (startup_tables nat counting_poisson centred_normal
                                  centred_normal
                                  (fun l => mkState (fun g => (hd "" l, g)))
                                  100) 0%nat) in
  exists plan,
    build_agent_plan 101 (snd tables) (fst (fst tables)) 5 "weak" 4 = Ok plan
    /\ total_hours plan = 4.
Proof.
  apply (startup_plan_total nat counting_poisson centred_normal centred_normal
                            (fun l => mkState (fun g => (hd "" l, g)))
                            100 0%nat 101 5 "weak" 4).
  lia.
Defined.

Lemma startup_recommendations_witness :
  let tables :=
    fst (runState (startup_tables nat counting_poisson centred_normal
                                  centred_normal
                                  (fun l => mkState (fun g => (hd "" l, g)))
                                  100) 0%nat) in
  exists out,
    recommend_items sort_values_gap_stable 89 (fst (fst tables))
                    (snd (fst tables)) (snd tables) = Ok out.
Proof.
  apply (startup_recommendations nat counting_poisson centred_normal
                                 centred_normal
                                 (fun l => mkState (fun g => (hd "" l, g)))
                                 100 0%nat sort_values_gap_stable 89).
  lia.
Defined.

(** * The mentor dashboard *)

(** ** Suggestions and tone *)

Lemma autonomy_band (p : Z) :
  ((p < 25)%Z /\ (p <? 25)%Z = true)
  \/ ((25 <= p < 50)%Z /\ (p <? 25)%Z = false /\ (p <? 50)%Z = true)
  \/ ((50 <= p < 75)%Z /\ (p <? 25)%Z = false /\ (p <? 50)%Z = false
      /\ (p <? 75)%Z = true)
  \/ ((75 <= p)%Z /\ (p <? 25)%Z = false /\ (p <? 50)%Z = false
      /\ (p <? 75)%Z = false).
Proof.
  destruct (Z.ltb_spec p 25); [left; split; [lia | reflexivity]|].
  destruct (Z.ltb_spec p 50); [right; left; repeat split; lia|].
  destruct (Z.ltb_spec p 75); [right; right; left; repeat split; lia|].
  right; right; right. repeat split; lia.
Qed.

(** X16. Whatever the slider holds, three suggestions are listed, and a
    missing value is read as 40.  Two values get the same suggestions
    exactly when the mentor takes the same tone for them: the four bands
    of the recommender and of the mentor's instruction coincide. *)
Theorem suggestions_follow_the_tone (autonomy_pct : option Z) (p q : Z) :
  List.length (Mentor.update_recommendations autonomy_pct) = 3%nat
  /\ Mentor.update_recommendations None
     = Mentor.update_recommendations (Some 40%Z)
  /\ (Mentor.update_recommendations (Some p)
      = Mentor.update_recommendations (Some q)
      <-> Mentor.base_instruction p = Mentor.base_instruction q).
Proof.
  split; [|split; [reflexivity|]].
  - unfold Mentor.update_recommendations.
    destruct autonomy_pct as [a|];
      [destruct (autonomy_band a) as [[_ H]|[[_ [H1 H2]]|[[_ [H1 [H2 H3]]]
                                                          |[_ [H1 [H2 H3]]]]]];
       rewrite ?H, ?H1, ?H2, ?H3|]; reflexivity.
  - unfold Mentor.update_recommendations, Mentor.base_instruction.
    destruct (autonomy_band p) as [[_ P]|[[_ [P1 P2]]|[[_ [P1 [P2 P3]]]
                                                       |[_ [P1 [P2 P3]]]]]];
      destruct (autonomy_band q) as [[_ Q]|[[_ [Q1 Q2]]|[[_ [Q1 [Q2 Q3]]]
                                                         |[_ [Q1 [Q2 Q3]]]]]];
      rewrite ?P, ?P1, ?P2, ?P3, ?Q, ?Q1, ?Q2, ?Q3;
      cbn [Mentor.get_default Mentor.RESOURCES_BY_LEVEL String.eqb Ascii.eqb
           Bool.eqb andb];
      split; intros H; try reflexivity; discriminate H.
Qed.

(** ** The guarded call, with a key *)

(** X17. Whatever the service does, the guarded call returns and does not
    raise.  An exception of the service comes back as the fixed notice with
    the text of the exception in it; an answer that is [None], has no
    choice or whose first choice has no message comes back as the fixed
    no-content notice.  The value is [None] instead of a text in one case
    only: a first choice whose message has no content. *)
Theorem safe_openai_call_outcomes
        (OPENAI_OK : bool)
        (chat_create : string -> list Chat.message -> Chat.outcome)
        (api_key : option string) (system_instruction : string)
        (history : list Chat.message) :
  exists value,
    safe_openai_call OPENAI_OK chat_create api_key system_instruction history
    = Ok value
    /\ (forall k, OPENAI_OK = true -> api_key = Some k -> k <> "" ->
          match chat_create k history with
          | Chat.Raises detail =>
              value
              = Some ("The digital mentor is active with OpenAI, but the call failed."
                        ++ newline ++ "Details: " ++ detail ++ newline
                        ++ "You can try again or check your key.")%string
          | Chat.Returns None => value = Some NO_CONTENT_MESSAGE
          | Chat.Returns (Some resp) =>
              match Chat.choices resp with
              | [] => value = Some NO_CONTENT_MESSAGE
              | c :: _ =>
                  match Chat.choice_message c with
                  | None => value = Some NO_CONTENT_MESSAGE
                  | Some m => value = Chat.reply_content m
                  end
              end
          end)
    /\ (value = None ->
        exists k resp c rest,
          api_key = Some k
          /\ chat_create k history = Chat.Returns (Some resp)
          /\ Chat.choices resp = c :: rest
          /\ Chat.choice_message c = Some (Chat.mk_reply None)).
Proof.
  unfold safe_openai_call.
  destruct OPENAI_OK; cbn [negb].
  2:{ eexists. split; [reflexivity|]. split; [discriminate | discriminate]. }
  destruct api_key as [k|]; cbn [truthy negb].
  2:{ eexists. split; [reflexivity|]. split; [discriminate | discriminate]. }
  destruct (String.eqb_spec k "") as [->|Hk]; cbn [negb].
  { eexists. split; [reflexivity|]. split; [|discriminate].
    intros k' _ Hk' Hne. inversion Hk'; subst. congruence. }
  destruct (chat_create k history) as [detail|[resp|]] eqn:Hc.
  - eexists. split; [reflexivity|]. split; [|discriminate].
    intros k' _ Hk' _. inversion Hk'; subst. now rewrite Hc.
  - destruct (Chat.choices resp) as [|c rest] eqn:Hch.
    + eexists. split; [reflexivity|]. split; [|discriminate].
      intros k' _ Hk' _. inversion Hk'; subst. now rewrite Hc, Hch.
    + destruct (Chat.choice_message c) as [m|] eqn:Hm.
      * eexists. split; [reflexivity|]. split.
        -- intros k' _ Hk' _. inversion Hk'; subst. now rewrite Hc, Hch, Hm.
        -- intros Hnone. exists k, resp, c, rest.
           repeat split; try assumption.
           destruct m as [content]. cbn in Hnone. now subst.
      * eexists. split; [reflexivity|]. split; [|discriminate].
        intros k' _ Hk' _. inversion Hk'; subst. now rewrite Hc, Hch, Hm.
  - eexists. split; [reflexivity|]. split; [|discriminate].
    intros k' _ Hk' _. inversion Hk'; subst. now rewrite Hc.
Qed.

(** ** The conversation *)

Lemma safe_openai_call_returns
      (OPENAI_OK : bool)
      (chat_create : string -> list Chat.message -> Chat.outcome)
      (api_key : option string) (system_instruction : string)
      (history : list Chat.message) :
  exists value,
    safe_openai_call OPENAI_OK chat_create api_key system_instruction history
    = Ok value.
Proof.
  unfold safe_openai_call.
  destruct (negb OPENAI_OK); [eauto|].
  destruct (negb (truthy api_key)); [eauto|].
  destruct (chat_create _ history) as [detail|[resp|]]; [eauto| |eauto].
  destruct (Chat.choices resp) as [|c rest]; [eauto|].
  destruct (Chat.choice_message c); eauto.
Qed.

Lemma last_n_length {A : Type} (n : nat) (l : list A) :
  List.length (Mentor.last_n n l) = Nat.min n (List.length l).
Proof. unfold Mentor.last_n. rewrite length_skipn. lia. Qed.

Lemma last_n_snoc {A : Type} (n : nat) (l : list A) (x : A) :
  exists l', Mentor.last_n (S n) (l ++ [x]) = l' ++ [x].
Proof.
  unfold Mentor.last_n. rewrite length_app. cbn [List.length].
  replace (List.length l + 1 - S n)%nat with (List.length l - n)%nat by lia.
  rewrite skipn_app.
  replace (List.length l - n - List.length l)%nat with 0%nat by lia.
  cbn [skipn]. now exists (skipn (List.length l - n) l).
Qed.


(** X18. A message that is missing, empty or blank once stripped leaves the
    conversation as it is.  Any other message is appended as it was typed,
    followed by one reply whose content is what the guarded call returned;
    nothing already in the conversation is changed or dropped, and the
    callback does not raise. *)
Theorem converse_with_mentor_appends
        (OPENAI_OK : bool)
        (chat_create : string -> list Chat.message -> Chat.outcome)
        (strip : string -> string) (round1 : R -> R)
        (float_text : R -> string)
        (t_user t_reply : string) (user_message : option string)
        (current_conversation : option (list Mentor.entry))
        (api_key_data : option (list (string * string)))
        (autonomy_pct student_id : option Z)
        (students_data : option (list Mentor.student))
        (current_resources : option (list Mentor.resource)) :
  let before := match current_conversation with
                | None => []
                | Some c => c
                end in
  let blank := match user_message with
               | None => true
               | Some m => String.eqb m "" || String.eqb (strip m) ""
               end in
  exists after,
    Mentor.converse_with_mentor OPENAI_OK chat_create strip round1 float_text
      t_user t_reply user_message current_conversation api_key_data
      autonomy_pct student_id students_data current_resources
    = Ok after
    /\ (blank = true -> after = before)
    /\ (blank = false ->
        exists message response,
          user_message = Some message
          /\ after
             = before
               ++ [Mentor.mk_entry "user" (Some message) t_user;
                   Mentor.mk_entry "assistant" response t_reply]).
Proof.
  cbn zeta. unfold Mentor.converse_with_mentor.
  destruct user_message as [message|].
  2:{ eexists. split; [reflexivity|]. split; [reflexivity | discriminate]. }
  destruct (String.eqb message "" || String.eqb (strip message) "").
  { eexists. split; [reflexivity|]. split; [reflexivity | discriminate]. }
  match goal with
  | |- context [safe_openai_call ?ok ?cc ?key ?sys ?hist] =>
      destruct (safe_openai_call_returns ok cc key sys hist)
        as [response Hcall];
      rewrite Hcall
  end.
  eexists. split; [reflexivity|]. split; [discriminate|].
  intros _. exists message, response. split; [reflexivity|].
  now rewrite <- app_assoc.
Qed.

Lemma converse_with_mentor_reply
      (OPENAI_OK : bool)
      (chat_create : string -> list Chat.message -> Chat.outcome)
      (strip : string -> string) (round1 : R -> R) (float_text : R -> string)
      (t_user t_reply message : string)
      (current_conversation : option (list Mentor.entry))
      (api_key_data : option (list (string * string)))
      (autonomy_pct student_id : option Z)
      (students_data : option (list Mentor.student))
      (current_resources : option (list Mentor.resource))
      (response : option string) :
  message <> "" -> strip message <> "" ->
  let before := match current_conversation with
                | None => []
                | Some c => c
                end in
  let api_key := match api_key_data with
                 | None | Some [] => ""
                 | Some d => match dict_get "api_key" d with
                             | Some k => k
                             | None => ""
                             end
                 end in
  let system_instruction :=
    Mentor.system_instruction_of round1 float_text autonomy_pct student_id
                                 students_data current_resources in
  safe_openai_call OPENAI_OK chat_create (Some api_key) system_instruction
    (Mentor.mentor_history system_instruction
       (before ++ [Mentor.mk_entry "user" (Some message) t_user]))
  = Ok response ->
  Mentor.converse_with_mentor OPENAI_OK chat_create strip round1 float_text
    t_user t_reply (Some message) current_conversation api_key_data
    autonomy_pct student_id students_data current_resources
  = Ok (before ++ [Mentor.mk_entry "user" (Some message) t_user;
                   Mentor.mk_entry "assistant" response t_reply]).
Proof.
  intros Hm Hs. cbn zeta. intros Hcall.
  unfold Mentor.converse_with_mentor.
  apply String.eqb_neq in Hm, Hs. rewrite Hm, Hs. cbn [orb].
  rewrite Hcall. cbn [bind Monad_result ret]. now rewrite <- app_assoc.
Qed.

(** X19. With no key saved (the key field left empty, or nothing stored at
    all) a message that is not blank is answered, without the service being
    asked, by the fixed notice to enter a key, or by the notice that the
    client library is missing when the import guard is off. *)
Theorem converse_without_key
        (OPENAI_OK : bool)
        (chat_create : string -> list Chat.message -> Chat.outcome)
        (strip : string -> string) (round1 : R -> R)
        (float_text : R -> string)
        (t_user t_reply message : string)
        (current_conversation : option (list Mentor.entry))
        (api_key_data : option (list (string * string)))
        (autonomy_pct student_id : option Z)
        (students_data : option (list Mentor.student))
        (current_resources : option (list Mentor.resource)) :
  message <> "" -> strip message <> "" ->
  api_key_data = None \/ api_key_data = Some []
  \/ api_key_data = Some (Mentor.save_api_key None)
  \/ api_key_data = Some (Mentor.save_api_key (Some "")) ->
  Mentor.converse_with_mentor OPENAI_OK chat_create strip round1 float_text
    t_user t_reply (Some message) current_conversation api_key_data
    autonomy_pct student_id students_data current_resources
  = Ok (match current_conversation with None => [] | Some c => c end
        ++ [Mentor.mk_entry "user" (Some message) t_user;
            Mentor.mk_entry "assistant"
              (Some (if OPENAI_OK then NO_KEY_MESSAGE else NO_LIBRARY_MESSAGE))
              t_reply]).
Proof.
  intros Hm Hs Hkey.
  apply converse_with_mentor_reply; [exact Hm | exact Hs |].
  assert (Hempty : match api_key_data with
                   | None | Some [] => ""
                   | Some d => match dict_get "api_key" d with
                               | Some k => k
                               | None => ""
                               end
                   end = "").
  { destruct Hkey as [->|[->|[->| ->]]]; reflexivity. }
  rewrite Hempty. unfold safe_openai_call. cbn [truthy String.eqb negb].
  now destruct OPENAI_OK.
Qed.

Lemma converse_without_key_witness :
  Mentor.converse_with_mentor true (fun _ _ => Chat.Raises "unreachable")
    (fun s => s) (fun v => v) (fun _ => "0.0") "10:00" "10:01" (Some "Hello")
    None (Some (Mentor.save_api_key None)) (Some 40%Z) (Some 1%Z) None None
  = Ok [Mentor.mk_entry "user" (Some "Hello") "10:00";
        Mentor.mk_entry "assistant" (Some NO_KEY_MESSAGE) "10:01"].
Proof.
  apply (converse_without_key true (fun _ _ => Chat.Raises "unreachable")
           (fun s => s) (fun v => v) (fun _ => "0.0") "10:00" "10:01" "Hello"
           None (Some (Mentor.save_api_key None)) (Some 40%Z) (Some 1%Z)
           None None).
  - discriminate.
  - discriminate.
  - right. right. left. reflexivity.
Defined.

(** X20. The history sent with a message holds the system instruction
    first, then at most the last six entries of the conversation, the
    message just typed being the last one: never more than seven messages,
    and after the first every role is "user" or "assistant". *)
Theorem mentor_history_shape
        (system_instruction message t_user : string)
        (conversation : list Mentor.entry) :
  let history :=
    Mentor.mentor_history system_instruction
      (conversation ++ [Mentor.mk_entry "user" (Some message) t_user]) in
  List.length history = S (Nat.min 6 (S (List.length conversation)))
  /\ (List.length history <= 7)%nat
  /\ hd_error history = Some (Chat.mk_message "system" system_instruction)
  /\ last history (Chat.mk_message "" "") = Chat.mk_message "user" message
  /\ Forall (fun m => Chat.role m = "user" \/ Chat.role m = "assistant")
            (tl history).
Proof.
  cbn zeta. unfold Mentor.mentor_history.
  set (send := fun m : Mentor.entry =>
                 let text := match Mentor.content m with
                             | Some s => s
                             | None => ""
                             end in
                 if String.eqb (Mentor.role m) "user"
                 then Chat.mk_message "user" text
                 else Chat.mk_message "assistant" text).
  set (entry := Mentor.mk_entry "user" (Some message) t_user).
  assert (Hlen : List.length (map send (Mentor.last_n 6 (conversation ++ [entry])))
                 = Nat.min 6 (S (List.length conversation))).
  { rewrite length_map, last_n_length, length_app. cbn [List.length].
    f_equal. lia. }
  split; [change (List.length (?a :: ?l)) with (S (List.length l));
          now rewrite Hlen|].
  split; [change (List.length (?a :: ?l)) with (S (List.length l));
          rewrite Hlen; lia|].
  split; [reflexivity|]. split.
  - destruct (last_n_snoc 5 conversation entry) as [l' ->].
    rewrite map_app.
    change (map send [entry]) with [Chat.mk_message "user" message].
    change (?a :: ?l ++ [?z]) with ((a :: l) ++ [z]).
    apply last_last.
  - cbn [tl]. apply Forall_map. apply Forall_forall. intros m _.
    unfold send. cbn zeta.
    destruct (String.eqb (Mentor.role m) "user"); cbn; auto.
Qed.

(** ** Simulated progress of the cohort *)

Lemma set_nth_length {A : Type} (n : nat) (v : A) (l : list A) :
  List.length (Mentor.set_nth n v l) = List.length l.
Proof.
  revert n. induction l as [|x l IH]; intros [|n]; cbn; auto.
Qed.

Lemma set_nth_other {A : Type} (n j : nat) (v : A) (l : list A) :
  j <> n -> nth_error (Mentor.set_nth n v l) j = nth_error l j.
Proof.
  revert n j. induction l as [|x l IH]; intros [|n] [|j] Hj; cbn; auto;
    congruence.
Qed.

Lemma set_nth_Forall2 {A : Type} (P : A -> A -> Prop) (n : nat) (v x : A)
      (l : list A) :
  (forall y, P y y) -> nth_error l n = Some x -> P x v ->
  Forall2 P l (Mentor.set_nth n v l).
Proof.
  intros Hrefl. revert n. induction l as [|y l IH]; intros [|n] Hn Hv;
    cbn in *; try discriminate.
  - inversion Hn; subst. constructor; [exact Hv|].
    clear - Hrefl. induction l; constructor; auto.
  - constructor; [apply Hrefl | now apply IH].
Qed.

Section StudentUpdates.
Variable rng : Type.
Variable randint : Z -> Z -> state rng Z.
Variable uniform : R -> R -> state rng R.
Variable round1 : R -> R.

Hypothesis randint_range :
  forall lo hi g, (lo <= hi)%Z ->
                  (lo <= fst (runState (randint lo hi) g) <= hi)%Z.
Hypothesis uniform_range :
  forall lo hi g, lo <= hi -> lo <= fst (runState (uniform lo hi) g) <= hi.

(** One update, spelled out: the student picked and the two increments. *)
Lemma simulate_student_updates_run (now : string)
      (initial : list Mentor.student)
      (students : option (list Mentor.student))
      (autonomy_log : option (list Mentor.event)) (g : rng) :
  let cohort := match students with None => initial | Some s => s end in
  let log := match autonomy_log with None => [] | Some l => l end in
  cohort <> [] ->
  exists i st u_progress u_autonomy,
    nth_error cohort i = Some st
    /\ 0 <= u_progress <= 0.03 /\ 0 <= u_autonomy <= 0.015
    /\ let st' := Mentor.mk_student
                    (Mentor.id st) (Mentor.name st) (Mentor.module st)
                    (Rmin (Mentor.progress st + u_progress) 1.0)
                    (Rmin (Mentor.autonomy st + u_autonomy) 1.0)
                    (Mentor.difficulty st) in
       let cohort' := Mentor.set_nth i st' cohort in
       fst (runState (Mentor.simulate_student_updates rng randint uniform
                        round1 now initial students autonomy_log) g)
       = inr (cohort',
              head 30 (Mentor.mk_event (Mentor.name st) now
                         (round1 (Mentor.autonomy st' * 100)) :: log),
              match students with None => cohort' | Some _ => initial end).
Proof.
  cbn zeta. intros Hne. unfold Mentor.simulate_student_updates.
  set (cohort := match students with None => initial | Some s => s end) in *.
  assert (Hlen : (0 < List.length cohort)%nat)
    by (destruct cohort; [congruence | cbn; lia]).
  destruct (Nat.eqb_spec (List.length cohort) 0) as [Hz|_]; [lia|].
  cbn [bind Monad_state runState].
  pose proof (randint_range 0 (Z.of_nat (List.length cohort) - 1) g
                            ltac:(lia)) as Hidx.
  destruct (runState (randint 0 (Z.of_nat (List.length cohort) - 1)) g)
    as [idx g1].
  cbn [fst] in Hidx.
  assert (Hpos : Mentor.position (List.length cohort) idx
                 = Some (Z.to_nat idx)).
  { unfold Mentor.position.
    destruct (Z.leb_spec 0 idx); [|lia].
    destruct (Z.ltb_spec idx (Z.of_nat (List.length cohort))); [reflexivity|].
    lia. }
  rewrite Hpos.
  destruct (nth_error cohort (Z.to_nat idx)) as [st|] eqn:Hst.
  2:{ apply nth_error_None in Hst. lia. }
  cbn [bind Monad_state runState].
  pose proof (uniform_range 0.0 0.03 g1 ltac:(lra)) as Hu1.
  destruct (runState (uniform 0.0 0.03) g1) as [u1 g2]. cbn [fst] in Hu1.
  pose proof (uniform_range 0.0 0.015 g2 ltac:(lra)) as Hu2.
  destruct (runState (uniform 0.0 0.015) g2) as [u2 g3]. cbn [fst] in Hu2.
  exists (Z.to_nat idx), st, u1, u2.
  split; [exact Hst|]. split; [lra|]. split; [lra|].
  reflexivity.
Qed.

End StudentUpdates.

(** X21. An update of a non-empty cohort, with [randint] and [uniform]
    drawing within their bounds, returns the cohort with the same students
    in the same places: ids, names, modules and difficulties are kept,
    progress and autonomy do not decrease and stay at most 1, and at most
    one student is changed.  When the store held [None] the module-level
    list itself is the updated cohort; otherwise it is untouched. *)
Theorem student_update_keeps_cohort
        (rng : Type) (randint : Z -> Z -> state rng Z)
        (uniform : R -> R -> state rng R) (round1 : R -> R)
        (randint_range :
           forall lo hi g, (lo <= hi)%Z ->
                           (lo <= fst (runState (randint lo hi) g) <= hi)%Z)
        (uniform_range :
           forall lo hi g, lo <= hi ->
                           lo <= fst (runState (uniform lo hi) g) <= hi)
        (now : string) (initial : list Mentor.student)
        (students : option (list Mentor.student))
        (autonomy_log : option (list Mentor.event)) (g : rng) :
  let cohort := match students with None => initial | Some s => s end in
  cohort <> [] ->
  exists cohort' log' initial',
    fst (runState (Mentor.simulate_student_updates rng randint uniform round1
                     now initial students autonomy_log) g)
    = inr (cohort', log', initial')
    /\ Forall2 (fun s s' =>
                  Mentor.id s' = Mentor.id s
                  /\ Mentor.name s' = Mentor.name s
                  /\ Mentor.module s' = Mentor.module s
                  /\ Mentor.difficulty s' = Mentor.difficulty s
                  /\ (Mentor.progress s <= 1 ->
                      Mentor.progress s <= Mentor.progress s' <= 1)
                  /\ (Mentor.autonomy s <= 1 ->
                      Mentor.autonomy s <= Mentor.autonomy s' <= 1))
               cohort cohort'
    /\ (exists i, forall j, j <> i ->
                            nth_error cohort' j = nth_error cohort j)
    /\ initial' = match students with None => cohort' | Some _ => initial end.
Proof.
  cbn zeta. intros Hne.
  destruct (simulate_student_updates_run rng randint uniform round1
              randint_range uniform_range now initial students autonomy_log g
              Hne)
    as [i [st [u1 [u2 [Hst [Hu1 [Hu2 Hrun]]]]]]].
  cbn zeta in Hrun. rewrite Hrun.
  eexists _, _, _. split; [reflexivity|]. split; [|split; [|reflexivity]].
  - eapply set_nth_Forall2; [|exact Hst|].
    + intros s. repeat split; lra.
    + cbn. do 4 (split; [reflexivity|]).
      split; intros Hle; unfold Rmin; destruct (Rle_dec _ _); split; lra.
  - exists i. intros j Hj. now apply set_nth_other.
Qed.

(** X22. The same update puts one event in front of the log, named after a
    student of the cohort, and keeps the 29 most recent of the events that
    were there, in their order: the log never holds more than 30 events. *)
Theorem student_update_log
        (rng : Type) (randint : Z -> Z -> state rng Z)
        (uniform : R -> R -> state rng R) (round1 : R -> R)
        (randint_range :
           forall lo hi g, (lo <= hi)%Z ->
                           (lo <= fst (runState (randint lo hi) g) <= hi)%Z)
        (uniform_range :
           forall lo hi g, lo <= hi ->
                           lo <= fst (runState (uniform lo hi) g) <= hi)
        (now : string) (initial : list Mentor.student)
        (students : option (list Mentor.student))
        (autonomy_log : option (list Mentor.event)) (g : rng) :
  let cohort := match students with None => initial | Some s => s end in
  let log := match autonomy_log with None => [] | Some l => l end in
  cohort <> [] ->
  exists cohort' log' initial' e,
    fst (runState (Mentor.simulate_student_updates rng randint uniform round1
                     now initial students autonomy_log) g)
    = inr (cohort', log', initial')
    /\ log' = e :: firstn 29 log
    /\ In (Mentor.event_name e) (map Mentor.name cohort)
    /\ Mentor.event_timestamp e = now
    /\ List.length log' = Nat.min 30 (S (List.length log))
    /\ (List.length log' <= 30)%nat.
Proof.
  cbn zeta. intros Hne.
  destruct (simulate_student_updates_run rng randint uniform round1
              randint_range uniform_range now initial students autonomy_log g
              Hne)
    as [i [st [u1 [u2 [Hst [Hu1 [Hu2 Hrun]]]]]]].
  cbn zeta in Hrun. rewrite Hrun.
  eexists _, _, _, _. split; [reflexivity|].
  rewrite head_nonneg by lia.
  change (Z.to_nat 30) with 30%nat. rewrite firstn_cons.
  split; [reflexivity|]. split; [|split; [reflexivity|]].
  - cbn [Mentor.event_name]. apply in_map. eapply nth_error_In. exact Hst.
  - cbn [List.length]. rewrite length_firstn. split; lia.
Qed.

(** X23. With an empty cohort (a store holding the empty list, or [None]
    when the module-level list is empty) the update raises [ValueError]
    before anything is drawn, and so does the scatter, which has no point
    to draw; the cards show "No data" and the panel finds no student. *)
Theorem student_update_empty_cohort
        (rng : Type) (randint : Z -> Z -> state rng Z)
        (uniform : R -> R -> state rng R) (round1 : R -> R)
        (now : string) (initial : list Mentor.student)
        (students : option (list Mentor.student))
        (autonomy_log : option (list Mentor.event)) (g : rng)
        (selected_id : option Z) (filtered_modules : option (list string)) :
  match students with None => initial | Some s => s end = [] ->
  runState (Mentor.simulate_student_updates rng randint uniform round1 now
              initial students autonomy_log) g
  = (inl Mentor.ValueError, g)
  /\ Mentor.update_main_scatter initial students selected_id filtered_modules
     = inl Mentor.ValueError
  /\ Mentor.update_header_cards round1 students = Mentor.NoData
  /\ Mentor.show_student_info round1 initial selected_id students
     = Mentor.StudentNotFound.
Proof.
  intros Hempty. split; [|split; [|split]].
  - unfold Mentor.simulate_student_updates. rewrite Hempty. reflexivity.
  - unfold Mentor.update_main_scatter. rewrite Hempty.
    destruct filtered_modules as [[|m ms]|]; reflexivity.
  - destruct students as [s|]; [cbn in Hempty; subst s|]; reflexivity.
  - unfold Mentor.show_student_info. rewrite Hempty. reflexivity.
Qed.

Lemma lowest_randint_range (lo hi : Z) (g : nat) :
  (lo <= hi)%Z -> (lo <= fst (runState (lowest_randint lo hi) g) <= hi)%Z.
Proof. cbn. lia. Qed.

Lemma lowest_uniform_range (lo hi : R) (g : nat) :
  lo <= hi -> lo <= fst (runState (lowest_uniform lo hi) g) <= hi.
Proof. cbn. lra. Qed.

Lemma student_update_keeps_cohort_witness :
  exists cohort' log' initial',
    fst (runState (Mentor.simulate_student_updates
                     nat lowest_randint lowest_uniform (fun v => v) "10:00:00"
                     Mentor.INITIAL_STUDENTS None None) 0%nat)
    = inr (cohort', log', initial')
    /\ initial' = cohort'.
Proof.
  destruct (student_update_keeps_cohort
              nat lowest_randint lowest_uniform (fun v => v)
              lowest_randint_range lowest_uniform_range "10:00:00"
              Mentor.INITIAL_STUDENTS None None 0%nat)
    as [cohort' [log' [initial' [Hrun [_ [_ Halias]]]]]].
  - discriminate.
  - exists cohort', log', initial'. split; [exact Hrun | exact Halias].
Defined.

Lemma student_update_log_witness :
  exists cohort' log' initial',
    fst (runState (Mentor.simulate_student_updates
                     nat lowest_randint lowest_uniform (fun v => v) "10:00:00"
                     Mentor.INITIAL_STUDENTS None None) 0%nat)
    = inr (cohort', log', initial')
    /\ List.length log' = 1%nat.
Proof.
  destruct (student_update_log
              nat lowest_randint lowest_uniform (fun v => v)
              lowest_randint_range lowest_uniform_range "10:00:00"
              Mentor.INITIAL_STUDENTS None None 0%nat)
    as [cohort' [log' [initial' [e [Hrun [_ [_ [_ [Hlen _]]]]]]]]].
  - discriminate.
  - exists cohort', log', initial'. split; [exact Hrun | exact Hlen].
Defined.

Lemma student_update_empty_cohort_witness :
  runState (Mentor.simulate_student_updates
              nat lowest_randint lowest_uniform (fun v => v) "10:00:00"
              Mentor.INITIAL_STUDENTS (Some []) None) 0%nat
  = (inl Mentor.ValueError, 0%nat)
  /\ Mentor.update_main_scatter Mentor.INITIAL_STUDENTS (Some []) (Some 1%Z)
                                None
     = inl Mentor.ValueError
  /\ Mentor.update_header_cards (fun v => v) (Some []) = Mentor.NoData
  /\ Mentor.show_student_info (fun v => v) Mentor.INITIAL_STUDENTS
                              (Some 1%Z) (Some [])
     = Mentor.StudentNotFound.
Proof.
  apply (student_update_empty_cohort
           nat lowest_randint lowest_uniform (fun v => v) "10:00:00"
           Mentor.INITIAL_STUDENTS (Some []) None 0%nat (Some 1%Z) None).
  reflexivity.
Defined.

(** ** What the panels show after an update *)

Lemma find_Forall2 {A : Type} (f : A -> bool) (Q : A -> A -> Prop)
      (l l' : list A) :
  Forall2 (fun a b => f b = f a /\ Q a b) l l' ->
  match find f l, find f l' with
  | Some a, Some b => Q a b
  | None, None => True
  | _, _ => False
  end.
Proof.
  induction 1 as [|a b l l' [Hf HQ] _ IH]; cbn; [exact I|].
  rewrite Hf. destruct (f a); [exact HQ | exact IH].
Qed.

(** X24. After an update the student panel shows, for any id, what it
    showed before as to who is found: an id that had no student still has
    none (the panel says "Student not found"), and a student that was found
    is found again, with the same module. *)
Theorem student_panel_after_update
        (rng : Type) (randint : Z -> Z -> state rng Z)
        (uniform : R -> R -> state rng R) (round1 : R -> R)
        (randint_range :
           forall lo hi g, (lo <= hi)%Z ->
                           (lo <= fst (runState (randint lo hi) g) <= hi)%Z)
        (uniform_range :
           forall lo hi g, lo <= hi ->
                           lo <= fst (runState (uniform lo hi) g) <= hi)
        (now : string) (initial cohort : list Mentor.student)
        (autonomy_log : option (list Mentor.event)) (g : rng)
        (student_id : option Z) :
  cohort <> [] ->
  exists cohort' log' initial',
    fst (runState (Mentor.simulate_student_updates rng randint uniform round1
                     now initial (Some cohort) autonomy_log) g)
    = inr (cohort', log', initial')
    /\ match Mentor.show_student_info round1 initial student_id (Some cohort),
             Mentor.show_student_info round1 initial' student_id
                                      (Some cohort')
       with
       | Mentor.StudentNotFound, Mentor.StudentNotFound => True
       | Mentor.StudentInfo m _ _, Mentor.StudentInfo m' _ _ => m' = m
       | _, _ => False
       end.
Proof.
  intros Hne.
  destruct (simulate_student_updates_run rng randint uniform round1
              randint_range uniform_range now initial (Some cohort)
              autonomy_log g Hne)
    as [i [st [u1 [u2 [Hst [Hu1 [Hu2 Hrun]]]]]]].
  cbn zeta in Hrun. rewrite Hrun.
  eexists _, _, _. split; [reflexivity|].
  unfold Mentor.show_student_info, Mentor.find_student.
  match goal with
  | |- context [find ?f (Mentor.set_nth i ?v cohort)] =>
      pose proof (find_Forall2 f
                    (fun a b => Mentor.module b = Mentor.module a)
                    cohort (Mentor.set_nth i v cohort)) as Hfind
  end.
  cbn beta in Hfind.
  match type of Hfind with
  | ?P -> _ => assert (Hrel : P)
  end.
  { eapply set_nth_Forall2; [|exact Hst|].
    - intros s. split; reflexivity.
    - cbn. split; reflexivity. }
  specialize (Hfind Hrel). clear Hrel.
  destruct (find _ cohort), (find _ (Mentor.set_nth i _ cohort));
    try contradiction; auto.
Qed.

Lemma student_panel_after_update_witness :
  exists cohort' log' initial',
    fst (runState (Mentor.simulate_student_updates
                     nat lowest_randint lowest_uniform (fun v => v) "10:00:00"
                     Mentor.INITIAL_STUDENTS (Some Mentor.INITIAL_STUDENTS)
                     None) 0%nat)
    = inr (cohort', log', initial').
Proof.
  destruct (student_panel_after_update
              nat lowest_randint lowest_uniform (fun v => v)
              lowest_randint_range lowest_uniform_range "10:00:00"
              Mentor.INITIAL_STUDENTS Mentor.INITIAL_STUDENTS None 0%nat
              (Some 9%Z))
    as [cohort' [log' [initial' [Hrun _]]]].
  - discriminate.
  - now exists cohort', log', initial'.
Defined.

(** ** Values between 0 and 1 *)

(** X25. Progress and autonomy of every student of [INITIAL_STUDENTS] lie
    between 0 and 1, and an update (with [randint] and [uniform] drawing
    within their bounds) of a cohort of which this holds returns a cohort
    of which it holds. *)
Theorem cohort_values_in_range
        (rng : Type) (randint : Z -> Z -> state rng Z)
        (uniform : R -> R -> state rng R) (round1 : R -> R)
        (randint_range :
           forall lo hi g, (lo <= hi)%Z ->
                           (lo <= fst (runState (randint lo hi) g) <= hi)%Z)
        (uniform_range :
           forall lo hi g, lo <= hi ->
                           lo <= fst (runState (uniform lo hi) g) <= hi)
        (now : string) (initial : list Mentor.student)
        (students : option (list Mentor.student))
        (autonomy_log : option (list Mentor.event)) (g : rng) :
  Forall (fun s => 0 <= Mentor.progress s <= 1 /\ 0 <= Mentor.autonomy s <= 1)
         Mentor.INITIAL_STUDENTS
  /\ (Forall (fun s => 0 <= Mentor.progress s <= 1
                       /\ 0 <= Mentor.autonomy s <= 1)
             (match students with None => initial | Some s => s end) ->
      forall cohort' log' initial',
        fst (runState (Mentor.simulate_student_updates rng randint uniform
                         round1 now initial students autonomy_log) g)
        = inr (cohort', log', initial') ->
        Forall (fun s => 0 <= Mentor.progress s <= 1
                         /\ 0 <= Mentor.autonomy s <= 1) cohort').
Proof.
  split.
  - unfold Mentor.INITIAL_STUDENTS. repeat constructor; cbn; lra.
  - intros Hrange cohort' log' initial' Hrun.
    destruct (match students with None => initial | Some s => s end)
      as [|s0 rest] eqn:Hcohort.
    + unfold Mentor.simulate_student_updates in Hrun.
      rewrite Hcohort in Hrun. discriminate.
    + destruct (simulate_student_updates_run rng randint uniform round1
                  randint_range uniform_range now initial students
                  autonomy_log g)
        as [i [st [u1 [u2 [Hst [Hu1 [Hu2 Hrun']]]]]]].
      { rewrite Hcohort. discriminate. }
      cbn zeta in Hrun'. rewrite Hrun' in Hrun. inversion Hrun; subst.
      rewrite Hcohort in *.
      assert (Hst_range : 0 <= Mentor.progress st <= 1
                          /\ 0 <= Mentor.autonomy st <= 1).
      { rewrite Forall_forall in Hrange. apply Hrange.
        eapply nth_error_In. exact Hst. }
      clear Hrun Hrun'.
      assert (Hrel : Forall2 (fun a b =>
                                (0 <= Mentor.progress a <= 1
                                 /\ 0 <= Mentor.autonomy a <= 1) ->
                                0 <= Mentor.progress b <= 1
                                /\ 0 <= Mentor.autonomy b <= 1)
                             (s0 :: rest)
                             (Mentor.set_nth i
                                (Mentor.mk_student
                                   (Mentor.id st) (Mentor.name st)
                                   (Mentor.module st)
                                   (Rmin (Mentor.progress st + u1) 1.0)
                                   (Rmin (Mentor.autonomy st + u2) 1.0)
                                   (Mentor.difficulty st))
                                (s0 :: rest))).
      { eapply set_nth_Forall2; [|exact Hst|].
        - intros s H. exact H.
        - intros _. cbn. unfold Rmin.
          destruct (Rle_dec _ _), (Rle_dec _ _); lra. }
      clear Hst Hcohort. revert Hrange.
      induction Hrel as [|a b l l' Hab _ IH]; intros Hrange; [constructor|].
      inversion Hrange; subst. constructor; auto.
Qed.

Lemma cohort_values_in_range_witness :
  exists cohort' log' initial',
    fst (runState (Mentor.simulate_student_updates
                     nat lowest_randint lowest_uniform (fun v => v) "10:00:00"
                     Mentor.INITIAL_STUDENTS None None) 0%nat)
    = inr (cohort', log', initial')
    /\ Forall (fun s => 0 <= Mentor.progress s <= 1
                        /\ 0 <= Mentor.autonomy s <= 1) cohort'.
Proof.
  eexists _, _, _. split; [reflexivity|].
  pose proof (cohort_values_in_range
                nat lowest_randint lowest_uniform (fun v => v)
                lowest_randint_range lowest_uniform_range "10:00:00"
                Mentor.INITIAL_STUDENTS None None 0%nat) as [Hinit Hstep].
  eapply Hstep; [exact Hinit | reflexivity].
Defined.

(** ** The scatter and the header cards *)

Lemma scatter_point_of (s : Mentor.student) (selected_id : option Z) :
  0 <= Mentor.progress s <= 1 /\ 0 <= Mentor.autonomy s <= 1 ->
  let p := Mentor.mk_point
             (Mentor.progress s * 100) (Mentor.autonomy s * 100 / 10)
             (Mentor.name s)
             (Mentor.get_default (Mentor.module s) "#94a3b8"
                                 Mentor.MOD_COLOR_MAP)
             (match selected_id with
              | Some i => if (Mentor.id s =? i)%Z then 28%Z else 18%Z
              | None => 18%Z
              end) in
  0 <= Mentor.x p <= 100 /\ 0 <= Mentor.y p <= 10
  /\ (Mentor.size p = 28%Z <-> selected_id = Some (Mentor.id s))
  /\ (Mentor.size p = 28%Z \/ Mentor.size p = 18%Z).
Proof.
  intros [Hp Ha]. cbn. repeat split; try lra.
  - destruct selected_id as [i|]; [|discriminate].
    destruct (Z.eqb_spec (Mentor.id s) i); [congruence | discriminate].
  - intros ->. rewrite Z.eqb_refl. reflexivity.
  - destruct selected_id as [i|]; [|now right].
    destruct (Mentor.id s =? i)%Z; [now left | now right].
Qed.

(** X26. The scatter raises [ValueError] exactly when it has no student to
    draw: the cohort is empty, or no student is of a selected module.
    Otherwise, when progress and autonomy of every student lie between 0
    and 1, every point of the scatter lies within the axes the figure is
    given (0 to 100 across, 0 to 10 up); each point is a student of the
    cohort under the student's name, of size 28 exactly when the student is
    the selected one and of size 18 otherwise, and, when modules are
    selected, a student of one of them. *)
Theorem scatter_within_axes
        (initial : list Mentor.student)
        (students : option (list Mentor.student))
        (selected_id : option Z) (filtered_modules : option (list string)) :
  Forall (fun s => 0 <= Mentor.progress s <= 1 /\ 0 <= Mentor.autonomy s <= 1)
         (match students with None => initial | Some s => s end) ->
  match Mentor.update_main_scatter initial students selected_id
                                   filtered_modules with
  | inl e =>
      e = Mentor.ValueError
      /\ forall s,
          In s (match students with None => initial | Some s => s end) ->
          exists m ms, filtered_modules = Some (m :: ms)
                       /\ ~ In (Mentor.module s) (m :: ms)
  | inr points =>
      points <> []
      /\ Forall (fun p =>
                   0 <= Mentor.x p <= 100 /\ 0 <= Mentor.y p <= 10
                   /\ exists s,
                       In s (match students with
                             | None => initial
                             | Some s => s
                             end)
                       /\ Mentor.hover_name p = Mentor.name s
                       /\ (Mentor.size p = 28%Z
                           <-> selected_id = Some (Mentor.id s))
                       /\ (Mentor.size p = 28%Z \/ Mentor.size p = 18%Z)
                       /\ (forall m ms, filtered_modules = Some (m :: ms) ->
                                        In (Mentor.module s) (m :: ms)))
                points
  end.
Proof.
  intros Hrange. rewrite Forall_forall in Hrange.
  unfold Mentor.update_main_scatter.
  set (cohort := match students with None => initial | Some s => s end) in *.
  set (filtered := match filtered_modules with
                   | None | Some [] => cohort
                   | Some modules =>
                       filter (fun s => existsb (String.eqb (Mentor.module s))
                                                modules) cohort
                   end).
  assert (Hfiltered :
            forall s, In s filtered <->
                      In s cohort
                      /\ (forall m ms, filtered_modules = Some (m :: ms) ->
                                       In (Mentor.module s) (m :: ms))).
  { intros s. subst filtered. destruct filtered_modules as [[|m ms]|].
    - split; [intros H; split; [exact H | discriminate] | tauto].
    - rewrite filter_In, existsb_exists. split.
      + intros [Hs [k [Hk Heqb]]]. split; [exact Hs|].
        intros m' ms' Heq. inversion Heq; subst.
        apply String.eqb_eq in Heqb. rewrite Heqb. exact Hk.
      + intros [Hs Hmod]. split; [exact Hs|].
        exists (Mentor.module s). split; [now apply Hmod|].
        apply String.eqb_refl.
    - split; [intros H; split; [exact H | discriminate] | tauto]. }
  destruct filtered as [|s0 rest] eqn:Hf.
  - split; [reflexivity|]. intros s Hs.
    destruct filtered_modules as [[|m ms]|].
    + exfalso. apply (proj2 (Hfiltered s)).
      split; [exact Hs | discriminate].
    + exists m, ms. split; [reflexivity|]. intros Hmod.
      apply (proj2 (Hfiltered s)). split; [exact Hs|].
      intros m' ms' Heq. inversion Heq; subst. exact Hmod.
    + exfalso. apply (proj2 (Hfiltered s)).
      split; [exact Hs | discriminate].
  - split; [discriminate|].
    apply Forall_forall. intros p Hp. apply in_map_iff in Hp.
    destruct Hp as [s [Hp Hs]].
    apply Hfiltered in Hs. destruct Hs as [Hin Hmods].
    destruct (scatter_point_of s selected_id (Hrange s Hin))
      as [Hx [Hy [Hsel Hsize]]].
    subst p. repeat split; try apply Hx; try apply Hy.
    exists s. repeat split; try exact Hin; try apply Hsel; try exact Hsize;
      try exact Hmods.
Qed.

Lemma scatter_within_axes_witness :
  match Mentor.update_main_scatter
          Mentor.INITIAL_STUDENTS None (Some 2%Z)
          (Some ["Programming I"; "Linear Algebra"]) with
  | inl e =>
      e = Mentor.ValueError
      /\ forall s,
          In s Mentor.INITIAL_STUDENTS ->
          exists m ms, Some ["Programming I"; "Linear Algebra"]
                       = Some (m :: ms)
                       /\ ~ In (Mentor.module s) (m :: ms)
  | inr points =>
      points <> []
      /\ Forall (fun p =>
                   0 <= Mentor.x p <= 100 /\ 0 <= Mentor.y p <= 10
                   /\ exists s,
                       In s Mentor.INITIAL_STUDENTS
                       /\ Mentor.hover_name p = Mentor.name s
                       /\ (Mentor.size p = 28%Z
                           <-> Some 2%Z = Some (Mentor.id s))
                       /\ (Mentor.size p = 28%Z \/ Mentor.size p = 18%Z)
                       /\ (forall m ms,
                              Some ["Programming I"; "Linear Algebra"]
                              = Some (m :: ms) ->
                              In (Mentor.module s) (m :: ms)))
                points
  end.
Proof.
  apply (scatter_within_axes Mentor.INITIAL_STUDENTS None (Some 2%Z)
           (Some ["Programming I"; "Linear Algebra"])).
  unfold Mentor.INITIAL_STUDENTS. repeat constructor; cbn; lra.
Defined.

Lemma sum_unit_interval (l : list R) :
  Forall (fun v => 0 <= v <= 1) l -> 0 <= sum l <= INR (List.length l).
Proof.
  induction 1 as [|v l Hv _ IH].
  - cbn. lra.
  - change (sum (v :: l)) with (v + sum l).
    change (List.length (v :: l)) with (S (List.length l)).
    rewrite S_INR. lra.
Qed.

Lemma percent_of_mean (total n : R) :
  0 < n -> 0 <= total <= n -> 0 <= total / n * 100 <= 100.
Proof.
  intros Hn [Hlo Hhi].
  assert (H0 : 0 <= total / n).
  { apply Rmult_le_pos; [exact Hlo|]. left. apply Rinv_0_lt_compat. exact Hn. }
  assert (H1 : total / n <= 1).
  { apply (Rmult_le_reg_r n); [exact Hn|].
    unfold Rdiv. rewrite Rmult_assoc, Rinv_l; lra. }
  lra.
Qed.

(** X27. The header cards show "No data" exactly for a store that holds
    [None] or the empty list; for any other cohort whose progress and
    autonomy lie between 0 and 1 they show the number of students and two
    averages between 0 and 100 ([round1] taken monotone and exact at 0 and
    at 100, as Python's [round(_, 1)] is). *)
Theorem header_cards_percentages
        (round1 : R -> R)
        (round1_monotone : forall a b, a <= b -> round1 a <= round1 b)
        (round1_0 : round1 0 = 0) (round1_100 : round1 100 = 100)
        (students : option (list Mentor.student)) :
  (forall l, students = Some l ->
             Forall (fun s => 0 <= Mentor.progress s <= 1
                              /\ 0 <= Mentor.autonomy s <= 1) l) ->
  match Mentor.update_header_cards round1 students with
  | Mentor.NoData => students = None \/ students = Some []
  | Mentor.Averages mean_autonomy mean_progress n =>
      exists l, students = Some l /\ l <> [] /\ n = List.length l
                /\ 0 <= mean_autonomy <= 100 /\ 0 <= mean_progress <= 100
  end.
Proof.
  intros Hrange. destruct students as [[|s l]|]; cbn [Mentor.update_header_cards].
  - now right.
  - exists (s :: l). split; [reflexivity|]. split; [discriminate|].
    split; [reflexivity|].
    specialize (Hrange _ eq_refl).
    assert (Hlen : 0 < INR (List.length (s :: l))).
    { apply lt_0_INR. cbn. lia. }
    assert (Ha : Forall (fun v => 0 <= v <= 1) (map Mentor.autonomy (s :: l))).
    { apply Forall_map. eapply Forall_impl; [|exact Hrange]. cbn. tauto. }
    assert (Hp : Forall (fun v => 0 <= v <= 1) (map Mentor.progress (s :: l))).
    { apply Forall_map. eapply Forall_impl; [|exact Hrange]. cbn. tauto. }
    apply sum_unit_interval in Ha, Hp. rewrite length_map in Ha, Hp.
    pose proof (percent_of_mean _ _ Hlen Ha) as [Ha0 Ha1].
    pose proof (percent_of_mean _ _ Hlen Hp) as [Hp0 Hp1].
    repeat split.
    + rewrite <- round1_0 at 1. apply round1_monotone. exact Ha0.
    + apply round1_monotone in Ha1. rewrite round1_100 in Ha1. exact Ha1.
    + rewrite <- round1_0 at 1. apply round1_monotone. exact Hp0.
    + apply round1_monotone in Hp1. rewrite round1_100 in Hp1. exact Hp1.
  - now left.
Qed.

Lemma header_cards_percentages_witness :
  match Mentor.update_header_cards (fun v => v)
                                   (Some Mentor.INITIAL_STUDENTS) with
  | Mentor.NoData =>
      Some Mentor.INITIAL_STUDENTS = None
      \/ Some Mentor.INITIAL_STUDENTS = Some []
  | Mentor.Averages mean_autonomy mean_progress n =>
      exists l, Some Mentor.INITIAL_STUDENTS = Some l /\ l <> []
                /\ n = List.length l
                /\ 0 <= mean_autonomy <= 100 /\ 0 <= mean_progress <= 100
  end.
Proof.
  apply (header_cards_percentages (fun v => v)).
  - intros a b H. exact H.
  - reflexivity.
  - reflexivity.
  - intros l Hl. inversion Hl; subst.
    unfold Mentor.INITIAL_STUDENTS. repeat constructor; cbn; lra.
Defined.

(** ** The history chart *)

Lemma endswith_suffix (s suffix : string) :
  Mentor.endswith s suffix = true -> exists pre, s = (pre ++ suffix)%string.
Proof.
  induction s as [|c s IH]; cbn [Mentor.endswith].
  - destruct (String.eqb_spec "" suffix) as [<-|]; [|discriminate].
    intros _. exists ""%string. reflexivity.
  - destruct (String.eqb_spec (String c s) suffix) as [<-|_].
    + intros _. exists ""%string. reflexivity.
    + intros H. destruct (IH H) as [pre ->].
      exists (String c pre). reflexivity.
Qed.

Lemma append_assoc (a b c : string) :
  ((a ++ b) ++ c = a ++ (b ++ c))%string.
Proof. induction a as [|x a IH]; cbn; [reflexivity | now rewrite IH]. Qed.

Lemma snoc_last (pre pre' : string) (c c' : ascii) :
  (pre ++ String c "" = pre' ++ String c' "")%string -> c = c'.
Proof.
  revert pre'. induction pre as [|x pre IH]; intros [|x' pre'] H; cbn in H.
  - congruence.
  - inversion H as [[Hx Hrest]]. destruct pre'; discriminate.
  - inversion H as [[Hx Hrest]]. destruct pre; discriminate.
  - inversion H. eauto.
Qed.

Lemma string_of_uint_last (d : Decimal.uint) :
  NilEmpty.string_of_uint d = ""%string
  \/ exists body c,
      NilEmpty.string_of_uint d = (body ++ String c "")%string
      /\ In c ["0"; "1"; "2"; "3"; "4"; "5"; "6"; "7"; "8"; "9"; "e"]%char.
Proof.
  induction d as [|d IH|d IH|d IH|d IH|d IH|d IH|d IH|d IH|d IH|d IH];
    [now left | | | | | | | | | |];
    right; cbn [NilEmpty.string_of_uint];
    (destruct IH as [-> | [body [c [-> Hc]]]];
     [ exists ""%string; eexists; split; [reflexivity | cbn; tauto]
     | eexists (String _ body), c; split; [reflexivity | exact Hc] ]).
Qed.

Lemma format_id_last (selected_student_id : option Z) :
  exists body c,
    Mentor.format_id selected_student_id = (body ++ String c "")%string
    /\ In c ["0"; "1"; "2"; "3"; "4"; "5"; "6"; "7"; "8"; "9"; "e"]%char.
Proof.
  destruct selected_student_id as [z|]; cbn [Mentor.format_id].
  - destruct (Z.to_int z) as [d|d]; cbn [NilZero.string_of_int].
    + unfold NilZero.string_of_uint.
      destruct (string_of_uint_last d) as [Hnil | Hlast].
      * destruct d; try discriminate Hnil.
        exists ""%string, "0"%char. split; [reflexivity | cbn; tauto].
      * destruct d; try exact Hlast.
        exists ""%string, "0"%char. split; [reflexivity | cbn; tauto].
    + unfold NilZero.string_of_uint.
      destruct (string_of_uint_last d) as [Hnil | [body [c [Hd Hc]]]].
      * destruct d; try discriminate Hnil.
        exists "-"%string, "0"%char. split; [reflexivity | cbn; tauto].
      * destruct d; try (exists (String "-" body), c; split;
                         [cbn; now rewrite <- Hd | exact Hc]).
        exists "-"%string, "0"%char. split; [reflexivity | cbn; tauto].
  - exists "Non"%string, "e"%char. split; [reflexivity | cbn; tauto].
Qed.

Lemma cohort_name_not_matched (name : string)
      (selected_student_id : option Z) :
  In name (map Mentor.name Mentor.INITIAL_STUDENTS) ->
  Mentor.endswith name (Mentor.format_id selected_student_id) = false.
Proof.
  intros Hname.
  destruct (Mentor.endswith name (Mentor.format_id selected_student_id))
    eqn:Hends; [exfalso | reflexivity].
  apply endswith_suffix in Hends. destruct Hends as [pre Hpre].
  destruct (format_id_last selected_student_id) as [body [c [Hid Hc]]].
  rewrite Hid, <- append_assoc in Hpre.
  cbn in Hname.
  destruct Hname as [<- | [<- | [<- | [<- | []]]]];
    [ apply (snoc_last "Student " _ "A" c) in Hpre
    | apply (snoc_last "Student " _ "B" c) in Hpre
    | apply (snoc_last "Student " _ "C" c) in Hpre
    | apply (snoc_last "Student " _ "D" c) in Hpre ];
    subst c; cbn in Hc; intuition discriminate.
Qed.

(** X28. The history chart does not depend on the selected student: no name
    of [INITIAL_STUDENTS] ends with the text of an id (or of [None]), so
    for a log whose events bear these names the filter keeps nothing and
    the chart falls back to the whole log: the first [window] events (10
    when the window is no integer), oldest first, numbered from 1.  A
    window that leaves no event makes the callback raise [ValueError]; a
    positive window, as the radio buttons give, never does. *)
Theorem history_ignores_selection
        (parse_int : option string -> option Z)
        (log : list Mentor.event) (window : option string)
        (selected_student_id : option Z) :
  Forall (fun e => In (Mentor.event_name e)
                      (map Mentor.name Mentor.INITIAL_STUDENTS)) log ->
  log <> [] ->
  let w := match parse_int window with Some n => n | None => 10%Z end in
  Mentor.update_autonomy_history parse_int (Some log) window
                                 selected_student_id
  = match head w log with
    | [] => inl Mentor.ValueError
    | _ =>
        inr (Mentor.LineFigure
               (seq 1 (List.length (head w log)))
               (map Mentor.event_autonomy (rev (head w log))))
    end
  /\ ((0 < w)%Z -> head w log <> []).
Proof.
  intros Hnames Hlog w. split.
  - unfold Mentor.update_autonomy_history.
    destruct log as [|e log]; [congruence|].
    rewrite (filter_none _ (e :: log)).
    + fold w. destruct (head w (e :: log)) as [|a rest]; [reflexivity|].
      destruct (rev (a :: rest)) as [|b r] eqn:Hr.
      * apply (f_equal (@List.length _)) in Hr.
        rewrite length_rev in Hr. discriminate.
      * rewrite <- Hr, length_rev. reflexivity.
    + intros e' He'. apply cohort_name_not_matched.
      rewrite Forall_forall in Hnames. apply Hnames. exact He'.
  - intros Hw. rewrite head_nonneg by lia.
    destruct log as [|e log]; [congruence|].
    destruct (Z.to_nat w) as [|n] eqn:Hn; [lia | discriminate].
Qed.

Lemma history_ignores_selection_witness :
  Mentor.update_autonomy_history
    (fun _ => Some 5%Z)
    (Some [Mentor.mk_event "Student B" "10:00:05" 66;
           Mentor.mk_event "Student A" "10:00:00" 41])
    (Some "5"%string) (Some 1%Z)
  = inr (Mentor.LineFigure [1; 2]%nat [41; 66]).
Proof.
  apply (history_ignores_selection
           (fun _ => Some 5%Z)
           [Mentor.mk_event "Student B" "10:00:05" 66;
            Mentor.mk_event "Student A" "10:00:00" 41]
           (Some "5"%string) (Some 1%Z)).
  - repeat constructor; cbn; tauto.
  - discriminate.
Defined.


